(** * vscode-meson: task synthesis, test-tree reconciliation and test drivers

    A shallow embedding of [src/tests.ts], [src/utils.ts] (getTargetName,
    getMesonTargetsFromFolder, exec, workspaceRelative, arrayIncludes),
    [src/tasks.ts] (getMesonTasksForDir, getMesonTasks, getTask), the debug
    configuration provider and [src/meson/runners.ts] (runMesonConfigure,
    runMesonReconfigure, runMesonBuild), followed by the properties the
    specification states about them and by further properties of the code.

    Conventions of the embedding:
    - a JS object used as a string-keyed record (a debug configuration, an
      environment mapping, the [debugOptions] setting) is a [gmap string _];
      object spread [{...a, ...b}] is the union [b ∪ a] (stdpp's union keeps
      the left operand's binding, JS keeps the right-most spread's);
    - a [vscode.TestItemCollection] is the insertion-ordered list of its
      items (the host keeps them in a JS [Map] keyed by [item.id]);
    - an [async] function that can reject returns a [Result];
    - host notifications, process launches and test-run reports are recorded
      as a list of [Event]s in program order;
    - Node's [path] module is the POSIX one ([path === path.posix]). *)

From Stdlib Require Import Ascii String.
From stdpp Require Import gmap strings list.

#[local] Set Warnings "-register-all".
#[local] Open Scope string_scope.
#[local] Open Scope list_scope.

(** ** Node's [path.posix] *)

Module Path.

Definition isSlash (c : ascii) : bool := Ascii.eqb c "/"%char.

(** [s.split("/")] *)
Fixpoint split (s : string) : list string :=
  match s with
  | EmptyString => [ EmptyString ]
  | String c r =>
      if isSlash c then EmptyString :: split r
      else match split r with
           | [] => [ String c EmptyString ]
           | h :: t => String c h :: t
           end
  end.

(** [segs.join("/")] *)
Fixpoint join (segs : list string) : string :=
  match segs with
  | [] => ""
  | [ s ] => s
  | s :: r => s +:+ "/" +:+ join r
  end.

Definition isAbsolute (p : string) : bool :=
  match p with
  | String c _ => isSlash c
  | EmptyString => false
  end.

(** One segment of [normalizeString]; [acc] is the output so far, last
    segment first. Empty and ["."] segments vanish, [".."] removes the last
    segment unless there is none or it is itself [".."]; in that case it is
    kept only when [allowAboveRoot]. *)
Definition normalizeStep (allowAboveRoot : bool) (acc : list string) (seg : string)
  : list string :=
  if String.eqb seg "" || String.eqb seg "." then acc
  else if String.eqb seg ".." then
    match acc with
    | top :: rest =>
        if String.eqb top ".." then (if allowAboveRoot then ".." :: acc else acc)
        else rest
    | [] => if allowAboveRoot then [ ".." ] else []
    end
  else seg :: acc.

Definition normalizeSegs (allowAboveRoot : bool) (segs : list string) : list string :=
  rev (fold_left (normalizeStep allowAboveRoot) segs []).

Definition normalizeString (p : string) (allowAboveRoot : bool) : string :=
  join (normalizeSegs allowAboveRoot (split p)).

Definition endsWithSlash (p : string) : bool :=
  match rev (list_ascii_of_string p) with
  | c :: _ => isSlash c
  | [] => false
  end.

(** [path.posix.normalize] *)
Definition normalize (p : string) : string :=
  if String.eqb p "" then "."
  else
    let abs := isAbsolute p in
    let trailing := endsWithSlash p in
    let n := normalizeString p (negb abs) in
    if String.eqb n "" then
      (if abs then "/" else if trailing then "./" else ".")
    else
      let n' := if trailing then n +:+ "/" else n in
      if abs then "/" +:+ n' else n'.

(** [path.posix.join(...args)] *)
Definition posix_join (args : list string) : string :=
  match List.filter (fun a => negb (String.eqb a "")) args with
  | [] => "."
  | nonempty => normalize (join nonempty)
  end.

(** The right-to-left scan of [path.posix.resolve]: [rargs] are the
    arguments last first, [acc] the path assembled so far. The scan stops at
    the first absolute argument and falls back on [process.cwd()]. *)
Fixpoint resolveScan (cwd : string) (rargs : list string) (acc : string)
  : string * bool :=
  match rargs with
  | [] => (cwd +:+ "/" +:+ acc, isAbsolute cwd)
  | p :: r =>
      if String.eqb p "" then resolveScan cwd r acc
      else if isAbsolute p then (p +:+ "/" +:+ acc, true)
      else resolveScan cwd r (p +:+ "/" +:+ acc)
  end.

(** [path.posix.resolve(...args)] with [process.cwd() = cwd] *)
Definition resolve (cwd : string) (args : list string) : string :=
  let '(p, abs) := resolveScan cwd (rev args) "" in
  let n := normalizeString p (negb abs) in
  if abs then "/" +:+ n
  else if String.eqb n "" then "." else n.

(** The segments of an absolute, normalized path: ["/"] has none. *)
Definition segments (p : string) : list string :=
  List.filter (fun s => negb (String.eqb s "")) (split p).

Fixpoint stripCommon (xs ys : list string) : list string * list string :=
  match xs, ys with
  | x :: xs', y :: ys' =>
      if String.eqb x y then stripCommon xs' ys' else (xs, ys)
  | _, _ => (xs, ys)
  end.

(** [path.posix.relative(from, to)]: both are resolved, the common leading
    segments are dropped, every remaining segment of [from] becomes [".."]
    and the remaining segments of [to] follow. *)
Definition relative (cwd : string) (from to : string) : string :=
  if String.eqb from to then ""
  else
    let f := resolve cwd [ from ] in
    let t := resolve cwd [ to ] in
    if String.eqb f t then ""
    else
      let '(fs, ts) := stripCommon (segments f) (segments t) in
      join (map (fun _ => "..") fs ++ ts).

Fixpoint dropWhile {A : Type} (f : A -> bool) (l : list A) : list A :=
  match l with
  | [] => []
  | x :: r => if f x then dropWhile f r else l
  end.

(** [path.posix.dirname]: trailing slashes are skipped, then the path is cut
    at the last slash that is not its first character. *)
Definition dirname (p : string) : string :=
  match p with
  | EmptyString => "."
  | String c0 rest =>
      let hasRoot := isSlash c0 in
      let r1 := dropWhile isSlash (rev (list_ascii_of_string rest)) in
      match dropWhile (fun c => negb (isSlash c)) r1 with
      | [] => if hasRoot then "/" else "."
      | _ :: r3 =>
          if hasRoot && bool_decide (r3 = []) then "//"
          else String c0 (string_of_list_ascii (rev r3))
      end
  end.

End Path.

(** ** Data model *)

(** JSON-like values: the fields of a debug configuration and the values of
    the [debugOptions] setting and of build options. *)
Inductive Json : Type :=
| JUndefined
| JNull
| JBool (b : bool)
| JNum (z : Z)
| JStr (s : string)
| JArr (l : list Json)
| JObj (m : gmap string Json).

(** [vscode.Uri], as far as the program reads it. *)
Record Uri : Type := mkUri {
  fsPath : string;
  path : string }.

Record WorkspaceFolder : Type := mkWorkspaceFolder {
  ws_name : string;
  ws_uri : Uri }.

(** The introspection types of [./meson/types], with the fields the program
    reads. [workspace] is filled in by [getMesonTargetsFromFolder]. *)
Record TargetSource : Type := mkTargetSource {
  language : string }.

Record Target : Type := mkTarget {
  target_name : string;
  target_id : string;
  target_type : string;
  defined_in : string;
  filename : list string;
  target_sources : list TargetSource;
  workspace : option WorkspaceFolder }.

Record Test : Type := mkTest {
  test_name : string;
  workdir : option string;
  cmd : list string;
  env : gmap string string;
  depends : list string }.

Record BuildOption : Type := mkBuildOption {
  option_name : string;
  option_value : Json }.

Record ProjectInfo : Type := mkProjectInfo {
  descriptive_name : string }.

Record ExtensionConfiguration : Type := mkExtensionConfiguration {
  mesonPath : string;
  buildFolder : string;
  debugOptions : gmap string Json;
  configureOptions : list string }.

(** *** Processes and exceptions *)

(** [error.code] of a [cp.ExecException]: the exit status of the child, the
    symbolic errno name when it could not be spawned (["ENOENT"], ...), or
    nothing when it was killed by a signal. *)
Inductive ErrorCode : Type :=
| ExitStatus (n : Z)
| ErrnoName (s : string)
| NoCode.

Record ExecException : Type := mkExecException {
  code : ErrorCode }.

(** The arguments [cp.execFile] hands to its callback. *)
Record ExecFileResult : Type := mkExecFileResult {
  cb_error : option ExecException;
  cb_stdout : string;
  cb_stderr : string }.

(** Values a promise of the program is rejected with. *)
Inductive Exn : Type :=
| ExecRejection (error : ExecException) (stdout stderr : string)
| TypeError (what : string)
| OtherError (message : string).

Inductive Result (A : Type) : Type :=
| Ok (a : A)
| Throw (e : Exn).
Arguments Ok {A} a.
Arguments Throw {A} e.

(** [await r] followed by [k]: a rejection propagates. Written [x ← r; k]. *)
#[global] Instance Result_bind : MBind Result :=
  fun (A B : Type) (k : A -> Result B) (r : Result A) =>
    match r with
    | Ok a => k a
    | Throw e => Throw e
    end.

(** [e.stderr] for a caught value [e] *)
Definition exn_stderr (e : Exn) : option string :=
  match e with
  | ExecRejection _ _ err => Some err
  | _ => None
  end.

(** [e.stdout] for a caught value [e] *)
Definition exn_stdout (e : Exn) : option string :=
  match e with
  | ExecRejection _ out _ => Some out
  | _ => None
  end.

(** JS truthiness of an optional string: [undefined], [null] and [""] are
    falsy. *)
Definition truthy (s : option string) : bool :=
  match s with
  | Some v => negb (String.eqb v "")
  | None => false
  end.

(** *** The environment

    Everything the program asks of its host: the extension's settings, the
    open workspace folders, the file system, Meson's introspection (module
    [./meson/introspection], keyed by build directory), the process runner
    and the clock. [execFile n] is the outcome of the [n]-th process a
    handler spawns and [now n] the [n]-th reading of [Date.now()]. *)
Record World : Type := mkWorld {
  config : ExtensionConfiguration;
  cwd : string;
  workspaceFolders : option (list WorkspaceFolder);
  existsSync : string -> bool;
  getMesonTargets : string -> Result (list Target);
  getMesonTests : string -> Result (list Test);
  getMesonBenchmarks : string -> Result (list Test);
  getMesonBuildOptions : string -> Result (list BuildOption);
  getMesonProjectInfo : string -> Result ProjectInfo;
  execFile : nat -> string -> list string -> ExecFileResult;
  now : nat -> Z }.

(** [path.resolve(folder.uri.fsPath, extensionConfiguration("buildFolder"))] *)
Definition buildDirOf (w : World) (folder : WorkspaceFolder) : string :=
  Path.resolve (cwd w) [ fsPath (ws_uri folder); buildFolder (config w) ].

(** [exec] of utils.ts: the promise is rejected with [{error, stdout, stderr}]
    when the callback's [error] is set and fulfilled with [{stdout, stderr}]
    otherwise. *)
Definition exec (w : World) (n : nat) (command : string) (args : list string)
  : Result (string * string) :=
  let r := execFile w n command args in
  match cb_error r with
  | Some error => Throw (ExecRejection error (cb_stdout r) (cb_stderr r))
  | None => Ok (cb_stdout r, cb_stderr r)
  end.

(** Node's report of a child that ran and exited with status [c]: no error
    for status 0, an error whose [code] is the status otherwise. *)
Definition exitedWith (c : Z) (r : ExecFileResult) : Prop :=
  cb_error r = if (c =? 0)%Z then None else Some (mkExecException (ExitStatus c)).

(** ** The test tree *)

Inductive TestItem : Type := mkTestItem {
  item_id : string;
  item_label : string;
  item_uri : option Uri;
  children : list TestItem }.

(** [controller.createTestItem(id, label, uri?)] *)
Definition createTestItem (id label : string) (uri : option Uri) : TestItem :=
  mkTestItem id label uri [].

(** *** [vscode.TestItemCollection] *)

Definition hasId (k : string) (item : TestItem) : bool :=
  String.eqb (item_id item) k.

(** [collection.get(id)] *)
Definition coll_get (k : string) (c : list TestItem) : option TestItem :=
  List.find (hasId k) c.

(** [collection.delete(id)] *)
Definition coll_delete (k : string) (c : list TestItem) : list TestItem :=
  List.filter (fun item => negb (hasId k item)) c.

(** [collection.add(item)]: an item with the same id is replaced in place,
    a new id goes last. *)
Fixpoint coll_add (item : TestItem) (c : list TestItem) : list TestItem :=
  match c with
  | [] => [ item ]
  | x :: r => if hasId (item_id item) x then item :: r else x :: coll_add item r
  end.

(** The calls a reconciliation makes on the collection it is given. *)
Inductive CollOp : Type :=
| OpDelete (k : string)
| OpAdd (item : TestItem).

Definition isDelete (op : CollOp) : bool :=
  match op with OpDelete _ => true | OpAdd _ => false end.

(** The children of the item [k] are replaced: the effect, on the collection
    that holds the item, of mutating the shared [item.children]. *)
Definition coll_set_children (k : string) (ch : list TestItem) (c : list TestItem)
  : list TestItem :=
  map (fun item =>
         if hasId k item
         then mkTestItem (item_id item) (item_label item) (item_uri item) ch
         else item) c.

Definition ids (c : list TestItem) : list string := map item_id c.

(** ** Host events *)

Inductive Event : Type :=
| EvExecFile (command : string) (args : list string)
| EvShowErrorMessage (msg : string)
| EvConsoleLog (msg : string)
| EvOutputAppendExn (e : Exn)
| EvOutputAppendLine (s : string)
| EvRunStarted (test : TestItem)
| EvRunPassed (test : TestItem) (duration : option Z)
| EvRunErrored (test : TestItem) (message : option string)
| EvRunFailed (test : TestItem) (message : option string) (duration : Z)
| EvRunAppendOutput (output : option string)
| EvRunEnd
| EvStartDebugging (folder : WorkspaceFolder) (config : gmap string Json).

(** ** tests.ts *)

(** [tests.some(test => item.id == test.name)] *)
Definition matchesSomeTest (tests : list Test) (item : TestItem) : bool :=
  existsb (fun test => String.eqb (item_id item) (test_name test)) tests.

(** The body of the [collection.forEach] of [rebuildTestsForFolder]; the
    state is the collection with the calls made on it so far. *)
Definition removeStale (tests : list Test) (st : list TestItem * list CollOp)
  (item : TestItem) : list TestItem * list CollOp :=
  if negb (matchesSomeTest tests item)
  then (coll_delete (item_id item) st.1, st.2 ++ [ OpDelete (item_id item) ])
  else st.

(** The body of the [for (let testDescr of tests)] loop. *)
Definition addTestItem (folder : WorkspaceFolder) (st : list TestItem * list CollOp)
  (testDescr : Test) : list TestItem * list CollOp :=
  let testItem :=
    createTestItem (test_name testDescr) (test_name testDescr) (Some (ws_uri folder)) in
  (coll_add testItem st.1, st.2 ++ [ OpAdd testItem ]).

(** The two loops of [rebuildTestsForFolder] once the tests are fetched. *)
Definition reconcile (tests : list Test) (folder : WorkspaceFolder)
  (collection : list TestItem) : list TestItem * list CollOp :=
  let st := fold_left (removeStale tests) collection (collection, []) in
  fold_left (addTestItem folder) tests st.

(** [rebuildTestsForFolder(controller, collection, folder)]: the collection
    afterwards and the calls made on it. *)
Definition rebuildTestsForFolder (w : World) (collection : list TestItem)
  (folder : WorkspaceFolder) : Result (list TestItem * list CollOp) :=
  tests ← getMesonTests w (buildDirOf w folder);
  Ok (reconcile tests folder collection).

(** One turn of the [for (const wsFolder of ...)] loop of [rebuildTests];
    the state is [controller.items] and the events so far. *)
Definition rebuildFolder (w : World) (st : list TestItem * list Event)
  (wsFolder : WorkspaceFolder) : list TestItem * list Event :=
  let '(items, evs) := st in
  let buildDir := buildDirOf w wsFolder in
  let failed :=
    evs ++ [ EvShowErrorMessage ("Failed to get tests for folder " +:+ ws_name wsFolder) ] in
  if negb (existsSync w buildDir) then
    match coll_get (fsPath (ws_uri wsFolder)) items with
    | Some item => (coll_delete (item_id item) items, evs)
    | None => (items, evs)
    end
  else
    match getMesonProjectInfo w buildDir with
    | Throw _ => (items, failed)
    | Ok info =>
        let '(item, items1) :=
          match coll_get (fsPath (ws_uri wsFolder)) items with
          | Some item => (item, items)
          | None =>
              let item :=
                createTestItem (path (ws_uri wsFolder)) (descriptive_name info) None in
              (item, coll_add item items)
          end in
        match rebuildTestsForFolder w (children item) wsFolder with
        | Throw _ => (items1, failed)
        | Ok (ch, _) => (coll_set_children (item_id item) ch items1, evs)
        end
    end.

(** [vscode.workspace.workspaceFolders.some(wsFolder => wsFolder.uri.path == item.id)] *)
Definition isReferenced (folders : list WorkspaceFolder) (item : TestItem) : bool :=
  existsb (fun wsFolder => String.eqb (path (ws_uri wsFolder)) (item_id item)) folders.

(** The body of the closing [controller.items.forEach] of [rebuildTests]. *)
Definition pruneItem (folders : list WorkspaceFolder) (st : list TestItem * list Event)
  (item : TestItem) : list TestItem * list Event :=
  if (length (children item) =? 0)%nat then
    (coll_delete (item_id item) st.1, st.2)
  else if negb (isReferenced folders item) then
    (coll_delete (item_id item) st.1,
     st.2 ++ [ EvConsoleLog ("Removing item with " +:+ item_id item
                             +:+ " becuase it's not referenced") ])
  else st.

(** The [else] branch of [rebuildTests]: every folder in turn, then the
    pruning pass. *)
Definition rebuildTestsMulti (w : World) (folders : list WorkspaceFolder)
  (items : list TestItem) : list TestItem * list Event :=
  let st := fold_left (rebuildFolder w) folders (items, []) in
  fold_left (pruneItem folders) st.1 st.

(** [rebuildTests(controller)], on [controller.items]. With no workspace
    open, reading [.length] of [undefined] throws. With one folder the
    reconciliation of [controller.items] is started and not awaited: the
    collection is given as it is once that call has settled, and its
    rejection reaches no handler. *)
Definition rebuildTests (w : World) (items : list TestItem)
  : Result (list TestItem * list Event) :=
  match workspaceFolders w with
  | None => Throw (TypeError "workspaceFolders is undefined")
  | Some folders =>
      match folders with
      | [ folder ] =>
          match rebuildTestsForFolder w items folder with
          | Ok (items', _) => Ok (items', [])
          | Throw _ => Ok (items, [])
          end
      | _ => Ok (rebuildTestsMulti w folders items)
      end
  end.

(** [addTests(queue, tests)]: every item followed by its descendants, in
    order; the result is what is pushed on [queue]. *)
Fixpoint addTestsOf (test : TestItem) : list TestItem :=
  test :: (fix sub (l : list TestItem) : list TestItem :=
             match l with
             | [] => []
             | c :: r => addTestsOf c ++ sub r
             end) (children test).

Definition addTests (tests : list TestItem) : list TestItem :=
  flat_map addTestsOf tests.

(** [vscode.TestRunRequest], as far as the handlers read it. *)
Record TestRunRequest : Type := mkTestRunRequest {
  include : option (list TestItem) }.

(** [request.include ?? controller.items], expanded by [addTests] *)
Definition selectedQueue (items : list TestItem) (request : TestRunRequest)
  : list TestItem :=
  addTests (match include request with
            | Some l => l
            | None => items
            end).

(** [e.error.code == 125] on a rejection of [exec]. The comparison is the
    loose one; an errno name is a symbolic constant and converts to no
    number. *)
Definition isBuildFailure (c : ErrorCode) : bool :=
  match c with
  | ExitStatus n => (n =? 125)%Z
  | ErrnoName _ => false
  | NoCode => false
  end.

(** How a turn of the run loop ends. *)
Inductive Completion : Type :=
| Completed
| Threw (e : Exn).

(** The state of the run loop: the leaf tests executed so far (the index of
    the next process and of the next two clock readings) and the events. *)
Record RunState : Type := mkRunState {
  executed : nat;
  events : list Event }.

(** What the [catch] clause of the run loop reports for a rejection of
    [exec], given the duration it has measured. *)
Definition reportRejection (test : TestItem) (error : ExecException)
  (stderr : string) (duration : Z) : list Event :=
  if isBuildFailure (code error) then
    [ EvShowErrorMessage "Failed to build tests. Results will not be updated";
      EvRunErrored test (Some stderr) ]
  else
    [ EvRunFailed test (Some stderr) duration ].

(** One turn of the [for (let test of queue)] loop of [testRunHandler]. A
    test without [uri] makes [test.uri.fsPath] throw inside the [try]; the
    [catch] clause then reads [e.error.code] of a [TypeError], which throws
    out of the handler. *)
Definition runTest (w : World) (st : RunState) (test : TestItem)
  : RunState * Completion :=
  let k := executed st in
  let evs := events st ++ [ EvRunStarted test ] in
  if (0 <? length (children test))%nat then
    (mkRunState k (evs ++ [ EvRunPassed test None ]), Completed)
  else
    let starttime := now w (2 * k) in
    let duration := (now w (2 * k + 1) - starttime)%Z in
    match item_uri test with
    | None =>
        (mkRunState (S k) (evs ++ [ EvRunAppendOutput None ]),
         Threw (TypeError "e.error is undefined"))
    | Some uri =>
        let args :=
          [ "test"; "-C";
            Path.resolve (cwd w) [ fsPath uri; buildFolder (config w) ];
            "--print-errorlog"; item_id test ] in
        let evs := evs ++ [ EvExecFile (mesonPath (config w)) args ] in
        match exec w k (mesonPath (config w)) args with
        | Ok _ =>
            (mkRunState (S k) (evs ++ [ EvRunPassed test (Some duration) ]), Completed)
        | Throw (ExecRejection error stdout stderr) =>
            (mkRunState (S k)
               (evs ++ EvRunAppendOutput (Some stdout)
                    :: reportRejection test error stderr duration),
             Completed)
        | Throw e =>
            (mkRunState (S k) (evs ++ [ EvRunAppendOutput (exn_stdout e) ]),
             Threw (TypeError "e.error is undefined"))
        end
    end.

(** The run loop: it stops at the first turn that throws. *)
Fixpoint runQueue (w : World) (st : RunState) (queue : list TestItem)
  : RunState * Completion :=
  match queue with
  | [] => (st, Completed)
  | test :: rest =>
      match runTest w st test with
      | (st', Completed) => runQueue w st' rest
      | (st', Threw e) => (st', Threw e)
      end
  end.

(** [testRunHandler(controller, request, token)]: the events of the run and
    whether the handler returned. [run.end()] is reached only in that case. *)
Definition testRunHandler (w : World) (items : list TestItem)
  (request : TestRunRequest) : list Event * Completion :=
  match runQueue w (mkRunState 0 []) (selectedQueue items request) with
  | (st, Completed) => (events st ++ [ EvRunEnd ], Completed)
  | (st, Threw e) => (events st, Threw e)
  end.

(** *** The debug driver *)

(** A [{folder, config}] pair handed to [vscode.debug.startDebugging]. *)
Record DebugLaunch : Type := mkDebugLaunch {
  dl_folder : WorkspaceFolder;
  dl_config : gmap string Json }.

(** [tests.filter(test => queue.some(candidate => candidate.id == test.name))] *)
Definition relevantTestsOf (queue : list TestItem) (tests : list Test) : list Test :=
  List.filter
    (fun test => existsb (fun candidate => String.eqb (item_id candidate) (test_name test)) queue)
    tests.

(** [targets.filter(target => relevantTests.some(test =>
      test.depends.some(dep => dep == target.id)))] *)
Definition requiredTargetsOf (relevantTests : list Test) (targets : list Target)
  : list Target :=
  List.filter
    (fun target =>
       existsb (fun test =>
                  existsb (fun dep => String.eqb dep (target_id target)) (depends test))
               relevantTests)
    targets.

(** [test.workdir || buildDir]: [null] and the empty string are falsy. *)
Definition workdirOr (wd : option string) (buildDir : string) : string :=
  match wd with
  | Some d => if String.eqb d "" then buildDir else d
  | None => buildDir
  end.

(** [arr[0]] as a configuration field: [undefined] on an empty array. *)
Definition firstOrUndefined (arr : list string) : Json :=
  match arr with
  | [] => JUndefined
  | x :: _ => JStr x
  end.

(** The object literal [debugConfiguration] of [prepareTestInFolder];
    [args] is a copy of [test.cmd] after [args.shift()]. *)
Definition testDebugConfiguration (buildDir : string) (test : Test)
  : gmap string Json :=
  let args := tail (cmd test) in
  list_to_map
    [ ("name", JStr ("meson-debug-" +:+ test_name test));
      ("type", JStr "cppdbg");
      ("request", JStr "launch");
      ("cwd", JStr (workdirOr (workdir test) buildDir));
      ("env", JObj (JStr <$> env test));
      ("program", firstOrUndefined (cmd test));
      ("args", JArr (JStr <$> args)) ].

(** [{...debugConfiguration, ...configDebugOptions}] *)
Definition testLaunch (w : World) (wsFolder : WorkspaceFolder) (buildDir : string)
  (test : Test) : DebugLaunch :=
  mkDebugLaunch wsFolder
    (debugOptions (config w) ∪ testDebugConfiguration buildDir test).

(** [prepareTestInFolder(queue, wsFolder)]; [n] is the index of the process
    it may spawn. *)
Definition prepareTestInFolder (w : World) (n : nat) (queue : list TestItem)
  (wsFolder : WorkspaceFolder) : Result (list DebugLaunch) * list Event :=
  let buildDir := buildDirOf w wsFolder in
  match getMesonTests w buildDir with
  | Throw e => (Throw e, [])
  | Ok tests =>
      match getMesonTargets w buildDir with
      | Throw e => (Throw e, [])
      | Ok targets =>
          let relevantTests := relevantTestsOf queue tests in
          let requiredTargets := requiredTargetsOf relevantTests targets in
          if (length requiredTargets =? 0)%nat then (Ok [], [])
          else
            let args := [ "compile"; "-C"; buildDir ] ++ map target_name requiredTargets in
            let spawn := EvExecFile (mesonPath (config w)) args in
            match exec w n (mesonPath (config w)) args with
            | Throw _ =>
                (Ok [],
                 [ spawn;
                   EvShowErrorMessage ("Failed to build tests in " +:+ ws_name wsFolder
                                       +:+ ". Results will not be updated") ])
            | Ok _ => (Ok (map (testLaunch w wsFolder buildDir) relevantTests), [ spawn ])
            end
      end
  end.

(** [test.uri == wsFolder.uri]: the two are the same [Uri] object; a test
    item of a folder carries that folder's [uri]. *)
Definition sameUri (a : option Uri) (b : Uri) : bool :=
  match a with
  | Some u => String.eqb (fsPath u) (fsPath b) && String.eqb (path u) (path b)
  | None => false
  end.

(** The state of the folder loop of [testDebugHandler]. *)
Record DebugState : Type := mkDebugState {
  spawned : nat;
  debugConfigs : list DebugLaunch;
  debugEvents : list Event }.

Definition countSpawns (evs : list Event) : nat :=
  length (List.filter (fun ev => match ev with EvExecFile _ _ => true | _ => false end) evs).

(** The folder loop of [testDebugHandler]; a rejection of
    [prepareTestInFolder] ends the handler. *)
Fixpoint prepareFolders (w : World) (queue : list TestItem) (st : DebugState)
  (folders : list WorkspaceFolder) : DebugState * Completion :=
  match folders with
  | [] => (st, Completed)
  | wsFolder :: rest =>
      if existsb (fun test => sameUri (item_uri test) (ws_uri wsFolder)) queue then
        match prepareTestInFolder w (spawned st) queue wsFolder with
        | (Ok configs, evs) =>
            prepareFolders w queue
              (mkDebugState (spawned st + countSpawns evs)
                            (debugConfigs st ++ configs)
                            (debugEvents st ++ evs))
              rest
        | (Throw e, evs) =>
            (mkDebugState (spawned st + countSpawns evs) (debugConfigs st)
                          (debugEvents st ++ evs),
             Threw e)
        end
      else prepareFolders w queue st rest
  end.

(** [testDebugHandler(controller, request, token)] *)
Definition testDebugHandler (w : World) (items : list TestItem)
  (request : TestRunRequest) : list Event * Completion :=
  let queue := selectedQueue items request in
  match workspaceFolders w with
  | None => ([], Threw (TypeError "workspaceFolders is not iterable"))
  | Some folders =>
      match prepareFolders w queue (mkDebugState 0 [] []) folders with
      | (st, Completed) =>
          (debugEvents st
             ++ map (fun c => EvStartDebugging (dl_folder c) (dl_config c)) (debugConfigs st)
             ++ [ EvRunEnd ],
           Completed)
      | (st, Threw e) => (debugEvents st, Threw e)
      end
  end.

(** ** utils.ts *)

(** [getMesonTargetsFromFolder(folder)] *)
Definition withWorkspace (folder : WorkspaceFolder) (target : Target) : Target :=
  mkTarget (target_name target) (target_id target) (target_type target)
           (defined_in target) (filename target) (target_sources target)
           (Some folder).

Definition getMesonTargetsFromFolder (w : World) (folder : WorkspaceFolder)
  : Result (list Target) :=
  ret ← getMesonTargets w (buildDirOf w folder);
  Ok (map (withWorkspace folder) ret).

(** [layoutOption.value === "mirror"] *)
Definition isMirror (v : Json) : bool :=
  match v with
  | JStr s => String.eqb s "mirror"
  | _ => false
  end.

(** [buildOptions.filter(o => o.name === "layout")[0]] *)
Definition layoutOptionOf (buildOptions : list BuildOption) : option BuildOption :=
  head (List.filter (fun o => String.eqb (option_name o) "layout") buildOptions).

(** [getTargetName(target)]. Reading [.uri] of a missing workspace or
    [.value] of a missing layout option throws. *)
Definition getTargetName (w : World) (target : Target) : Result string :=
  match workspace target with
  | None => Throw (TypeError "target.workspace is undefined")
  | Some folder =>
      buildOptions ← getMesonBuildOptions w (buildDirOf w folder);
      match layoutOptionOf buildOptions with
      | None => Throw (TypeError "layoutOption is undefined")
      | Some layoutOption =>
          if isMirror (option_value layoutOption) then
            let relativePath :=
              Path.relative (cwd w) (fsPath (ws_uri folder))
                            (Path.dirname (defined_in target)) in
            Ok (Path.posix_join [ relativePath; target_name target ])
          else
            Ok ("meson-out/" +:+ target_name target)
      end
  end.

(** ** tasks.ts *)

Inductive Mode : Type :=
| ModeBuild
| ModeRun
| ModeTest
| ModeBenchmark
| ModeClean
| ModeReconfigure.

#[global] Instance Mode_eq_dec : EqDecision Mode.
Proof. solve_decision. Defined.

(** [MesonTaskDefinition]; its [type] is always ["meson"]. *)
Record MesonTaskDefinition : Type := mkDef {
  def_target : option string;
  def_mode : Mode;
  def_filename : option string }.

#[global] Instance MesonTaskDefinition_eq_dec : EqDecision MesonTaskDefinition.
Proof. solve_decision. Defined.

Inductive TaskGroup : Type :=
| GroupBuild
| GroupTest
| GroupRebuild
| GroupClean.

(** [vscode.ProcessExecution(process, args?, options?)] *)
Record ProcessExecution : Type := mkProcessExecution {
  process : string;
  pe_args : list string;
  pe_cwd : option string;
  pe_env : option (gmap string string) }.

(** [vscode.Task(definition, scope, name, source, execution)] and its group;
    [source] is always ["Meson"]. *)
Record Task : Type := mkTask {
  definition : MesonTaskDefinition;
  scope : WorkspaceFolder;
  task_name : string;
  execution : ProcessExecution;
  group : TaskGroup }.

Section TaskSynthesis.

Variable w : World.
Variable buildDir : string.
Variable folder : WorkspaceFolder.

(** A task of the meson binary run in the build directory. *)
Definition mesonTask (def : MesonTaskDefinition) (name : string)
  (args : list string) (dir : string) (e : option (gmap string string))
  (g : TaskGroup) : Task :=
  mkTask def folder name
         (mkProcessExecution (mesonPath (config w)) args (Some dir) e) g.

Definition defaultBuildTask : Task :=
  mesonTask (mkDef None ModeBuild None) "Build all targets"
            [ "compile" ] buildDir None GroupBuild.

Definition defaultTestTask : Task :=
  mesonTask (mkDef None ModeTest None) "Run tests"
            [ "test" ] buildDir None GroupTest.

Definition defaultBenchmarkTask : Task :=
  mesonTask (mkDef None ModeBenchmark None) "Run benchmarks"
            [ "test"; "--benchmark"; "--verbose" ] buildDir None GroupTest.

Definition defaultReconfigureTask : Task :=
  mesonTask (mkDef None ModeReconfigure None) "Reconfigure"
            [ "setup"; "--reconfigure"; buildDir ] (fsPath (ws_uri folder)) None
            GroupRebuild.

Definition defaultCleanTask : Task :=
  mesonTask (mkDef None ModeClean None) "Clean"
            [ "compile"; "--clean" ] buildDir None GroupClean.

Definition defaultTasks : list Task :=
  [ defaultBuildTask; defaultTestTask; defaultBenchmarkTask;
    defaultReconfigureTask; defaultCleanTask ].

Definition buildTaskOf (targetName : string) : Task :=
  mesonTask (mkDef (Some targetName) ModeBuild None) ("Build " +:+ targetName)
            [ "compile"; targetName ] buildDir None GroupBuild.

(** The run task of an executable with a single output file. *)
Definition runTaskOf (targetName f : string) : Task :=
  mkTask (mkDef (Some targetName) ModeRun None) folder ("Run " +:+ targetName)
         (mkProcessExecution f [] None None) GroupTest.

(** A run task of an executable with several output files. *)
Definition runFileTaskOf (targetName f : string) : Task :=
  mkTask (mkDef (Some targetName) ModeRun (Some f)) folder
         ("Run " +:+ targetName +:+ ": " +:+ f)
         (mkProcessExecution f [] (Some (fsPath (ws_uri folder))) None) GroupTest.

(** The run tasks of a target: the [if (t.type == "executable")] block. *)
Definition runTasksOf (targetName : string) (t : Target) : list Task :=
  if String.eqb (target_type t) "executable" then
    match filename t with
    | [ f ] => [ runTaskOf targetName f ]
    | files => map (runFileTaskOf targetName) files
    end
  else [].

(** The callback of [targets.map]; [.flat(1)] splices its result, whether
    it is an array or a lone build task. *)
Definition targetTasks (t : Target) : Result (list Task) :=
  targetName ← getTargetName w t;
  Ok (buildTaskOf targetName :: runTasksOf targetName t).

Definition testTaskOf (t : Test) : Task :=
  mesonTask (mkDef (Some (test_name t)) ModeTest None) ("Test " +:+ test_name t)
            [ "test"; test_name t ] buildDir (Some (env t)) GroupTest.

Definition benchmarkTaskOf (b : Test) : Task :=
  mesonTask (mkDef (Some (test_name b)) ModeBenchmark None)
            ("Benchmark " +:+ test_name b)
            [ "test"; "--benchmark"; "--verbose"; test_name b ] buildDir
            (Some (env b)) GroupTest.

End TaskSynthesis.

(** [await Promise.all(xs.map(f))]: the results in order, or a rejection.
    Which rejection wins a race is not modelled; the first in list order is
    taken. *)
Fixpoint awaitAll {A B : Type} (f : A -> Result B) (xs : list A) : Result (list B) :=
  match xs with
  | [] => Ok []
  | x :: r =>
      y ← f x;
      ys ← awaitAll f r;
      Ok (y :: ys)
  end.

(** The [try] block of [getMesonTasksForDir]. *)
Definition synthesizeTasks (w : World) (buildDir : string) (folder : WorkspaceFolder)
  : Result (list Task) :=
  targets ← getMesonTargetsFromFolder w folder;
  tests ← getMesonTests w buildDir;
  benchmarks ← getMesonBenchmarks w buildDir;
  perTarget ← awaitAll (targetTasks w buildDir folder) targets;
  Ok (defaultTasks w buildDir folder
        ++ concat perTarget
        ++ map (testTaskOf w buildDir folder) tests
        ++ map (benchmarkTaskOf w buildDir folder) benchmarks).

Definition couldNotFetch : string :=
  "Could not fetch targets. See Meson Build output tab for more info.".

(** The [catch] clause of [getMesonTasksForDir]. *)
Definition reportSynthesisFailure (e : Exn) : list Event :=
  [ EvOutputAppendExn e ]
    ++ (if truthy (exn_stderr e)
        then [ EvOutputAppendLine (default "" (exn_stderr e)) ] else [])
    ++ [ EvShowErrorMessage couldNotFetch ].

(** [getMesonTasksForDir(buildDir, workspace)] *)
Definition getMesonTasksForDir (w : World) (buildDir : string)
  (folder : WorkspaceFolder) : list Task * list Event :=
  match synthesizeTasks w buildDir folder with
  | Ok tasks => (tasks, [])
  | Throw e => ([], reportSynthesisFailure e)
  end.

(** One turn of the folder loop of [getMesonTasks]. *)
Definition addFolderTasks (w : World) (st : list Task * list Event)
  (wsFolder : WorkspaceFolder) : list Task * list Event :=
  let wsBuildDir := buildDirOf w wsFolder in
  if existsSync w wsBuildDir then
    let '(tasks, evs) := getMesonTasksForDir w wsBuildDir wsFolder in
    (st.1 ++ tasks, st.2 ++ evs)
  else st.

(** [getMesonTasks()] *)
Definition getMesonTasks (w : World) : Result (list Task * list Event) :=
  match workspaceFolders w with
  | None => Throw (TypeError "workspaceFolders is not iterable")
  | Some folders => Ok (fold_left (addFolderTasks w) folders ([], []))
  end.

(** ** The debug configuration provider *)

(** [target.target_sources.some(source => ['cpp', 'c'].includes(source.language))] *)
Definition hasCSource (target : Target) : bool :=
  existsb (fun source => String.eqb (language source) "cpp"
                         || String.eqb (language source) "c")
          (target_sources target).

Definition isExecutable (target : Target) : bool :=
  String.eqb (target_type target) "executable".

(** The object literal [debugConfiguration] of [provideDebugConfigurations]. *)
Definition targetDebugConfiguration (w : World) (target : Target)
  (targetName : string) (folder : WorkspaceFolder) : gmap string Json :=
  list_to_map
    [ ("type", JStr "cppdbg");
      ("name", JStr (target_name target));
      ("request", JStr "launch");
      ("cwd", JStr (buildDirOf w folder));
      ("program", firstOrUndefined (filename target));
      ("preLaunchTask", JStr ("Meson: Build " +:+ targetName)) ].

(** The body of the [for (const target of executables)] loop after the
    language check: [{...configDebugOptions, ...debugConfiguration}]. *)
Definition targetLaunch (w : World) (target : Target) : Result (gmap string Json) :=
  targetName ← getTargetName w target;
  match workspace target with
  | None => Throw (TypeError "target.workspace is undefined")
  | Some folder =>
      Ok (targetDebugConfiguration w target targetName folder ∪ debugOptions (config w))
  end.

(** [provideDebugConfigurations(folder, token)]; with no [folder] the first
    workspace folder is taken, and there being none throws. *)
Definition provideDebugConfigurations (w : World) (folder : option WorkspaceFolder)
  : Result (list (gmap string Json)) :=
  let chosen :=
    match folder with
    | Some f => Ok f
    | None =>
        match workspaceFolders w with
        | Some (f :: _) => Ok f
        | _ => Throw (TypeError "no workspace folder")
        end
    end in
  f ← chosen;
  targets ← getMesonTargetsFromFolder w f;
  let executables := List.filter isExecutable targets in
  awaitAll (targetLaunch w) (List.filter hasCSource executables).


(** ** tasks.ts: task lookup *)

(** The [mode] strings of [MesonTaskDefinition]. *)
Definition modeName (m : Mode) : string :=
  match m with
  | ModeBuild => "build"
  | ModeRun => "run"
  | ModeTest => "test"
  | ModeBenchmark => "benchmark"
  | ModeClean => "clean"
  | ModeReconfigure => "reconfigure"
  end.

(** An optional string inside a template literal. *)
Definition nameText (name : option string) : string :=
  match name with
  | Some n => n
  | None => "undefined"
  end.

(** [t.definition.mode === mode && (!name || t.definition.target === name)] *)
Definition taskMatches (mode : string) (name : option string) (t : Task) : bool :=
  String.eqb (modeName (def_mode (definition t))) mode
  && (negb (truthy name) || bool_decide (def_target (definition t) = name)).

(** [getTask(mode, name)], on the tasks [vscode.tasks.fetchTasks] resolves
    to. *)
Definition getTask (fetched : list Task) (mode : string) (name : option string)
  : Result Task :=
  match List.filter (taskMatches mode name) fetched with
  | [] =>
      Throw (OtherError ("Cannot find " +:+ mode +:+ " target " +:+ nameText name +:+ "."))
  | t :: _ => Ok t
  end.

(** ** meson/runners.ts *)

(** What the runners do to their host. *)
Inductive RunnerEvent : Type :=
| RvReport (message : string) (increment : option nat)
| RvExecFile (command : string) (args : list string) (dir : string)
| RvExecuteTask (task : Task)
| RvShowErrorMessage (msg : string)
| RvAppendLine (s : string)
| RvAppendExn (e : Exn)
| RvShowChannel.

(** [runMesonConfigure(source, build)]: the body run under
    [vscode.window.withProgress]; [checkMesonIsConfigured] is the helper of
    [./meson/utils]. A rejection of [exec] is not caught. *)
Definition runMesonConfigure (w : World) (checkMesonIsConfigured : string -> bool)
  (source build : string) : list RunnerEvent * Completion :=
  let meson := mesonPath (config w) in
  let configureOpts := configureOptions (config w) in
  let shown := Path.relative (cwd w) source build in
  let checking :=
    RvReport ("Checking if Meson is configured in " +:+ shown +:+ "...") None in
  if checkMesonIsConfigured build then
    let configure := [ "configure" ] ++ configureOpts ++ [ build ] in
    let evs :=
      [ checking; RvReport "Applying configure options..." (Some 30);
        RvExecFile meson configure source ] in
    match exec w 0 meson configure with
    | Throw e => (evs, Threw e)
    | Ok _ =>
        let reconfigure := [ "setup"; "--reconfigure"; build ] in
        let evs :=
          evs ++ [ RvReport "Reconfiguring build..." (Some 60);
                   RvExecFile meson reconfigure source ] in
        match exec w 1 meson reconfigure with
        | Throw e => (evs, Threw e)
        | Ok _ => (evs ++ [ RvReport "Done." (Some 100) ], Completed)
        end
    end
  else
    let setup := [ "setup" ] ++ configureOpts ++ [ build ] in
    let evs :=
      [ checking; RvReport ("Configuring Meson into " +:+ shown +:+ "...") None;
        RvExecFile meson setup source ] in
    match exec w 0 meson setup with
    | Throw e => (evs, Threw e)
    | Ok (stdout, stderr) =>
        (evs ++ [ RvAppendLine stdout; RvAppendLine stderr ]
             ++ (if (0 <? String.length stderr)%nat then [ RvShowChannel ] else [])
             ++ [ RvReport "Done." (Some 100) ],
         Completed)
    end.

(** [runMesonReconfigure()]; [executeTask] is [vscode.tasks.executeTask]. *)
Definition runMesonReconfigure (fetched : list Task) (executeTask : Task -> Result unit)
  : list RunnerEvent :=
  let failed := fun e =>
    [ RvShowErrorMessage "Could not reconfigure project.";
      RvAppendLine "Reconfiguring Meson:"; RvAppendExn e; RvShowChannel ] in
  match getTask fetched "reconfigure" None with
  | Throw e => failed e
  | Ok task =>
      RvExecuteTask task ::
      match executeTask task with
      | Ok _ => []
      | Throw e => failed e
      end
  end.

(** [runMesonBuild(buildDir, name)] *)
Definition runMesonBuild (fetched : list Task) (executeTask : Task -> Result unit)
  (buildDir : string) (name : option string) : list RunnerEvent :=
  let failed := fun e =>
    [ RvShowErrorMessage ("Could not build " +:+ nameText name);
      RvAppendLine ("Building target " +:+ nameText name +:+ ":");
      RvAppendExn e; RvShowChannel ] in
  match getTask fetched "build" name with
  | Throw e => failed e
  | Ok task =>
      RvExecuteTask task ::
      match executeTask task with
      | Ok _ => []
      | Throw e => failed e
      end
  end.

(** ** utils.ts: small helpers *)

(** [array.indexOf(value)], on strings: the first index, or -1. *)
Fixpoint indexOf (array : list string) (value : string) : Z :=
  match array with
  | [] => (-1)%Z
  | x :: r =>
      if String.eqb x value then 0%Z
      else let i := indexOf r value in
           if (i =? -1)%Z then (-1)%Z else (i + 1)%Z
  end.

(** [arrayIncludes(array, value)] *)
Definition arrayIncludes (array : list string) (value : string) : bool :=
  negb (indexOf array value =? -1)%Z.

(** [workspaceRelative(filepath)], with [vscode.workspace.rootPath] given.
    [path.resolve] checks its arguments from the last one and stops at the
    first absolute one, so a missing root throws only under a relative
    [filepath]. *)
Definition workspaceRelative (w : World) (rootPath : option string) (filepath : string)
  : Result string :=
  match rootPath with
  | Some root => Ok (Path.resolve (cwd w) [ root; filepath ])
  | None =>
      if Path.isAbsolute filepath then Ok (Path.resolve (cwd w) [ filepath ])
      else Throw (TypeError "The paths[0] argument must be of type string")
  end.


(** ** Vocabulary of the properties

    Predicates and projections the statements below are written with; none
    of them is part of the program. *)

(** *** Paths made of plain names *)

Fixpoint slashFree (s : string) : bool :=
  match s with
  | EmptyString => true
  | String c r => negb (Path.isSlash c) && slashFree r
  end.

(** A path segment that normalization leaves alone: not empty, not ["."],
    not [".."], and without a slash. *)
Definition isName (s : string) : bool :=
  slashFree s && negb (String.eqb s "") && negb (String.eqb s ".")
  && negb (String.eqb s "..").

Definition nonEmpty (s : string) : bool := negb (String.eqb s "").

(** *** Target names *)

(** The name [getTargetName] resolves for a target of [folder] under the
    layout option [layoutOption]. *)
Definition nameUnder (w : World) (folder : WorkspaceFolder) (layoutOption : BuildOption)
  (target : Target) : string :=
  if isMirror (option_value layoutOption) then
    Path.posix_join
      [ Path.relative (cwd w) (fsPath (ws_uri folder)) (Path.dirname (defined_in target));
        target_name target ]
  else "meson-out/" +:+ target_name target.

(** *** The test tree *)

(** The test the closing [forEach] of [rebuildTests] applies to a top-level
    item: it has children and its id is the [uri.path] of an open folder. *)
Definition survivesPruning (folders : list WorkspaceFolder) (item : TestItem) : bool :=
  negb (length (children item) =? 0)%nat && isReferenced folders item.

(** *** The run loop *)

Definition isLeaf (test : TestItem) : bool := negb (0 <? length (children test))%nat.

(** The number of processes spawned for a stretch of the queue. *)
Definition leaves (queue : list TestItem) : nat := length (List.filter isLeaf queue).

(** The arguments of the process spawned for a leaf test. *)
Definition testArgs (w : World) (uri : Uri) (test : TestItem) : list string :=
  [ "test"; "-C"; Path.resolve (cwd w) [ fsPath uri; buildFolder (config w) ];
    "--print-errorlog"; item_id test ].

(** The events of one turn of the run loop, [k] leaf tests having been
    executed before it. *)
Definition turnEvents (w : World) (k : nat) (test : TestItem) : list Event :=
  events (runTest w (mkRunState k []) test).1.

Fixpoint queueEvents (w : World) (k : nat) (queue : list TestItem) : list Event :=
  match queue with
  | [] => []
  | test :: rest =>
      turnEvents w k test ++ queueEvents w (k + leaves [ test ]) rest
  end.

(** A queue on which the run loop cannot throw: its leaves carry a [uri]. *)
Definition runnable (test : TestItem) : Prop :=
  children test = [] -> item_uri test <> None.

(** *** The debug driver *)

Definition isStartDebugging (ev : Event) : bool :=
  match ev with EvStartDebugging _ _ => true | _ => false end.

(** The launch configuration [prepareTestInFolder] derives for a test whose
    command vector is [env -- /bin/prog --flag], before the [debugOptions]
    are merged in: the program is the first token and the arguments are all
    the others. *)
Definition envProgConfiguration (buildDir name : string) : gmap string Json :=
  list_to_map
    [ ("name", JStr ("meson-debug-" +:+ name));
      ("type", JStr "cppdbg");
      ("request", JStr "launch");
      ("cwd", JStr buildDir);
      ("env", JObj {[ "X" := JStr "1" ]});
      ("program", JStr "env");
      ("args", JArr [ JStr "--"; JStr "/bin/prog"; JStr "--flag" ]) ].

(** *** Tasks *)

(** A build task of one target: mode [build] with a target. *)
Definition isTargetBuild (task : Task) : bool :=
  bool_decide (def_mode (definition task) = ModeBuild)
  && bool_decide (def_target (definition task) <> None).

(** A task of the directory as a whole: no target. *)
Definition isFixed (task : Task) : bool :=
  bool_decide (def_target (definition task) = None).

Definition isRun (task : Task) : bool :=
  bool_decide (def_mode (definition task) = ModeRun).

(** Mode, arguments and working directory of a task. *)
Definition invocation (task : Task) : Mode * list string * option string :=
  (def_mode (definition task), pe_args (execution task), pe_cwd (execution task)).

(** The tasks of a target whose name is resolved. *)
Definition tasksOfTarget (w : World) (buildDir : string) (folder : WorkspaceFolder)
  (name : string) (t : Target) : list Task :=
  buildTaskOf w buildDir folder name :: runTasksOf folder name t.

(** The layout cannot be read: the build-options call fails or its output
    names no [layout] option. *)
Definition layoutUnreadable (w : World) (folder : WorkspaceFolder) : Prop :=
  (exists e, getMesonBuildOptions w (buildDirOf w folder) = Throw e) \/
  (exists buildOptions,
     getMesonBuildOptions w (buildDirOf w folder) = Ok buildOptions /\
     layoutOptionOf buildOptions = None).

(** One of the introspection calls [getMesonTasksForDir] makes fails: one
    of the three it starts with, or the reading of the layout, which it
    makes once there is a target to name. *)
Definition introspectionFails (w : World) (buildDir : string) (folder : WorkspaceFolder)
  : Prop :=
  (exists e, getMesonTargets w (buildDirOf w folder) = Throw e) \/
  (exists e, getMesonTests w buildDir = Throw e) \/
  (exists e, getMesonBenchmarks w buildDir = Throw e) \/
  (exists targets t,
     getMesonTargets w (buildDirOf w folder) = Ok targets /\ In t targets /\
     layoutUnreadable w folder).

(** *** The debug configuration provider *)

(** [folder ?? vscode.workspace.workspaceFolders[0]], when there is one. *)
Definition chosenFolder (w : World) (folder : option WorkspaceFolder)
  : option WorkspaceFolder :=
  match folder with
  | Some f => Some f
  | None =>
      match workspaceFolders w with
      | Some (f :: _) => Some f
      | _ => None
      end
  end.

(** The targets the provider makes a configuration for. *)
Definition debuggable (folder : WorkspaceFolder) (targets : list Target) : list Target :=
  List.filter hasCSource (List.filter isExecutable (map (withWorkspace folder) targets)).

(** [{...configDebugOptions, ...debugConfiguration}] for a target of
    [folder] whose name is resolved. *)
Definition launchOfTarget (w : World) (folder : WorkspaceFolder) (name : string)
  (t : Target) : gmap string Json :=
  targetDebugConfiguration w t name folder ∪ debugOptions (config w).


(** *** Top-level nodes *)

(** The items of a collection under one id. *)
Definition withId (k : string) (c : list TestItem) : list TestItem :=
  List.filter (hasId k) c.



(** *** Accounting of a run *)

Definition isStarted (ev : Event) : bool :=
  match ev with EvRunStarted _ => true | _ => false end.

(** A verdict on a test: passed, errored or failed. *)
Definition isVerdict (ev : Event) : bool :=
  match ev with
  | EvRunPassed _ _ | EvRunErrored _ _ | EvRunFailed _ _ _ => true
  | _ => false
  end.

Definition isRunEnd (ev : Event) : bool :=
  match ev with EvRunEnd => true | _ => false end.

Definition count (p : Event -> bool) (evs : list Event) : nat :=
  length (List.filter p evs).

(** [x] is [t] or below it in the test tree. *)
Inductive descends (x : TestItem) : TestItem -> Prop :=
| descends_self : descends x x
| descends_child (c t : TestItem) :
    In c (children t) -> descends x c -> descends x t.

(** *** Tasks of tests and benchmarks *)

(** A task of one test: mode [test] with a target. *)
Definition isTestTask (task : Task) : bool :=
  bool_decide (def_mode (definition task) = ModeTest)
  && bool_decide (def_target (definition task) <> None).

(** A task of one benchmark: mode [benchmark] with a target. *)
Definition isBenchmarkTask (task : Task) : bool :=
  bool_decide (def_mode (definition task) = ModeBenchmark)
  && bool_decide (def_target (definition task) <> None).

(** The tasks [getMesonTasksForDir] returns for a folder. *)
Definition tasksOfFolder (w : World) (f : WorkspaceFolder) : list Task :=
  (getMesonTasksForDir w (buildDirOf w f) f).1.

(** *** The runners *)

Definition isRvExecFile (ev : RunnerEvent) : bool :=
  match ev with RvExecFile _ _ _ => true | _ => false end.

(** *** Induction on the test tree *)

(** Induction on test items, the hypothesis holding of all the children. *)
Section TestItemInduction.

Variable P : TestItem -> Prop.
Hypothesis step : forall t, Forall P (children t) -> P t.

Fixpoint TestItem_children_ind (t : TestItem) : P t :=
  step t
    (match t as t0 return Forall P (children t0) with
     | mkTestItem _ _ _ ch =>
         (fix all (l : list TestItem) : Forall P l :=
            match l with
            | [] => @List.Forall_nil _ P
            | c :: r => @List.Forall_cons _ P c r (TestItem_children_ind c) (all r)
            end) ch
     end).

End TestItemInduction.


(** ** Sample inputs

    A two-folder workspace: [/ws] is configured in [/ws/builddir] and holds
    an executable built from C with one test, an executable with two output
    files and a library; [/lib] has no build directory. The processes a
    handler spawns exit with status 0, 125, 1, 0, 0, ... in that order. *)

Module Sample.

Definition ws : WorkspaceFolder := mkWorkspaceFolder "ws" (mkUri "/ws" "/ws").

Definition lib : WorkspaceFolder := mkWorkspaceFolder "lib" (mkUri "/lib" "/lib").

Definition prog : Target :=
  mkTarget "prog" "prog@exe" "executable" "/ws/sub/dir/meson.build"
           [ "/ws/builddir/sub/dir/prog" ] [ mkTargetSource "c" ] None.

Definition fat : Target :=
  mkTarget "fat" "fat@exe" "executable" "/ws/meson.build"
           [ "/ws/builddir/fat-x86"; "/ws/builddir/fat-arm" ] [ mkTargetSource "vala" ] None.

Definition util : Target :=
  mkTarget "util" "util@sta" "static library" "/ws/util/meson.build"
           [ "/ws/builddir/util/libutil.a" ] [ mkTargetSource "cpp" ] None.

Definition progTest : Test :=
  mkTest "prog-test" None [ "env"; "--"; "/bin/prog"; "--flag" ]
         {[ "X" := "1" ]} [ "prog@exe" ].

Definition fatTest : Test :=
  mkTest "fat-test" (Some "/ws/data") [ "/ws/builddir/fat-x86" ] ∅ [ ].

Definition inBuildDir {A : Type} (a : A) (dir : string) : Result A :=
  if String.eqb dir "/ws/builddir" then Ok a else Throw (OtherError "not configured").

Definition exits (n : nat) : ExecFileResult :=
  match n with
  | 1 => mkExecFileResult (Some (mkExecException (ExitStatus 125))) "out" "ninja: build stopped"
  | 2 => mkExecFileResult (Some (mkExecException (ExitStatus 1))) "out" "1 test failed"
  | _ => mkExecFileResult None "Ok" ""
  end.

Definition world (layout : string) : World :=
  mkWorld (mkExtensionConfiguration "meson" "builddir" {[ "MIMode" := JStr "gdb" ]} [])
          "/"
          (Some [ ws; lib ])
          (fun p => String.eqb p "/ws/builddir")
          (inBuildDir [ prog; fat; util ])
          (inBuildDir [ progTest; fatTest ])
          (inBuildDir [])
          (inBuildDir [ mkBuildOption "buildtype" (JStr "debug");
                        mkBuildOption "layout" (JStr layout) ])
          (inBuildDir (mkProjectInfo "demo"))
          (fun n _ _ => exits n)
          (fun n => (1000 + 7 * Z.of_nat n)%Z).

Definition leaf (name : string) : TestItem :=
  createTestItem name name (Some (ws_uri ws)).

Definition folderNode (id : string) (ch : list TestItem) : TestItem :=
  mkTestItem id id None ch.

End Sample.

(** ** More sample inputs

    [flaky]: the workspace of [Sample.world], where the build directory
    of [/lib] exists too but holds nothing Meson can introspect.
    [single]: the folder [/ws] alone. [unreadable]: no workspace is open
    and no build options can be read. [brokenBuild]: every process exits
    with status 125. *)

Module Scenario.

Definition withFolders (folders : list WorkspaceFolder) : World :=
  mkWorld (mkExtensionConfiguration "meson" "builddir" ∅ [])
          "/"
          (Some folders)
          (fun _ => true)
          (Sample.inBuildDir [ Sample.prog; Sample.fat; Sample.util ])
          (Sample.inBuildDir [ Sample.progTest; Sample.fatTest ])
          (Sample.inBuildDir [])
          (Sample.inBuildDir [ mkBuildOption "layout" (JStr "mirror") ])
          (Sample.inBuildDir (mkProjectInfo "demo"))
          (fun n _ _ => Sample.exits n)
          (fun n => Z.of_nat n).

(** A build directory whose options cannot be read, with the given
    targets and one test. *)
Definition unreadable (targets : list Target) : World :=
  mkWorld (mkExtensionConfiguration "meson" "builddir" ∅ [])
          "/"
          None
          (fun _ => true)
          (fun _ => Ok targets)
          (fun _ => Ok [ Sample.fatTest ])
          (fun _ => Ok [])
          (fun _ => Throw (OtherError "no build options"))
          (fun _ => Throw (OtherError "no project info"))
          (fun n _ _ => Sample.exits n)
          (fun n => Z.of_nat n).


Definition single : World := withFolders [ Sample.ws ].

(** The workspace of [Sample.world] with a compiler that always fails. *)
Definition brokenBuild : World :=
  mkWorld (mkExtensionConfiguration "meson" "builddir" ∅ [])
          "/"
          (Some [ Sample.ws; Sample.lib ])
          (fun _ => true)
          (Sample.inBuildDir [ Sample.prog; Sample.fat; Sample.util ])
          (Sample.inBuildDir [ Sample.progTest; Sample.fatTest ])
          (Sample.inBuildDir [])
          (Sample.inBuildDir [ mkBuildOption "layout" (JStr "mirror") ])
          (Sample.inBuildDir (mkProjectInfo "demo"))
          (fun _ _ _ => Sample.exits 1)
          (fun n => Z.of_nat n).

End Scenario.

(** * Properties *)

(** ** The collection *)

Lemma hasId_true k item : hasId k item = true <-> item_id item = k.
Proof. unfold hasId. apply String.eqb_eq. Qed.

Lemma coll_delete_In k c x : In x (coll_delete k c) -> In x c /\ item_id x <> k.
Proof.
  unfold coll_delete. rewrite filter_In. intros [Hin Hk]. split; [done|].
  intros Heq. apply hasId_true in Heq. rewrite Heq in Hk. discriminate.
Qed.

Lemma coll_add_ids_present item c :
  In (item_id item) (ids c) -> ids (coll_add item c) = ids c.
Proof.
  induction c as [|x r IH]; simpl; [intros []|].
  intros Hin. destruct (hasId (item_id item) x) eqn:E.
  - apply hasId_true in E. simpl. by rewrite E.
  - simpl. f_equal. apply IH. destruct Hin as [Hx|Hr]; [|done].
    apply hasId_true in Hx. congruence.
Qed.

Lemma coll_add_In item c x :
  In x (coll_add item c) -> x = item \/ In x c.
Proof.
  induction c as [|y r IH]; simpl.
  - intros [->|[]]. by left.
  - destruct (hasId (item_id item) y); simpl; intros [->|H]; auto.
    destruct (IH H); auto.
Qed.

Lemma coll_add_has_id item c : In (item_id item) (ids (coll_add item c)).
Proof.
  induction c as [|y r IH]; simpl; [by left|].
  destruct (hasId (item_id item) y); simpl; auto.
Qed.

Lemma coll_add_ids_mono item c k : In k (ids c) -> In k (ids (coll_add item c)).
Proof.
  induction c as [|y r IH]; simpl; [intros []|].
  destruct (hasId (item_id item) y) eqn:E; simpl.
  - apply hasId_true in E. intros [<-|H]; auto.
  - intros [<-|H]; auto.
Qed.

(** A [forEach] whose callback deletes the visited item unless [keep] holds
    of it, whatever else it records: what is left was there before, and no
    visited item that fails [keep] leaves its id behind. *)
Section Sweep.

Context {L : Type}.
Variable keep : TestItem -> bool.
Variable step : list TestItem * L -> TestItem -> list TestItem * L.
Hypothesis step_items : forall st item,
  (step st item).1 = if keep item then st.1 else coll_delete (item_id item) st.1.

Lemma sweep_subset l st x : In x (fold_left step l st).1 -> In x st.1.
Proof.
  revert st. induction l as [|y l IH]; intros st; cbn [fold_left]; [done|].
  intros Hx. apply IH in Hx. rewrite step_items in Hx.
  destruct (keep y); [done|]. by apply coll_delete_In in Hx as [? _].
Qed.

Lemma sweep_removed l st y :
  In y l -> keep y = false -> ~ In (item_id y) (ids (fold_left step l st).1).
Proof.
  revert st. induction l as [|z l IH]; intros st; cbn [fold_left]; [intros []|].
  intros [->|Hy] Hk; [|by apply IH].
  unfold ids. rewrite in_map_iff. intros (x & Hid & Hx).
  apply sweep_subset in Hx. rewrite step_items, Hk in Hx.
  apply coll_delete_In in Hx as [_ Hne]. contradiction.
Qed.

(** Swept over itself, a collection keeps only items that pass [keep]. *)
Lemma sweep_self c (o : L) x :
  In x (fold_left step c (c, o)).1 -> In x c /\ keep x = true.
Proof.
  intros Hx. pose proof (sweep_subset _ _ _ Hx) as Hc. simpl in Hc.
  split; [done|]. destruct (keep x) eqn:E; [done|].
  exfalso. apply (sweep_removed c (c, o) x Hc E). unfold ids. by apply in_map.
Qed.

Lemma sweep_nothing l st :
  Forall (fun item => keep item = true) l -> (fold_left step l st).1 = st.1.
Proof.
  revert st. induction l as [|y l IH]; intros st Hall; cbn [fold_left]; [done|].
  inversion Hall as [|? ? Hy Hl]; subst. rewrite IH by done.
  by rewrite step_items, Hy.
Qed.

End Sweep.

(** ** Reconciliation of one folder *)

Lemma matchesSomeTest_true tests item :
  matchesSomeTest tests item = true <->
  exists test, In test tests /\ item_id item = test_name test.
Proof.
  unfold matchesSomeTest. rewrite existsb_exists.
  split; intros (t & Hin & H); exists t; split; auto; by apply String.eqb_eq.
Qed.

Lemma removeStale_items tests st item :
  (removeStale tests st item).1 =
  if matchesSomeTest tests item then st.1 else coll_delete (item_id item) st.1.
Proof. unfold removeStale. by destruct (matchesSomeTest tests item). Qed.

(** When nothing is stale the first loop makes no call at all. *)
Lemma removeStale_fold_id tests l st :
  Forall (fun item => matchesSomeTest tests item = true) l ->
  fold_left (removeStale tests) l st = st.
Proof.
  revert st. induction l as [|y l IH]; intros st Hall; cbn [fold_left]; [done|].
  inversion Hall as [|? ? Hy Hl]; subst.
  unfold removeStale at 2. rewrite Hy. by apply IH.
Qed.

(** The second loop makes one [add] per test and nothing else. *)
Lemma addTestItem_fold_ops folder tests st :
  (fold_left (addTestItem folder) tests st).2 =
  st.2 ++ map (fun t => OpAdd (createTestItem (test_name t) (test_name t)
                                               (Some (ws_uri folder)))) tests.
Proof.
  revert st. induction tests as [|t tests IH]; intros st; simpl.
  - by rewrite app_nil_r.
  - rewrite IH. simpl. by rewrite <- app_assoc.
Qed.

Lemma addTestItem_fold_In folder tests st x :
  In x (fold_left (addTestItem folder) tests st).1 ->
  In x st.1 \/ exists t, In t tests /\ item_id x = test_name t.
Proof.
  revert st. induction tests as [|t tests IH]; intros st; simpl; [auto|].
  intros H. apply IH in H as [H|(t' & Ht' & Hid)].
  - simpl in H. apply coll_add_In in H as [->|H]; [|auto].
    right. exists t. auto.
  - right. exists t'. auto.
Qed.

Lemma addTestItem_fold_ids_mono folder tests st k :
  In k (ids st.1) -> In k (ids (fold_left (addTestItem folder) tests st).1).
Proof.
  revert st. induction tests as [|t tests IH]; intros st; simpl; [done|].
  intros H. apply IH. simpl. by apply coll_add_ids_mono.
Qed.

Lemma addTestItem_fold_has_names folder tests st t :
  In t tests -> In (test_name t) (ids (fold_left (addTestItem folder) tests st).1).
Proof.
  revert st. induction tests as [|t' tests IH]; intros st; simpl; [intros []|].
  intros [->|H]; [|by apply IH].
  apply addTestItem_fold_ids_mono. simpl.
  apply (coll_add_has_id (createTestItem (test_name t) (test_name t) (Some (ws_uri folder)))).
Qed.

(** Adding tests whose names are all present replaces items in place. *)
Lemma addTestItem_fold_ids_present folder tests st :
  (forall t, In t tests -> In (test_name t) (ids st.1)) ->
  ids (fold_left (addTestItem folder) tests st).1 = ids st.1.
Proof.
  revert st. induction tests as [|t tests IH]; intros st Hall; simpl; [done|].
  assert (Hstep : ids (addTestItem folder st t).1 = ids st.1).
  { simpl. apply (coll_add_ids_present (createTestItem _ _ _)). simpl. apply Hall. by left. }
  rewrite IH; [done|]. intros t' Ht'. rewrite Hstep. apply Hall. by right.
Qed.

(** After a reconciliation every item is named by a test and every test
    names an item. *)
Lemma reconcile_settled tests folder c :
  Forall (fun item => matchesSomeTest tests item = true) (reconcile tests folder c).1 /\
  (forall t, In t tests -> In (test_name t) (ids (reconcile tests folder c).1)).
Proof.
  unfold reconcile. split.
  - apply List.Forall_forall. intros x Hx.
    apply addTestItem_fold_In in Hx as [Hx|Hx]; [|by apply matchesSomeTest_true].
    by apply (sweep_self _ _ (removeStale_items tests)) in Hx as [_ ?].
  - intros t Ht. by apply addTestItem_fold_has_names.
Qed.

Lemma adds_have_no_delete {A : Type} (f : A -> TestItem) (l : list A) :
  List.filter isDelete (map (fun a => OpAdd (f a)) l) = [].
Proof. induction l; simpl; auto. Qed.

Lemma reconcile_twice tests folder c :
  let c1 := (reconcile tests folder c).1 in
  let r2 := reconcile tests folder c1 in
  List.filter isDelete r2.2 = [] /\
  (forall item, In (OpAdd item) r2.2 -> In (item_id item) (ids c1)) /\
  ids r2.1 = ids c1.
Proof.
  intros c1 r2. destruct (reconcile_settled tests folder c) as [Hall Hnames].
  fold c1 in Hall, Hnames.
  assert (Hr2 : r2 = fold_left (addTestItem folder) tests (c1, [])).
  { unfold r2, reconcile. by rewrite removeStale_fold_id. }
  rewrite Hr2. split; [|split].
  - rewrite addTestItem_fold_ops. simpl. apply adds_have_no_delete.
  - intros item. rewrite addTestItem_fold_ops. simpl.
    intros Hin. apply in_map_iff in Hin as (t & [= <-] & Ht). simpl. by apply Hnames.
  - by apply addTestItem_fold_ids_present.
Qed.

(** C1. Reconciling a folder's collection a second time, right after a first
    run and against the same introspected tests, succeeds and changes
    nothing in net terms: the second pass makes no [delete] call, every
    [add] it makes is for an id the collection already holds (so it replaces
    an item in place and the collection does not grow), and the collection
    holds the same ids in the same order afterwards. *)
Theorem rebuildTestsForFolder_idempotent w folder c0 c1 ops1 :
  rebuildTestsForFolder w c0 folder = Ok (c1, ops1) ->
  exists c2 ops2,
    rebuildTestsForFolder w c1 folder = Ok (c2, ops2) /\
    List.filter isDelete ops2 = [] /\
    (forall item, In (OpAdd item) ops2 -> In (item_id item) (ids c1)) /\
    ids c2 = ids c1 /\
    length c2 = length c1.
Proof.
  unfold rebuildTestsForFolder.
  destruct (getMesonTests w (buildDirOf w folder)) as [tests|e]; simpl; [|done].
  intros [= Hc1].
  assert (c1 = (reconcile tests folder c0).1) as -> by (by rewrite Hc1).
  destruct (reconcile_twice tests folder c0) as (Hdel & Hadd & Hids).
  destruct (reconcile tests folder (reconcile tests folder c0).1) as [c2 ops2] eqn:E.
  exists c2, ops2. simpl in *. repeat split; try done.
  rewrite <- (length_map item_id c2), <- (length_map item_id).
  unfold ids in Hids. by rewrite Hids.
Qed.

Lemma rebuildTestsForFolder_idempotent_witness :
  exists c2 ops2,
    rebuildTestsForFolder (Sample.world "mirror")
      [ Sample.leaf "prog-test"; Sample.leaf "fat-test" ] Sample.ws = Ok (c2, ops2) /\
    List.filter isDelete ops2 = [] /\
    (forall item, In (OpAdd item) ops2 ->
                  In (item_id item) (ids [ Sample.leaf "prog-test"; Sample.leaf "fat-test" ])) /\
    ids c2 = ids [ Sample.leaf "prog-test"; Sample.leaf "fat-test" ] /\
    length c2 = length [ Sample.leaf "prog-test"; Sample.leaf "fat-test" ].
Proof.
  apply (rebuildTestsForFolder_idempotent (Sample.world "mirror") Sample.ws
           [ Sample.leaf "gone"; Sample.leaf "prog-test" ] _
           [ OpDelete "gone"; OpAdd (Sample.leaf "prog-test"); OpAdd (Sample.leaf "fat-test") ]).
  vm_compute. reflexivity.
Defined.

(** ** Reconciliation of a multi-folder workspace *)

Lemma pruneItem_items folders st item :
  (pruneItem folders st item).1 =
  if survivesPruning folders item then st.1 else coll_delete (item_id item) st.1.
Proof.
  unfold pruneItem, survivesPruning.
  destruct (length (children item) =? 0)%nat; simpl; [done|].
  by destruct (isReferenced folders item).
Qed.

Lemma survivesPruning_true folders item :
  survivesPruning folders item = true ->
  children item <> [] /\
  exists wsFolder, In wsFolder folders /\ path (ws_uri wsFolder) = item_id item.
Proof.
  unfold survivesPruning, isReferenced. rewrite andb_true_iff, existsb_exists.
  intros [Hch (f & Hin & Heq)]. split.
  - intros Hnil. rewrite Hnil in Hch. discriminate.
  - exists f. split; [done|]. by apply String.eqb_eq.
Qed.

Lemma rebuildTestsMulti_pruned w folders items item :
  In item (rebuildTestsMulti w folders items).1 ->
  survivesPruning folders item = true.
Proof.
  unfold rebuildTestsMulti.
  destruct (fold_left (rebuildFolder w) folders (items, [])) as [c evs]. simpl.
  intros Hin. by apply (sweep_self _ _ (pruneItem_items folders)) in Hin as [_ ?].
Qed.

(** C7. With any number of open workspace folders other than one,
    [rebuildTests] returns, and every top-level item it leaves has at least
    one child and an id equal to the [uri.path] of an open workspace folder:
    childless nodes are gone, and so are nodes of folders that are no
    longer open, with or without children. *)
Theorem rebuildTests_prunes w folders items :
  workspaceFolders w = Some folders ->
  length folders <> 1 ->
  exists items' evs,
    rebuildTests w items = Ok (items', evs) /\
    forall item, In item items' ->
      children item <> [] /\
      exists wsFolder, In wsFolder folders /\ path (ws_uri wsFolder) = item_id item.
Proof.
  intros Hws Hlen. unfold rebuildTests. rewrite Hws.
  exists (rebuildTestsMulti w folders items).1, (rebuildTestsMulti w folders items).2.
  split.
  - destruct folders as [|f [|g r]]; simpl in *; try done;
      by destruct (rebuildTestsMulti w _ items).
  - intros item Hin. by apply survivesPruning_true, (rebuildTestsMulti_pruned w _ items).
Qed.

Lemma rebuildTests_prunes_witness :
  exists items' evs,
    rebuildTests (Sample.world "mirror")
      [ Sample.folderNode "/ws" [ Sample.leaf "gone" ];
        Sample.folderNode "/lib" [];
        Sample.folderNode "/closed" [ Sample.leaf "t" ] ] = Ok (items', evs) /\
    forall item, In item items' ->
      children item <> [] /\
      exists wsFolder, In wsFolder [ Sample.ws; Sample.lib ]
                       /\ path (ws_uri wsFolder) = item_id item.
Proof.
  apply (rebuildTests_prunes (Sample.world "mirror") [ Sample.ws; Sample.lib ]).
  - reflexivity.
  - simpl. lia.
Defined.

Example rebuildTests_sample :
  rebuildTests (Sample.world "mirror")
    [ Sample.folderNode "/ws" [ Sample.leaf "gone" ];
      Sample.folderNode "/lib" [];
      Sample.folderNode "/closed" [ Sample.leaf "t" ] ]
  = Ok ([ Sample.folderNode "/ws" [ Sample.leaf "prog-test"; Sample.leaf "fat-test" ] ],
        [ EvConsoleLog "Removing item with /closed becuase it's not referenced" ]).
Proof. vm_compute. reflexivity. Qed.

(** ** The run handler *)

Lemma isLeaf_true test : isLeaf test = true <-> children test = [].
Proof. unfold isLeaf. destruct (children test); simpl; split; done. Qed.

Lemma runTest_spec w st test :
  runnable test ->
  runTest w st test =
  (mkRunState (executed st + leaves [ test ])
              (events st ++ turnEvents w (executed st) test), Completed).
Proof.
  intros Hrun. unfold turnEvents, runTest, leaves. cbn [List.filter length].
  destruct (isLeaf test) eqn:Hleaf.
  - pose proof Hleaf as Hch. apply isLeaf_true in Hch. specialize (Hrun Hch).
    unfold isLeaf in Hleaf. apply negb_true_iff in Hleaf. rewrite Hleaf.
    destruct (item_uri test) as [uri|]; [|done].
    cbn [executed events length]. replace (executed st + 1) with (S (executed st)) by lia.
    destruct (exec w (executed st) _ _) as [[out err]|[error out err| |]] eqn:E;
      cbn [fst events]; rewrite <- ?app_assoc; try done.
    + unfold exec in E. destruct (cb_error _); done.
    + unfold exec in E. destruct (cb_error _); done.
  - unfold isLeaf in Hleaf. apply negb_false_iff in Hleaf. rewrite Hleaf.
    cbn [fst events length executed]. rewrite Nat.add_0_r, <- app_assoc. done.
Qed.

Lemma runQueue_spec w queue st :
  Forall runnable queue ->
  runQueue w st queue =
  (mkRunState (executed st + leaves queue) (events st ++ queueEvents w (executed st) queue),
   Completed).
Proof.
  revert st. induction queue as [|test rest IH]; intros st Hall; cbn [runQueue queueEvents].
  - unfold leaves. simpl. rewrite Nat.add_0_r, app_nil_r. by destruct st.
  - inversion Hall as [|? ? Ht Hr]; subst.
    rewrite runTest_spec by done. rewrite IH by done. cbn [executed events].
    rewrite <- app_assoc. f_equal. f_equal.
    unfold leaves. cbn [List.filter]. destruct (isLeaf test); simpl; lia.
Qed.

Lemma queueEvents_app w k pre post :
  queueEvents w k (pre ++ post) =
  queueEvents w k pre ++ queueEvents w (k + leaves pre) post.
Proof.
  revert k. induction pre as [|t pre IH]; intros k; cbn [queueEvents app].
  - unfold leaves. simpl. by rewrite Nat.add_0_r.
  - rewrite IH, <- app_assoc. do 3 f_equal.
    unfold leaves. cbn [List.filter]. destruct (isLeaf t); simpl; lia.
Qed.

Lemma turnEvents_leaf w k test uri :
  children test = [] -> item_uri test = Some uri ->
  let r := execFile w k (mesonPath (config w)) (testArgs w uri test) in
  let d := (now w (2 * k + 1) - now w (2 * k))%Z in
  turnEvents w k test =
  [ EvRunStarted test; EvExecFile (mesonPath (config w)) (testArgs w uri test) ] ++
  match cb_error r with
  | None => [ EvRunPassed test (Some d) ]
  | Some error =>
      EvRunAppendOutput (Some (cb_stdout r))
        :: reportRejection test error (cb_stderr r) d
  end.
Proof.
  intros Hch Huri. unfold turnEvents, runTest. rewrite Hch, Huri. cbn [length Nat.ltb Nat.leb].
  unfold exec, testArgs. cbn [executed events].
  destruct (cb_error _); reflexivity.
Qed.

Lemma queueEvents_middle w (queue : list TestItem) i test :
  queue !! i = Some test ->
  queueEvents w 0 queue =
  queueEvents w 0 (take i queue)
    ++ turnEvents w (leaves (take i queue)) test
    ++ queueEvents w (leaves (take i queue) + leaves [ test ]) (drop (S i) queue).
Proof.
  intros Hi. rewrite <- (take_drop_middle queue i test Hi) at 1.
  by rewrite queueEvents_app.
Qed.

(** C3. In a run whose leaf tests all carry a [uri] the handler returns, and
    the events of a leaf test's turn stand in its report. For the process
    spawned in that turn: when it exits with status 0 the test is reported
    passed with the measured duration; when it exits with status 125 its
    output is appended, an error message is shown and the test is reported
    errored with the process's stderr; when it exits with any other non-zero
    status its output is appended and the test is reported failed with the
    process's stderr and the measured duration. *)
Theorem testRunHandler_classifies w items request i test uri c :
  let queue := selectedQueue items request in
  let k := leaves (take i queue) in
  let command := mesonPath (config w) in
  let r := execFile w k command (testArgs w uri test) in
  let d := (now w (2 * k + 1) - now w (2 * k))%Z in
  let turn := turnEvents w k test in
  Forall runnable queue ->
  queue !! i = Some test ->
  children test = [] ->
  item_uri test = Some uri ->
  exitedWith c r ->
  (exists before after,
     testRunHandler w items request = (before ++ turn ++ after, Completed)) /\
  (c = 0%Z ->
   turn = [ EvRunStarted test; EvExecFile command (testArgs w uri test);
            EvRunPassed test (Some d) ]) /\
  (c = 125%Z ->
   turn = [ EvRunStarted test; EvExecFile command (testArgs w uri test);
            EvRunAppendOutput (Some (cb_stdout r));
            EvShowErrorMessage "Failed to build tests. Results will not be updated";
            EvRunErrored test (Some (cb_stderr r)) ]) /\
  (c <> 0%Z -> c <> 125%Z ->
   turn = [ EvRunStarted test; EvExecFile command (testArgs w uri test);
            EvRunAppendOutput (Some (cb_stdout r));
            EvRunFailed test (Some (cb_stderr r)) d ]).
Proof.
  intros queue k command r d turn Hall Hi Hch Huri Hexit.
  split.
  - unfold testRunHandler. fold queue. rewrite runQueue_spec by done.
    cbn [events executed app].
    rewrite (queueEvents_middle w queue i test Hi).
    exists (queueEvents w 0 (take i queue)).
    eexists. rewrite <- !app_assoc. reflexivity.
  - unfold turn. rewrite (turnEvents_leaf w k test uri Hch Huri). cbv zeta.
    fold command r d. unfold exitedWith in Hexit. fold r in Hexit.
    rewrite Hexit. repeat split.
    + intros ->. reflexivity.
    + intros ->. reflexivity.
    + intros H0 H125. apply Z.eqb_neq in H0. rewrite H0.
      unfold reportRejection. cbn [code isBuildFailure].
      apply Z.eqb_neq in H125. rewrite H125. reflexivity.
Qed.

Lemma testRunHandler_classifies_witness :
  turnEvents (Sample.world "mirror") 1 (Sample.leaf "fat-test") =
  [ EvRunStarted (Sample.leaf "fat-test");
    EvExecFile "meson" [ "test"; "-C"; "/ws/builddir"; "--print-errorlog"; "fat-test" ];
    EvRunAppendOutput (Some "out");
    EvShowErrorMessage "Failed to build tests. Results will not be updated";
    EvRunErrored (Sample.leaf "fat-test") (Some "ninja: build stopped") ].
Proof.
  destruct (testRunHandler_classifies (Sample.world "mirror")
              [ Sample.folderNode "/ws"
                  [ Sample.leaf "prog-test"; Sample.leaf "fat-test"; Sample.leaf "slow" ] ]
              (mkTestRunRequest None) 2 (Sample.leaf "fat-test") (ws_uri Sample.ws) 125)
    as (_ & _ & H125 & _).
  - repeat constructor; intros; discriminate.
  - reflexivity.
  - reflexivity.
  - reflexivity.
  - reflexivity.
  - exact (H125 eq_refl).
Defined.

(** ** The debug driver *)

(** What [prepareTestInFolder] returns once both introspection calls have
    succeeded. *)
Lemma prepareTestInFolder_cases w n queue wsFolder :
  let buildDir := buildDirOf w wsFolder in
  forall tests targets,
  getMesonTests w buildDir = Ok tests ->
  getMesonTargets w buildDir = Ok targets ->
  let relevantTests := relevantTestsOf queue tests in
  let requiredTargets := requiredTargetsOf relevantTests targets in
  let args := [ "compile"; "-C"; buildDir ] ++ map target_name requiredTargets in
  prepareTestInFolder w n queue wsFolder =
  match requiredTargets with
  | [] => (Ok [], [])
  | _ :: _ =>
      match cb_error (execFile w n (mesonPath (config w)) args) with
      | Some _ =>
          (Ok [],
           [ EvExecFile (mesonPath (config w)) args;
             EvShowErrorMessage ("Failed to build tests in " +:+ ws_name wsFolder
                                 +:+ ". Results will not be updated") ])
      | None =>
          (Ok (map (testLaunch w wsFolder buildDir) relevantTests),
           [ EvExecFile (mesonPath (config w)) args ])
      end
  end.
Proof.
  intros buildDir tests targets Htests Htargets relevantTests requiredTargets args.
  unfold prepareTestInFolder. fold buildDir. rewrite Htests, Htargets.
  fold relevantTests. fold requiredTargets.
  destruct requiredTargets as [|t r] eqn:E; [done|].
  cbn [length Nat.eqb]. fold args. unfold exec.
  by destruct (cb_error _).
Qed.

Lemma prepareTestInFolder_folder w n queue wsFolder launches evs launch :
  prepareTestInFolder w n queue wsFolder = (Ok launches, evs) ->
  In launch launches -> dl_folder launch = wsFolder.
Proof.
  unfold prepareTestInFolder.
  destruct (getMesonTests _ _) as [tests|]; [|done].
  destruct (getMesonTargets _ _) as [targets|]; [|done].
  destruct (length _ =? 0)%nat; [by intros [= <- <-] []|].
  destruct (exec _ _ _ _); intros [= <- <-]; [|intros []].
  rewrite in_map_iff. by intros (t & <- & _).
Qed.

Lemma prepareTestInFolder_events w n queue wsFolder :
  List.filter isStartDebugging (prepareTestInFolder w n queue wsFolder).2 = [].
Proof.
  unfold prepareTestInFolder.
  destruct (getMesonTests _ _) as [tests|]; [|done].
  destruct (getMesonTargets _ _) as [targets|]; [|done].
  destruct (length _ =? 0)%nat; [done|].
  by destruct (exec _ _ _ _).
Qed.

(** The folder loop collects only what [prepareTestInFolder] returns for the
    folders it visits and starts no debug session itself. *)
Lemma prepareFolders_spec w queue folders st st' c :
  prepareFolders w queue st folders = (st', c) ->
  (forall launch, In launch (debugConfigs st') ->
     In launch (debugConfigs st) \/
     exists n launches evs,
       prepareTestInFolder w n queue (dl_folder launch) = (Ok launches, evs)
       /\ In launch launches) /\
  (List.filter isStartDebugging (debugEvents st) = [] ->
   List.filter isStartDebugging (debugEvents st') = []).
Proof.
  revert st. induction folders as [|f folders IH]; intros st; cbn [prepareFolders].
  - intros [= <- <-]. auto.
  - destruct (existsb _ queue); [|by apply IH].
    destruct (prepareTestInFolder w (spawned st) queue f) as [[launches|e] evs] eqn:E.
    + intros H. apply IH in H as [H1 H2]. cbn [debugConfigs debugEvents] in *. split.
      * intros launch Hin. destruct (H1 launch Hin) as [Hold|Hnew]; [|by right].
        apply in_app_or in Hold as [Hold|Hhere]; [by left|]. right.
        exists (spawned st), launches, evs.
        by rewrite (prepareTestInFolder_folder _ _ _ _ _ _ _ E Hhere).
      * intros Hst. apply H2. rewrite List.filter_app, Hst.
        pose proof (prepareTestInFolder_events w (spawned st) queue f) as Hev.
        by rewrite E in Hev.
    + intros [= <- <-]. cbn [debugConfigs debugEvents]. split; [auto|].
      intros Hst. rewrite List.filter_app, Hst.
      pose proof (prepareTestInFolder_events w (spawned st) queue f) as Hev.
      by rewrite E in Hev.
Qed.

(** C9. When introspection succeeds and none of the introspected targets is
    a dependency of a selected test, [prepareTestInFolder] returns the empty
    list and records no event, so it spawns no build; and the debug handler
    then starts no debug session for that folder, whichever tests were
    selected. *)
Theorem prepareTestInFolder_nothing_required w queue wsFolder tests targets :
  getMesonTests w (buildDirOf w wsFolder) = Ok tests ->
  getMesonTargets w (buildDirOf w wsFolder) = Ok targets ->
  requiredTargetsOf (relevantTestsOf queue tests) targets = [] ->
  (forall n, prepareTestInFolder w n queue wsFolder = (Ok [], [])) /\
  (forall items request config,
     selectedQueue items request = queue ->
     ~ In (EvStartDebugging wsFolder config) (testDebugHandler w items request).1).
Proof.
  intros Htests Htargets Hreq.
  assert (Hnone : forall n, prepareTestInFolder w n queue wsFolder = (Ok [], [])).
  { intros n. rewrite (prepareTestInFolder_cases w n queue wsFolder tests targets) by done.
    by rewrite Hreq. }
  split; [done|].
  intros items request cfg Hq. unfold testDebugHandler. rewrite Hq.
  destruct (workspaceFolders w) as [folders|]; [|intros []].
  destruct (prepareFolders w queue (mkDebugState 0 [] []) folders) as [st c] eqn:E.
  apply prepareFolders_spec in E as [Hcfg Hevs]. specialize (Hevs eq_refl).
  assert (Hno : ~ In (EvStartDebugging wsFolder cfg) (debugEvents st)).
  { intros Hin. assert (Hf : In (EvStartDebugging wsFolder cfg)
                               (List.filter isStartDebugging (debugEvents st)))
      by (by apply filter_In).
    by rewrite Hevs in Hf. }
  destruct c; cbn [fst]; [|done].
  intros Hin. apply in_app_or in Hin as [Hin|Hin]; [done|].
  apply in_app_or in Hin as [Hin|[Hin|[]]]; [|done].
  apply in_map_iff in Hin as (launch & [= Hfolder Hconfig] & Hl).
  destruct (Hcfg launch Hl) as [[]|(n & launches & evs & Hprep & Hin)].
  rewrite Hfolder, Hnone in Hprep. injection Hprep as <- <-. done.
Qed.

Lemma prepareTestInFolder_nothing_required_witness :
  prepareTestInFolder (Sample.world "mirror") 0 [ Sample.leaf "fat-test" ] Sample.ws
  = (Ok [], []).
Proof.
  exact (proj1 (prepareTestInFolder_nothing_required (Sample.world "mirror")
                  [ Sample.leaf "fat-test" ] Sample.ws
                  [ Sample.progTest; Sample.fatTest ]
                  [ Sample.prog; Sample.fat; Sample.util ]
                  eq_refl eq_refl eq_refl) 0).
Defined.

(** *** The derived launch configuration *)

(** In [{...a, ...b}] the fields of [b] win and those of [a] fill in. *)
Lemma spread_lookup (a b : gmap string Json) (k : string) :
  (b ∪ a) !! k = match b !! k with Some v => Some v | None => a !! k end.
Proof.
  rewrite lookup_union. destruct (b !! k), (a !! k); reflexivity.
Qed.

(** C2 as stated fails on the sample workspace: for the test with command
    vector [env -- /bin/prog --flag] the derived program is ["env"], not
    ["/bin/prog"], and the arguments are the three remaining tokens, not
    [["--flag"]]. *)
Lemma prepareTestInFolder_program_counterexample :
  cmd Sample.progTest = [ "env"; "--"; "/bin/prog"; "--flag" ] /\
  env Sample.progTest = {[ "X" := "1" ]} /\
  workdir Sample.progTest = None /\
  exists launch,
    prepareTestInFolder (Sample.world "mirror") 0 [ Sample.leaf "prog-test" ] Sample.ws
    = (Ok [ launch ], [ EvExecFile "meson" [ "compile"; "-C"; "/ws/builddir"; "prog" ] ]) /\
    dl_config launch !! "program" = Some (JStr "env") /\
    dl_config launch !! "program" <> Some (JStr "/bin/prog") /\
    dl_config launch !! "args" = Some (JArr [ JStr "--"; JStr "/bin/prog"; JStr "--flag" ]) /\
    dl_config launch !! "args" <> Some (JArr [ JStr "--flag" ]).
Proof.
  repeat split.
  eexists. split; [vm_compute; reflexivity|].
  repeat split; try (vm_compute; reflexivity); vm_compute; intros [=].
Qed.

(** C2, as amended. For a selected test with command vector
    [env -- /bin/prog --flag], environment [{X: "1"}] and no working
    directory, in a folder whose introspection succeeds, some target of
    which is required and whose build succeeds, [prepareTestInFolder]
    spawns that one build and returns a launch for the folder whose
    configuration has program ["env"] (the first token), arguments
    [["--"; "/bin/prog"; "--flag"]] (all the others), the build directory as
    working directory and environment [{X: "1"}], merged under the
    [debugOptions]: a key the user configured keeps the user's value and
    every other key has the derived one. *)
Theorem prepareTestInFolder_env_launch w n queue wsFolder tests targets test :
  let buildDir := buildDirOf w wsFolder in
  let relevantTests := relevantTestsOf queue tests in
  let requiredTargets := requiredTargetsOf relevantTests targets in
  let build := [ "compile"; "-C"; buildDir ] ++ map target_name requiredTargets in
  let merged := debugOptions (config w) ∪ envProgConfiguration buildDir (test_name test) in
  getMesonTests w buildDir = Ok tests ->
  getMesonTargets w buildDir = Ok targets ->
  In test relevantTests ->
  requiredTargets <> [] ->
  cb_error (execFile w n (mesonPath (config w)) build) = None ->
  cmd test = [ "env"; "--"; "/bin/prog"; "--flag" ] ->
  env test = {[ "X" := "1" ]} ->
  workdir test = None ->
  (exists launches,
     prepareTestInFolder w n queue wsFolder
     = (Ok launches, [ EvExecFile (mesonPath (config w)) build ]) /\
     In (mkDebugLaunch wsFolder merged) launches) /\
  (forall k v, debugOptions (config w) !! k = Some v -> merged !! k = Some v) /\
  (forall k, debugOptions (config w) !! k = None ->
             merged !! k = envProgConfiguration buildDir (test_name test) !! k).
Proof.
  intros buildDir relevantTests requiredTargets build cfg
         Htests Htargets Hin Hreq Hbuild Hcmd Henv Hwd.
  split; [|split].
  - rewrite (prepareTestInFolder_cases w n queue wsFolder tests targets Htests Htargets).
    fold buildDir relevantTests requiredTargets build.
    destruct requiredTargets; [done|]. rewrite Hbuild.
    eexists. split; [reflexivity|].
    apply in_map_iff. exists test. split; [|done].
    unfold testLaunch, cfg. f_equal. f_equal.
    unfold testDebugConfiguration, envProgConfiguration.
    rewrite Hcmd, Henv, Hwd. cbn [workdirOr firstOrUndefined tail fmap list_fmap].
    by rewrite map_fmap_singleton.
  - intros k v Hk. unfold cfg. by rewrite spread_lookup, Hk.
  - intros k Hk. unfold cfg. by rewrite spread_lookup, Hk.
Qed.

Lemma prepareTestInFolder_env_launch_witness :
  exists launches,
    prepareTestInFolder (Sample.world "mirror") 0 [ Sample.leaf "prog-test" ] Sample.ws
    = (Ok launches, [ EvExecFile "meson" [ "compile"; "-C"; "/ws/builddir"; "prog" ] ]) /\
    In (mkDebugLaunch Sample.ws
          ({[ "MIMode" := JStr "gdb" ]} ∪ envProgConfiguration "/ws/builddir" "prog-test"))
       launches.
Proof.
  apply (prepareTestInFolder_env_launch (Sample.world "mirror") 0
           [ Sample.leaf "prog-test" ] Sample.ws
           [ Sample.progTest; Sample.fatTest ] [ Sample.prog; Sample.fat; Sample.util ]
           Sample.progTest); try reflexivity.
  - left. reflexivity.
  - discriminate.
Defined.

(** ** Task synthesis *)

Lemma targetTasks_ok w buildDir folder t name :
  getTargetName w t = Ok name ->
  targetTasks w buildDir folder t = Ok (tasksOfTarget w buildDir folder name t).
Proof. intros H. unfold targetTasks. by rewrite H. Qed.

Lemma targetTasks_throw w buildDir folder t e :
  getTargetName w t = Throw e -> targetTasks w buildDir folder t = Throw e.
Proof. intros H. unfold targetTasks. by rewrite H. Qed.

Lemma awaitAll_targetTasks w buildDir folder targets names :
  awaitAll (getTargetName w) targets = Ok names ->
  awaitAll (targetTasks w buildDir folder) targets
  = Ok (zip_with (tasksOfTarget w buildDir folder) names targets)
  /\ length names = length targets.
Proof.
  revert names. induction targets as [|t targets IH]; intros names; cbn [awaitAll].
  - intros [= <-]. done.
  - destruct (getTargetName w t) as [name|] eqn:E; cbn [mbind Result_bind]; [|done].
    rewrite (targetTasks_ok _ _ _ _ _ E).
    destruct (awaitAll (getTargetName w) targets) as [ns|]; cbn [mbind Result_bind]; [|done].
    intros [= <-]. destruct (IH ns eq_refl) as [-> Hlen]. simpl. by rewrite Hlen.
Qed.

Lemma awaitAll_throw {A B : Type} (f : A -> Result B) (xs : list A) x e :
  In x xs -> (forall y, In y xs -> f y = Throw e) -> awaitAll f xs = Throw e.
Proof.
  destruct xs as [|y r]; [intros []|]. intros _ Hall. cbn [awaitAll].
  by rewrite (Hall y (or_introl eq_refl)).
Qed.

(** The task list of a directory whose introspection succeeds. *)
Lemma getMesonTasksForDir_ok w buildDir folder targets tests benchmarks names :
  getMesonTargets w (buildDirOf w folder) = Ok targets ->
  getMesonTests w buildDir = Ok tests ->
  getMesonBenchmarks w buildDir = Ok benchmarks ->
  awaitAll (getTargetName w) (map (withWorkspace folder) targets) = Ok names ->
  getMesonTasksForDir w buildDir folder =
  (defaultTasks w buildDir folder
     ++ concat (zip_with (tasksOfTarget w buildDir folder) names
                         (map (withWorkspace folder) targets))
     ++ map (testTaskOf w buildDir folder) tests
     ++ map (benchmarkTaskOf w buildDir folder) benchmarks, [])
  /\ length names = length targets.
Proof.
  intros Htargets Htests Hbench Hnames.
  unfold getMesonTasksForDir, synthesizeTasks, getMesonTargetsFromFolder.
  rewrite Htargets, Htests, Hbench. cbn [mbind Result_bind].
  destruct (awaitAll_targetTasks w buildDir folder _ _ Hnames) as [-> Hlen].
  cbn [mbind Result_bind]. rewrite length_map in Hlen. done.
Qed.

Lemma filter_concat_zip {A B : Type} (p : Task -> bool) (f : A -> B -> list Task)
  (g : A -> B -> list Task) (xs : list A) (ys : list B) :
  (forall x y, List.filter p (f x y) = g x y) ->
  List.filter p (concat (zip_with f xs ys)) = concat (zip_with g xs ys).
Proof.
  intros Hfg. revert ys. induction xs as [|x xs IH]; intros [|y ys]; simpl; try done.
  by rewrite List.filter_app, Hfg, IH.
Qed.

Lemma filter_none {A : Type} (p : Task -> bool) (f : A -> Task) (l : list A) :
  (forall a, p (f a) = false) -> List.filter p (map f l) = [].
Proof. intros H. induction l as [|a l IH]; simpl; [done|]. by rewrite H. Qed.

Lemma concat_singletons {A B : Type} (f : A -> Task) (xs : list A) (ys : list B) :
  length xs = length ys ->
  concat (zip_with (fun x _ => [ f x ]) xs ys) = map f xs.
Proof.
  revert ys. induction xs as [|x xs IH]; intros [|y ys]; simpl; try done.
  intros [= H]. by rewrite IH.
Qed.

Lemma concat_nils {A B : Type} (xs : list A) (ys : list B) :
  concat (zip_with (fun _ _ => @nil Task) xs ys) = [].
Proof. revert ys. induction xs as [|x xs IH]; intros [|y ys]; simpl; auto. Qed.

Lemma runTasksOf_modes folder name t :
  Forall (fun task => definition task = mkDef (Some name) ModeRun (def_filename (definition task)))
         (runTasksOf folder name t).
Proof.
  unfold runTasksOf. destruct (String.eqb _ _); [|constructor].
  destruct (filename t) as [|f [|g r]]; repeat constructor.
  apply List.Forall_forall. intros task Hin. apply in_map_iff in Hin as (h & <- & _). done.
Qed.

Lemma filter_runTasksOf (p : Task -> bool) folder name t (b : bool) :
  (forall task, def_mode (definition task) = ModeRun ->
                def_target (definition task) = Some name -> p task = b) ->
  List.filter p (runTasksOf folder name t) = if b then runTasksOf folder name t else [].
Proof.
  intros Hp. pose proof (runTasksOf_modes folder name t) as Hall.
  induction Hall as [|task l Htask _ IH]; simpl; [by destruct b|].
  rewrite (Hp task), IH; [by destruct b| |]; by rewrite Htask.
Qed.

(** C5. When the introspection of a build directory succeeds with targets
    [targets], resolved to the names [names], the task list of
    [getMesonTasksForDir] holds, as its tasks of mode [build] with a
    target, exactly one build task per target, in order and identified by
    the target's resolved name; and its tasks without a target are exactly
    the five fixed ones: build-all ([compile]), test-all ([test]),
    benchmark-all ([test --benchmark --verbose]), reconfigure
    ([setup --reconfigure <buildDir>], run in the workspace root) and clean
    ([compile --clean]), the others run in the build directory. *)
Theorem getMesonTasksForDir_tasks w buildDir folder targets tests benchmarks names :
  getMesonTargets w (buildDirOf w folder) = Ok targets ->
  getMesonTests w buildDir = Ok tests ->
  getMesonBenchmarks w buildDir = Ok benchmarks ->
  awaitAll (getTargetName w) (map (withWorkspace folder) targets) = Ok names ->
  exists tasks,
    getMesonTasksForDir w buildDir folder = (tasks, []) /\
    length names = length targets /\
    List.filter isTargetBuild tasks = map (buildTaskOf w buildDir folder) names /\
    map (fun task => def_target (definition task)) (List.filter isTargetBuild tasks)
    = map Some names /\
    List.filter isFixed tasks = defaultTasks w buildDir folder /\
    map invocation (defaultTasks w buildDir folder) =
    [ (ModeBuild, [ "compile" ], Some buildDir);
      (ModeTest, [ "test" ], Some buildDir);
      (ModeBenchmark, [ "test"; "--benchmark"; "--verbose" ], Some buildDir);
      (ModeReconfigure, [ "setup"; "--reconfigure"; buildDir ], Some (fsPath (ws_uri folder)));
      (ModeClean, [ "compile"; "--clean" ], Some buildDir) ].
Proof.
  intros Htargets Htests Hbench Hnames.
  destruct (getMesonTasksForDir_ok w buildDir folder _ _ _ _ Htargets Htests Hbench Hnames)
    as [Htasks Hlen].
  eexists. split; [exact Htasks|]. split; [done|].
  assert (Hbuilds :
    List.filter isTargetBuild
      (defaultTasks w buildDir folder
         ++ concat (zip_with (tasksOfTarget w buildDir folder) names
                             (map (withWorkspace folder) targets))
         ++ map (testTaskOf w buildDir folder) tests
         ++ map (benchmarkTaskOf w buildDir folder) benchmarks)
    = map (buildTaskOf w buildDir folder) names).
  { rewrite !List.filter_app.
    rewrite (filter_none _ (testTaskOf w buildDir folder)) by done.
    rewrite (filter_none _ (benchmarkTaskOf w buildDir folder)) by done.
    rewrite (filter_concat_zip _ _ (fun name _ => [ buildTaskOf w buildDir folder name ])).
    - rewrite concat_singletons by (by rewrite length_map). simpl. by rewrite !app_nil_r.
    - intros name t. unfold tasksOfTarget. cbn [List.filter].
      rewrite (filter_runTasksOf _ _ _ _ false); [done|].
      intros task Hmode _. unfold isTargetBuild. by rewrite Hmode. }
  split; [exact Hbuilds|]. split; [|split; [|reflexivity]].
  - rewrite Hbuilds, map_map. done.
  - rewrite !List.filter_app.
    rewrite (filter_none _ (testTaskOf w buildDir folder)) by done.
    rewrite (filter_none _ (benchmarkTaskOf w buildDir folder)) by done.
    rewrite (filter_concat_zip _ _ (fun _ _ => [])).
    + rewrite concat_nils. by rewrite !app_nil_r.
    + intros name t. unfold tasksOfTarget. cbn [List.filter].
      rewrite (filter_runTasksOf _ _ _ _ false); [done|].
      intros task _ Htarget. unfold isFixed. by rewrite Htarget.
Qed.

Lemma getMesonTasksForDir_tasks_witness :
  exists tasks,
    getMesonTasksForDir (Sample.world "mirror") "/ws/builddir" Sample.ws = (tasks, []) /\
    List.filter isTargetBuild tasks
    = map (buildTaskOf (Sample.world "mirror") "/ws/builddir" Sample.ws)
          [ "sub/dir/prog"; "fat"; "util/util" ] /\
    List.filter isFixed tasks = defaultTasks (Sample.world "mirror") "/ws/builddir" Sample.ws.
Proof.
  destruct (getMesonTasksForDir_tasks (Sample.world "mirror") "/ws/builddir" Sample.ws
              [ Sample.prog; Sample.fat; Sample.util ]
              [ Sample.progTest; Sample.fatTest ] []
              [ "sub/dir/prog"; "fat"; "util/util" ]
              eq_refl eq_refl eq_refl eq_refl)
    as (tasks & Htasks & _ & Hbuilds & _ & Hfixed & _).
  exists tasks. done.
Defined.

(** The identities of the run tasks of a target with several output files
    differ when the files do. *)
Lemma runFileTaskOf_definitions folder name files :
  map definition (map (runFileTaskOf folder name) files)
  = map (fun f => mkDef (Some name) ModeRun (Some f)) files.
Proof. by rewrite map_map. Qed.

Lemma NoDup_qualified name files :
  List.NoDup files -> List.NoDup (map (fun f => mkDef (Some name) ModeRun (Some f)) files).
Proof.
  induction 1 as [|f files Hf Hnd IH]; simpl; constructor; [|done].
  rewrite in_map_iff. intros (g & [= ->] & Hg). done.
Qed.

(** C6. When the introspection of a build directory succeeds, the run tasks
    of the synthesized list are the run tasks of its targets, target by
    target. For an executable target with exactly one output file that is
    one run task, whose identity has no [filename]; with N > 1 output files
    it is N run tasks, the i-th qualified by the i-th file's path in
    [filename], so that distinct files give distinct identities. *)
Theorem runTasks_per_output_file w buildDir folder targets tests benchmarks names :
  getMesonTargets w (buildDirOf w folder) = Ok targets ->
  getMesonTests w buildDir = Ok tests ->
  getMesonBenchmarks w buildDir = Ok benchmarks ->
  awaitAll (getTargetName w) (map (withWorkspace folder) targets) = Ok names ->
  exists tasks,
    getMesonTasksForDir w buildDir folder = (tasks, []) /\
    List.filter isRun tasks
    = concat (zip_with (runTasksOf folder) names (map (withWorkspace folder) targets)) /\
    forall name t, target_type t = "executable" ->
      let runs := runTasksOf folder name t in
      (length (filename t) = 1 ->
       length runs = 1 /\
       map definition runs = [ mkDef (Some name) ModeRun None ]) /\
      (1 < length (filename t) ->
       length runs = length (filename t) /\
       map definition runs
       = map (fun f => mkDef (Some name) ModeRun (Some f)) (filename t) /\
       (List.NoDup (filename t) -> List.NoDup (map definition runs))).
Proof.
  intros Htargets Htests Hbench Hnames.
  destruct (getMesonTasksForDir_ok w buildDir folder _ _ _ _ Htargets Htests Hbench Hnames)
    as [Htasks Hlen].
  eexists. split; [exact Htasks|]. split.
  - rewrite !List.filter_app.
    rewrite (filter_none _ (testTaskOf w buildDir folder)) by done.
    rewrite (filter_none _ (benchmarkTaskOf w buildDir folder)) by done.
    rewrite (filter_concat_zip _ _ (runTasksOf folder)).
    + simpl. by rewrite !app_nil_r.
    + intros name t. unfold tasksOfTarget. cbn [List.filter].
      replace (isRun (buildTaskOf w buildDir folder name)) with false by done.
      rewrite (filter_runTasksOf _ _ _ _ true); [done|].
      intros task Hmode _. unfold isRun. by rewrite Hmode.
  - intros name t Hexe runs. unfold runs, runTasksOf. rewrite Hexe, String.eqb_refl.
    split.
    + intros Hone. destruct (filename t) as [|f [|g r]]; try done.
    + intros Hmany. destruct (filename t) as [|f [|g r]] eqn:E; simpl in Hmany; try lia.
      rewrite length_map, runFileTaskOf_definitions. repeat split; try done.
      apply NoDup_qualified.
Qed.

Lemma runTasks_per_output_file_witness :
  exists tasks,
    getMesonTasksForDir (Sample.world "flat") "/ws/builddir" Sample.ws = (tasks, []) /\
    map definition (List.filter isRun tasks)
    = [ mkDef (Some "meson-out/prog") ModeRun None;
        mkDef (Some "meson-out/fat") ModeRun (Some "/ws/builddir/fat-x86");
        mkDef (Some "meson-out/fat") ModeRun (Some "/ws/builddir/fat-arm") ].
Proof.
  destruct (runTasks_per_output_file (Sample.world "flat") "/ws/builddir" Sample.ws
              [ Sample.prog; Sample.fat; Sample.util ]
              [ Sample.progTest; Sample.fatTest ] []
              [ "meson-out/prog"; "meson-out/fat"; "meson-out/util" ]
              eq_refl eq_refl eq_refl eq_refl)
    as (tasks & Htasks & Hruns & _).
  exists tasks. split; [done|]. rewrite Hruns. reflexivity.
Defined.

(** ** Failure of task synthesis *)

Lemma reportSynthesisFailure_shows e :
  In (EvShowErrorMessage couldNotFetch) (reportSynthesisFailure e).
Proof.
  unfold reportSynthesisFailure. apply in_or_app. right. apply in_or_app. right. by left.
Qed.

Lemma getTargetName_unreadable w folder t :
  layoutUnreadable w folder ->
  exists e, getTargetName w (withWorkspace folder t) = Throw e.
Proof.
  unfold getTargetName. cbn [workspace withWorkspace].
  intros [[e He]|(bo & Hbo & Hlayout)].
  - rewrite He. by exists e.
  - rewrite Hbo. cbn [mbind Result_bind]. rewrite Hlayout. by eexists.
Qed.

Lemma synthesizeTasks_fails w buildDir folder :
  introspectionFails w buildDir folder ->
  exists e, synthesizeTasks w buildDir folder = Throw e.
Proof.
  unfold synthesizeTasks, getMesonTargetsFromFolder.
  intros [[e He]|[[e He]|[[e He]|(targets & t & Htargets & Hin & Hlayout)]]].
  - rewrite He. by exists e.
  - destruct (getMesonTargets _ _); cbn [mbind Result_bind]; [|by eexists].
    rewrite He. by exists e.
  - destruct (getMesonTargets _ _); cbn [mbind Result_bind]; [|by eexists].
    destruct (getMesonTests _ _); cbn [mbind Result_bind]; [|by eexists].
    rewrite He. by exists e.
  - rewrite Htargets. cbn [mbind Result_bind].
    destruct (getMesonTests _ _); cbn [mbind Result_bind]; [|by eexists].
    destruct (getMesonBenchmarks _ _); cbn [mbind Result_bind]; [|by eexists].
    destruct targets as [|t0 targets]; [destruct Hin|].
    cbn [map awaitAll].
    destruct (getTargetName_unreadable w folder t0 Hlayout) as [e He].
    rewrite (targetTasks_throw _ _ _ _ _ He). by exists e.
Qed.

(** What the aggregator returns: the tasks of every folder whose build
    directory exists, in order. *)
Lemma getMesonTasks_fold w folders st :
  fold_left (addFolderTasks w) folders st =
  (st.1 ++ flat_map (fun f => (getMesonTasksForDir w (buildDirOf w f) f).1)
                    (List.filter (fun f => existsSync w (buildDirOf w f)) folders),
   st.2 ++ flat_map (fun f => (getMesonTasksForDir w (buildDirOf w f) f).2)
                    (List.filter (fun f => existsSync w (buildDirOf w f)) folders)).
Proof.
  revert st. induction folders as [|f folders IH]; intros [tasks evs]; cbn [fold_left].
  - simpl. by rewrite !app_nil_r.
  - rewrite IH. unfold addFolderTasks. cbn [List.filter].
    destruct (existsSync w (buildDirOf w f)); [|done].
    cbn [flat_map].
    destruct (getMesonTasksForDir w (buildDirOf w f) f) as [ts es].
    cbn [fst snd]. by rewrite !app_assoc.
Qed.

(** C8. When an introspection call made for a build directory fails (the
    call is rejected or, for the build options, its output names no layout),
    [getMesonTasksForDir] returns the empty task list, having shown the
    error message; it does not throw. So the aggregation over the
    workspace folders goes on: [getMesonTasks] returns, and its list holds
    every task synthesized for every folder whose build directory exists. *)
Theorem getMesonTasksForDir_failure_is_contained w buildDir folder :
  introspectionFails w buildDir folder ->
  (exists evs,
     getMesonTasksForDir w buildDir folder = ([], evs) /\
     In (EvShowErrorMessage couldNotFetch) evs) /\
  (forall folders, workspaceFolders w = Some folders ->
   exists tasks evs,
     getMesonTasks w = Ok (tasks, evs) /\
     forall sibling task,
       In sibling folders ->
       existsSync w (buildDirOf w sibling) = true ->
       In task (getMesonTasksForDir w (buildDirOf w sibling) sibling).1 ->
       In task tasks).
Proof.
  intros Hfail. split.
  - destruct (synthesizeTasks_fails w buildDir folder Hfail) as [e He].
    unfold getMesonTasksForDir. rewrite He. eexists. split; [reflexivity|].
    apply reportSynthesisFailure_shows.
  - intros folders Hws. unfold getMesonTasks. rewrite Hws, getMesonTasks_fold.
    do 2 eexists. split; [reflexivity|].
    intros sibling task Hin Hexists Htask. cbn [fst app].
    apply in_flat_map. exists sibling. split; [|done].
    apply filter_In. done.
Qed.

Lemma getMesonTasksForDir_failure_is_contained_witness :
  exists evs,
    getMesonTasksForDir (Sample.world "mirror") "/lib/builddir" Sample.lib = ([], evs) /\
    In (EvShowErrorMessage couldNotFetch) evs.
Proof.
  apply (getMesonTasksForDir_failure_is_contained
           (Sample.world "mirror") "/lib/builddir" Sample.lib).
  left. eexists. reflexivity.
Defined.

(** ** The debug configuration provider *)

Lemma debuggable_workspace folder targets t :
  In t (debuggable folder targets) -> workspace t = Some folder.
Proof.
  unfold debuggable. rewrite !filter_In, in_map_iff.
  by intros [[(t0 & <- & _) _] _].
Qed.

Lemma awaitAll_targetLaunch w folder targets names :
  (forall t, In t targets -> workspace t = Some folder) ->
  awaitAll (getTargetName w) targets = Ok names ->
  awaitAll (targetLaunch w) targets = Ok (zip_with (launchOfTarget w folder) names targets)
  /\ length names = length targets.
Proof.
  revert names. induction targets as [|t targets IH]; intros names Hws; cbn [awaitAll].
  - by intros [= <-].
  - assert (Ht : targetLaunch w t = (name ← getTargetName w t; Ok (launchOfTarget w folder name t))).
    { unfold targetLaunch. rewrite (Hws t (or_introl eq_refl)). done. }
    rewrite Ht. destruct (getTargetName w t) as [name|]; cbn [mbind Result_bind]; [|done].
    destruct (awaitAll (getTargetName w) targets) as [ns|]; [|done].
    cbn [mbind Result_bind]. intros [= <-].
    destruct (IH ns) as [-> Hlen]; [by intros; apply Hws; right|done|].
    simpl. by rewrite Hlen.
Qed.

Lemma targetDebugConfiguration_program w t name folder :
  targetDebugConfiguration w t name folder !! "program"
  = Some (firstOrUndefined (filename t)).
Proof. reflexivity. Qed.

(** C10. When introspection succeeds, [provideDebugConfigurations] returns
    one configuration per debuggable target, in order, and nothing else; a
    target is debuggable exactly when it is of type ["executable"] and has
    a source of language ["cpp"] or ["c"]. The configuration's [program]
    is the target's first output file, and every synthesized field keeps
    its value whatever the [debugOptions] say; the options only fill in
    the keys the provider does not set. *)
Theorem provideDebugConfigurations_per_target w folder f targets names :
  chosenFolder w folder = Some f ->
  getMesonTargets w (buildDirOf w f) = Ok targets ->
  awaitAll (getTargetName w) (debuggable f targets) = Ok names ->
  exists configs,
    provideDebugConfigurations w folder = Ok configs /\
    configs = zip_with (launchOfTarget w f) names (debuggable f targets) /\
    length configs = length (debuggable f targets) /\
    (forall t, In t (debuggable f targets) <->
               In t (map (withWorkspace f) targets)
               /\ target_type t = "executable"
               /\ exists source, In source (target_sources t)
                                 /\ (language source = "cpp" \/ language source = "c")) /\
    forall name t,
      launchOfTarget w f name t !! "program" = Some (firstOrUndefined (filename t)) /\
      (forall k v, targetDebugConfiguration w t name f !! k = Some v ->
                   launchOfTarget w f name t !! k = Some v) /\
      (forall k, targetDebugConfiguration w t name f !! k = None ->
                 launchOfTarget w f name t !! k = debugOptions (config w) !! k).
Proof.
  intros Hf Htargets Hnames.
  destruct (awaitAll_targetLaunch w f _ _ (debuggable_workspace f targets) Hnames)
    as [Hlaunch Hlen].
  eexists. split; [|split; [reflexivity|split; [|split]]].
  - unfold provideDebugConfigurations.
    assert (Hchosen : match folder with
                      | Some f0 => Ok f0
                      | None => match workspaceFolders w with
                                | Some (f0 :: _) => Ok f0
                                | _ => Throw (TypeError "no workspace folder")
                                end
                      end = Ok f).
    { unfold chosenFolder in Hf. destruct folder; [by injection Hf as ->|].
      destruct (workspaceFolders w) as [[|? ?]|]; try done. by injection Hf as ->. }
    rewrite Hchosen. cbn [mbind Result_bind].
    unfold getMesonTargetsFromFolder. rewrite Htargets. cbn [mbind Result_bind].
    exact Hlaunch.
  - rewrite length_zip_with. lia.
  - intros t. unfold debuggable. rewrite !filter_In. unfold isExecutable, hasCSource.
    rewrite existsb_exists. rewrite String.eqb_eq. split.
    + intros [[Hin Hexe] (s & Hs & Hlang)]. repeat split; try done.
      exists s. split; [done|]. apply orb_true_iff in Hlang.
      by rewrite !String.eqb_eq in Hlang.
    + intros (Hin & Hexe & s & Hs & Hlang). repeat split; try done.
      exists s. split; [done|]. apply orb_true_iff. by rewrite !String.eqb_eq.
  - intros name t. unfold launchOfTarget. split; [|split].
    + rewrite lookup_union, targetDebugConfiguration_program.
      by destruct (debugOptions (config w) !! "program").
    + intros k v Hk. rewrite lookup_union, Hk. by destruct (debugOptions (config w) !! k).
    + intros k Hk. rewrite lookup_union, Hk. by destruct (debugOptions (config w) !! k).
Qed.

Lemma provideDebugConfigurations_per_target_witness :
  provideDebugConfigurations (Sample.world "mirror") None
  = Ok [ launchOfTarget (Sample.world "mirror") Sample.ws "sub/dir/prog"
           (withWorkspace Sample.ws Sample.prog) ].
Proof.
  destruct (provideDebugConfigurations_per_target (Sample.world "mirror") None Sample.ws
              [ Sample.prog; Sample.fat; Sample.util ] [ "sub/dir/prog" ]
              eq_refl eq_refl eq_refl)
    as (configs & Hres & Hconfigs & _).
  rewrite Hres, Hconfigs. reflexivity.
Defined.

(** ** Paths made of plain names *)

Lemma isName_slashFree s : isName s = true -> slashFree s = true.
Proof. unfold isName. rewrite !andb_true_iff. tauto. Qed.

Lemma isName_nonEmpty s : isName s = true -> nonEmpty s = true.
Proof. unfold isName, nonEmpty. rewrite !andb_true_iff. tauto. Qed.

Lemma append_cons c (a b : string) : String c a +:+ b = String c (a +:+ b).
Proof. reflexivity. Qed.

Lemma append_assoc (a b c : string) : (a +:+ b) +:+ c = a +:+ (b +:+ c).
Proof. induction a as [|x a IH]; [done|]. by rewrite !append_cons, IH. Qed.

Lemma split_nonnil s : Path.split s <> [].
Proof.
  induction s as [|c r IH]; simpl; [done|].
  destruct (Path.isSlash c); [done|]. by destruct (Path.split r).
Qed.

Lemma split_slashFree s : slashFree s = true -> Path.split s = [ s ].
Proof.
  induction s as [|c r IH]; simpl; [done|].
  rewrite andb_true_iff, negb_true_iff. intros [-> Hr]. by rewrite IH.
Qed.

Lemma split_append a b : Path.split (a +:+ String "/" b) = Path.split a ++ Path.split b.
Proof.
  induction a as [|c a IH]; [done|]. rewrite append_cons. cbn [Path.split].
  destruct (Path.isSlash c); [by rewrite IH|].
  rewrite IH. pose proof (split_nonnil a). by destruct (Path.split a).
Qed.

Lemma join_cons s r : r <> [] -> Path.join (s :: r) = s +:+ String "/" (Path.join r).
Proof. by destruct r. Qed.

Lemma join_snoc segs s :
  segs <> [] -> Path.join (segs ++ [ s ]) = Path.join segs +:+ String "/" s.
Proof.
  induction segs as [|x segs IH]; [done|]. intros _.
  destruct segs as [|y segs]; [done|].
  change ((x :: y :: segs) ++ [ s ]) with (x :: ((y :: segs) ++ [ s ])).
  rewrite join_cons by done. rewrite IH by done.
  rewrite (join_cons x (y :: segs)) by done.
  rewrite append_assoc. done.
Qed.

Lemma join_app xs ys :
  xs <> [] -> ys <> [] ->
  Path.join (xs ++ ys) = Path.join xs +:+ String "/" (Path.join ys).
Proof.
  induction xs as [|x xs IH]; [done|]. intros _ Hys.
  destruct xs as [|y xs].
  - simpl. by destruct ys.
  - change ((x :: y :: xs) ++ ys) with (x :: ((y :: xs) ++ ys)).
    rewrite join_cons by done. rewrite IH by done.
    rewrite (join_cons x (y :: xs)) by done. by rewrite append_assoc.
Qed.

Lemma split_join segs :
  Forall (fun s => slashFree s = true) segs -> segs <> [] ->
  Path.split (Path.join segs) = segs.
Proof.
  induction 1 as [|s segs Hs Hall IH]; [done|]. intros _.
  destruct segs as [|t segs]; [by apply split_slashFree|].
  rewrite join_cons by done. rewrite split_append, split_slashFree by done.
  by rewrite IH.
Qed.

(** Normalization keeps names and drops empty segments. *)
Lemma normalizeSegs_names b segs :
  Forall (fun s => s = "" \/ isName s = true) segs ->
  Path.normalizeSegs b segs = List.filter nonEmpty segs.
Proof.
  unfold Path.normalizeSegs.
  assert (H : forall acc,
    Forall (fun s => s = "" \/ isName s = true) segs ->
    fold_left (Path.normalizeStep b) segs acc = rev (List.filter nonEmpty segs) ++ acc).
  { induction segs as [|s segs IH]; intros acc Hall; [done|].
    inversion Hall as [|? ? Hs Hrest]; subst. cbn [fold_left List.filter].
    rewrite IH by done. destruct Hs as [->|Hs].
    - done.
    - unfold Path.normalizeStep. rewrite (isName_nonEmpty s Hs).
      unfold isName in Hs. rewrite !andb_true_iff, !negb_true_iff in Hs.
      destruct Hs as [[[_ ->] ->] ->]. simpl. by rewrite <- app_assoc. }
  intros Hall. rewrite H by done. by rewrite app_nil_r, rev_involutive.
Qed.

Lemma filter_nonEmpty_names segs :
  Forall (fun s => isName s = true) segs -> List.filter nonEmpty segs = segs.
Proof.
  induction 1 as [|s segs Hs Hall IH]; [done|].
  simpl. by rewrite (isName_nonEmpty s Hs), IH.
Qed.

Lemma names_slashFree segs :
  Forall (fun s => isName s = true) segs -> Forall (fun s => slashFree s = true) segs.
Proof. intros H. eapply Forall_impl; [exact H|]. intros s. apply isName_slashFree. Qed.

Lemma names_or_empty segs :
  Forall (fun s => isName s = true) segs -> Forall (fun s => s = "" \/ isName s = true) segs.
Proof. intros H. eapply Forall_impl; [exact H|]. auto. Qed.

(** The segments of ["/" + names.join("/")], with or without a closing
    slash, are the names. *)
Lemma split_rooted segs :
  Forall (fun s => isName s = true) segs ->
  Forall (fun s => s = "" \/ isName s = true) (Path.split (String "/" (Path.join segs)))
  /\ List.filter nonEmpty (Path.split (String "/" (Path.join segs))) = segs.
Proof.
  intros Hall. change (String "/" (Path.join segs)) with ("" +:+ String "/" (Path.join segs)).
  rewrite split_append. cbn [Path.split app].
  destruct segs as [|s segs]; [simpl; split; [repeat constructor; by left|done]|].
  rewrite split_join; [|by apply names_slashFree|done].
  split; [constructor; [by left|by apply names_or_empty]|].
  change (List.filter nonEmpty ("" :: s :: segs)) with (List.filter nonEmpty (s :: segs)).
  by apply filter_nonEmpty_names.
Qed.

Lemma split_rooted_slash segs :
  Forall (fun s => isName s = true) segs ->
  Forall (fun s => s = "" \/ isName s = true)
         (Path.split (String "/" (Path.join segs) +:+ String "/" ""))
  /\ List.filter nonEmpty (Path.split (String "/" (Path.join segs) +:+ String "/" "")) = segs.
Proof.
  intros Hall. rewrite split_append. destruct (split_rooted segs Hall) as [H1 H2].
  split.
  - apply Forall_app. split; [done|]. constructor; [by left|constructor].
  - rewrite List.filter_app, H2. simpl. by rewrite app_nil_r.
Qed.

Lemma segments_rooted segs :
  Forall (fun s => isName s = true) segs ->
  Path.segments (String "/" (Path.join segs)) = segs.
Proof. intros Hall. by destruct (split_rooted segs Hall). Qed.

(** An absolute path made of names resolves to itself. *)
Lemma resolve_rooted cwd segs :
  Forall (fun s => isName s = true) segs ->
  Path.resolve cwd [ String "/" (Path.join segs) ] = String "/" (Path.join segs).
Proof.
  intros Hall. unfold Path.resolve. cbn [rev app Path.resolveScan String.eqb Path.isAbsolute].
  replace (Path.isSlash "/") with true by done. cbn [negb].
  unfold Path.normalizeString.
  destruct (split_rooted_slash segs Hall) as [H1 H2].
  change ("/" +:+ "") with "/". by rewrite normalizeSegs_names, H2.
Qed.

Lemma stripCommon_prefix rs ds : Path.stripCommon rs (rs ++ ds) = ([], ds).
Proof.
  induction rs as [|r rs IH]; [by destruct ds|].
  cbn [app Path.stripCommon]. by rewrite String.eqb_refl.
Qed.

(** From a directory made of names to one beneath it: the names in between. *)
Lemma relative_beneath cwd rs ds :
  Forall (fun s => isName s = true) rs ->
  Forall (fun s => isName s = true) ds ->
  Path.relative cwd (String "/" (Path.join rs)) (String "/" (Path.join (rs ++ ds)))
  = Path.join ds.
Proof.
  intros Hrs Hds.
  assert (Hall : Forall (fun s => isName s = true) (rs ++ ds)) by (by apply Forall_app).
  assert (Hsame : String "/" (Path.join rs) = String "/" (Path.join (rs ++ ds)) -> ds = []).
  { intros Heq. apply (f_equal Path.segments) in Heq.
    rewrite !segments_rooted in Heq by done.
    apply (app_inv_head rs). by rewrite app_nil_r. }
  unfold Path.relative. rewrite !resolve_rooted by done.
  destruct (String.eqb_spec (String "/" (Path.join rs)) (String "/" (Path.join (rs ++ ds))))
    as [Heq|Hne].
  - by rewrite (Hsame Heq).
  - rewrite !segments_rooted by done. by rewrite stripCommon_prefix.
Qed.

Lemma chars_append (a b : string) :
  list_ascii_of_string (a +:+ b) = list_ascii_of_string a ++ list_ascii_of_string b.
Proof. induction a as [|c a IH]; [done|]. rewrite append_cons. simpl. by rewrite IH. Qed.

Lemma slashFree_chars s :
  slashFree s = true -> Forall (fun c => Path.isSlash c = false) (list_ascii_of_string s).
Proof.
  induction s as [|c s IH]; simpl; [constructor|].
  rewrite andb_true_iff, negb_true_iff. intros [Hc Hs]. constructor; auto.
Qed.

Lemma dropWhile_all {A : Type} (f : A -> bool) (l r : list A) :
  Forall (fun x => f x = true) l -> Path.dropWhile f (l ++ r) = Path.dropWhile f r.
Proof. induction 1 as [|x l Hx _ IH]; [done|]. simpl. by rewrite Hx. Qed.

Lemma dropWhile_none {A : Type} (f : A -> bool) (x : A) (l : list A) :
  f x = false -> Path.dropWhile f (x :: l) = x :: l.
Proof. intros Hx. simpl. by rewrite Hx. Qed.

(** The characters of a name, last first: none is a slash and there is one. *)
Lemma name_chars_rev s :
  isName s = true ->
  exists c l, rev (list_ascii_of_string s) = c :: l /\
              Forall (fun x => Path.isSlash x = false) (c :: l).
Proof.
  intros Hs. pose proof (slashFree_chars s (isName_slashFree s Hs)) as Hall.
  apply isName_nonEmpty in Hs. destruct s as [|c0 s]; [done|].
  destruct (rev (list_ascii_of_string (String c0 s))) as [|c l] eqn:E.
  - apply (f_equal (@length _)) in E. rewrite length_rev in E. done.
  - exists c, l. split; [done|]. rewrite <- E. by apply Forall_rev.
Qed.

Lemma join_names_nonempty s segs :
  isName s = true -> exists c r, Path.join (s :: segs) = String c r /\ Path.isSlash c = false.
Proof.
  intros Hs. pose proof (isName_slashFree s Hs) as Hfree.
  apply isName_nonEmpty in Hs. destruct s as [|c s]; [done|].
  simpl in Hfree. apply andb_true_iff in Hfree as [Hc _]. apply negb_true_iff in Hc.
  destruct segs as [|t segs]; [by exists c, s|].
  rewrite join_cons by done. rewrite append_cons. by eexists c, _.
Qed.

(** The directory of a file directly beneath a directory made of names. *)
Lemma dirname_beneath segs file :
  Forall (fun s => isName s = true) segs -> isName file = true ->
  Path.dirname (String "/" (Path.join (segs ++ [ file ]))) = String "/" (Path.join segs).
Proof.
  intros Hsegs Hfile. unfold Path.dirname.
  replace (Path.isSlash "/") with true by done.
  destruct (name_chars_rev file Hfile) as (c & l & Hrev & Hchars).
  assert (Hnot : Forall (fun x => negb (Path.isSlash x) = true) (c :: l)).
  { eapply Forall_impl; [exact Hchars|]. intros x Hx. by rewrite Hx. }
  inversion Hchars as [|? ? Hc _]; subst.
  destruct segs as [|s segs].
  - cbn [app Path.join]. rewrite Hrev, dropWhile_none by done.
    rewrite <- (app_nil_r (c :: l)), dropWhile_all by done. done.
  - rewrite join_snoc by done. rewrite chars_append. cbn [list_ascii_of_string].
    rewrite rev_app_distr. cbn [rev]. rewrite Hrev, <- !app_assoc. cbn [app].
    rewrite dropWhile_none by done.
    change (c :: l ++ ?x) with ((c :: l) ++ x).
    rewrite dropWhile_all by done. rewrite dropWhile_none by done.
    inversion Hsegs as [|? ? Hs _]; subst.
    destruct (join_names_nonempty s segs Hs) as (c1 & r1 & Hjoin & _).
    rewrite bool_decide_eq_false_2.
    + rewrite rev_involutive. cbn [andb].
      by rewrite string_of_list_ascii_of_string.
    + rewrite Hjoin. simpl. intros Hnil.
      apply (f_equal (@length _)) in Hnil. rewrite !length_app in Hnil. simpl in Hnil. lia.
Qed.

Lemma endsWithSlash_names segs s :
  isName s = true -> Path.endsWithSlash (Path.join (segs ++ [ s ])) = false.
Proof.
  intros Hs. unfold Path.endsWithSlash.
  destruct (name_chars_rev s Hs) as (c & l & Hrev & Hchars).
  inversion Hchars as [|? ? Hc _]; subst.
  destruct segs as [|t segs].
  - cbn [app Path.join]. by rewrite Hrev.
  - rewrite join_snoc by done. rewrite chars_append, rev_app_distr.
    cbn [list_ascii_of_string rev]. by rewrite Hrev.
Qed.

(** A relative path made of names is already normal. *)
Lemma normalize_names segs :
  Forall (fun s => isName s = true) segs -> segs <> [] ->
  Path.normalize (Path.join segs) = Path.join segs.
Proof.
  intros Hall Hne. unfold Path.normalize.
  assert (Htrail : Path.endsWithSlash (Path.join segs) = false).
  { destruct segs as [|s segs _] using rev_ind; [done|].
    apply Forall_app in Hall as [_ Hs]. inversion Hs; subst.
    by apply endsWithSlash_names. }
  assert (Hnorm : Path.normalizeString (Path.join segs) true = Path.join segs).
  { unfold Path.normalizeString. rewrite split_join; [|by apply names_slashFree|done].
    rewrite normalizeSegs_names by (by apply names_or_empty).
    by rewrite filter_nonEmpty_names. }
  destruct segs as [|s segs]; [done|]. inversion Hall as [|? ? Hs _]; subst.
  destruct (join_names_nonempty s segs Hs) as (c & r & Hjoin & Hc).
  rewrite Htrail. rewrite Hjoin in *.
  cbn [String.eqb Path.isAbsolute]. rewrite Hc. cbn [negb]. rewrite Hnorm.
  cbn [String.eqb]. done.
Qed.

Lemma posix_join_names ds name :
  Forall (fun s => isName s = true) ds -> isName name = true ->
  Path.posix_join [ Path.join ds; name ] = Path.join (ds ++ [ name ]).
Proof.
  intros Hds Hname. unfold Path.posix_join. cbn [List.filter].
  pose proof (isName_nonEmpty name Hname) as Hne. unfold nonEmpty in Hne. rewrite Hne.
  destruct ds as [|d ds].
  - cbn [Path.join String.eqb negb app]. apply (normalize_names [ name ]); [|done].
    by constructor.
  - inversion Hds as [|? ? Hd _]; subst.
    destruct (join_names_nonempty d ds Hd) as (c & r & Hjoin & _).
    rewrite Hjoin at 1. cbn [String.eqb negb].
    change (Path.join [ Path.join (d :: ds); name ])
      with (Path.join (d :: ds) +:+ String "/" name).
    rewrite <- join_snoc by done. apply normalize_names; [|done].
    apply Forall_app. split; [done|]. by constructor.
Qed.

(** ** Target names *)

Lemma getTargetName_ok w target folder buildOptions layoutOption :
  workspace target = Some folder ->
  getMesonBuildOptions w (buildDirOf w folder) = Ok buildOptions ->
  layoutOptionOf buildOptions = Some layoutOption ->
  getTargetName w target = Ok (nameUnder w folder layoutOption target).
Proof.
  intros Hws Hbo Hlayout. unfold getTargetName, nameUnder.
  rewrite Hws, Hbo. cbn [mbind Result_bind]. rewrite Hlayout.
  by destruct (isMirror _).
Qed.

Lemma isMirror_true v : isMirror v = true <-> v = JStr "mirror".
Proof.
  destruct v; simpl; try (split; [discriminate|done]).
  rewrite String.eqb_eq. split; [by intros ->|by intros [= ->]].
Qed.

(** C4. For a target of a folder whose build options are read and name a
    layout. When the layout is ["mirror"], [getTargetName] returns the path
    of the directory of [defined_in] relative to the workspace root, joined
    to the target's name by [path.posix.join]; so for a root [/r1/../rn]
    and a target defined in a file of [/r1/../rn/d1/../dm] (all plain
    names) it returns [d1/../dm/name], with forward slashes. For any other
    layout value it returns [meson-out/name], wherever the target is
    defined. *)
Theorem getTargetName_by_layout w target folder buildOptions layoutOption :
  workspace target = Some folder ->
  getMesonBuildOptions w (buildDirOf w folder) = Ok buildOptions ->
  layoutOptionOf buildOptions = Some layoutOption ->
  (option_value layoutOption = JStr "mirror" ->
   getTargetName w target
   = Ok (Path.posix_join
           [ Path.relative (cwd w) (fsPath (ws_uri folder))
                           (Path.dirname (defined_in target));
             target_name target ]) /\
   forall root dirs file,
     Forall (fun s => isName s = true) root ->
     Forall (fun s => isName s = true) dirs ->
     isName file = true ->
     isName (target_name target) = true ->
     fsPath (ws_uri folder) = "/" +:+ Path.join root ->
     defined_in target = "/" +:+ Path.join (root ++ dirs ++ [ file ]) ->
     getTargetName w target = Ok (Path.join (dirs ++ [ target_name target ]))) /\
  (option_value layoutOption <> JStr "mirror" ->
   getTargetName w target = Ok ("meson-out/" +:+ target_name target)).
Proof.
  intros Hws Hbo Hlayout.
  rewrite (getTargetName_ok w target folder buildOptions layoutOption Hws Hbo Hlayout).
  unfold nameUnder. split.
  - intros Hmirror. apply isMirror_true in Hmirror. rewrite Hmirror. split; [done|].
    intros root dirs file Hroot Hdirs Hfile Hname -> ->. f_equal.
    change ("/" +:+ ?x) with (String "/" x).
    rewrite app_assoc, dirname_beneath; [|by apply Forall_app|done].
    rewrite relative_beneath by done. by apply posix_join_names.
  - intros Hflat. destruct (isMirror _) eqn:E; [|done].
    by apply isMirror_true in E.
Qed.

Lemma getTargetName_by_layout_witness :
  getTargetName (Sample.world "mirror") (withWorkspace Sample.ws Sample.prog)
  = Ok "sub/dir/prog".
Proof.
  destruct (getTargetName_by_layout (Sample.world "mirror")
              (withWorkspace Sample.ws Sample.prog) Sample.ws
              [ mkBuildOption "buildtype" (JStr "debug");
                mkBuildOption "layout" (JStr "mirror") ]
              (mkBuildOption "layout" (JStr "mirror"))
              eq_refl eq_refl eq_refl) as [Hmirror _].
  destruct (Hmirror eq_refl) as [_ Hnames].
  apply (Hnames [ "ws" ] [ "sub"; "dir" ] "meson.build");
    try reflexivity; repeat constructor.
Defined.

(** The example of the specification: workspace root [/ws], a target [foo]
    defined in [/ws/sub/dir]. *)
Example getTargetName_foo :
  let foo := mkTarget "foo" "foo@exe" "executable" "/ws/sub/dir/meson.build"
                      [ "/ws/builddir/sub/dir/foo" ] [] (Some Sample.ws) in
  getTargetName (Sample.world "mirror") foo = Ok "sub/dir/foo" /\
  getTargetName (Sample.world "flat") foo = Ok "meson-out/foo".
Proof. split; reflexivity. Qed.

(** * Further properties of the code *)

(** ** More on the collection *)

Lemma coll_add_ids_In item c k :
  In k (ids (coll_add item c)) -> k = item_id item \/ In k (ids c).
Proof.
  unfold ids. rewrite !in_map_iff. intros (x & <- & Hx).
  apply coll_add_In in Hx as [->|Hx]; [by left|]. right. by exists x.
Qed.

Lemma coll_add_NoDup item c : List.NoDup (ids c) -> List.NoDup (ids (coll_add item c)).
Proof.
  induction c as [|x r IH]; simpl; intros Hnd.
  - constructor; [intros []|constructor].
  - inversion Hnd as [|? ? Hx Hr]; subst.
    destruct (hasId (item_id item) x) eqn:E; simpl.
    + apply hasId_true in E. rewrite <- E. by constructor.
    + constructor; [|by apply IH].
      intros Hin. apply coll_add_ids_In in Hin as [Heq|Hin]; [|done].
      apply hasId_true in Heq. congruence.
Qed.

Lemma coll_delete_NoDup k c : List.NoDup (ids c) -> List.NoDup (ids (coll_delete k c)).
Proof.
  induction c as [|x r IH]; simpl; intros Hnd; [constructor|].
  inversion Hnd as [|? ? Hx Hr]; subst.
  destruct (hasId k x); simpl; [by apply IH|].
  constructor; [|by apply IH].
  unfold ids. rewrite in_map_iff. intros (y & Hid & Hy).
  apply coll_delete_In in Hy as [Hy _]. apply Hx. rewrite <- Hid. by apply in_map.
Qed.

(** With unique ids, what [add] leaves under the added id is the added item. *)
Lemma coll_add_same_id item c y :
  List.NoDup (ids c) -> In y (coll_add item c) -> item_id y = item_id item -> y = item.
Proof.
  induction c as [|x r IH]; simpl; intros Hnd.
  - by intros [<-|[]].
  - inversion Hnd as [|? ? Hx Hr]; subst.
    destruct (hasId (item_id item) x) eqn:E; simpl.
    + apply hasId_true in E. intros [<-|Hy] Hid; [done|].
      exfalso. apply Hx. rewrite E, <- Hid. unfold ids. by apply in_map.
    + intros [<-|Hy] Hid; [|by apply IH].
      apply hasId_true in Hid. congruence.
Qed.

Lemma removeStale_fold_NoDup tests l st :
  List.NoDup (ids st.1) -> List.NoDup (ids (fold_left (removeStale tests) l st).1).
Proof.
  revert st. induction l as [|y l IH]; intros st Hnd; cbn [fold_left]; [done|].
  apply IH. rewrite removeStale_items. destruct (matchesSomeTest tests y); [done|].
  by apply coll_delete_NoDup.
Qed.

Lemma addTestItem_fold_NoDup folder tests st :
  List.NoDup (ids st.1) -> List.NoDup (ids (fold_left (addTestItem folder) tests st).1).
Proof.
  revert st. induction tests as [|t tests IH]; intros st Hnd; cbn [fold_left]; [done|].
  apply IH. simpl. by apply coll_add_NoDup.
Qed.

Lemma reconcile_NoDup tests folder c :
  List.NoDup (ids c) -> List.NoDup (ids (reconcile tests folder c).1).
Proof.
  intros Hnd. unfold reconcile. apply addTestItem_fold_NoDup.
  by apply removeStale_fold_NoDup.
Qed.

(** With unique ids, once the tests are added an item is either a fresh one
    or an old one that no test names. *)
Lemma addTestItem_fold_fresh folder tests st y :
  List.NoDup (ids st.1) ->
  In y (fold_left (addTestItem folder) tests st).1 ->
  (exists t, In t tests /\
     y = createTestItem (test_name t) (test_name t) (Some (ws_uri folder))) \/
  (In y st.1 /\ forall t, In t tests -> test_name t <> item_id y).
Proof.
  revert st. induction tests as [|t tests IH]; intros st Hnd; cbn [fold_left].
  - intros Hy. right. split; [done|]. intros ? [].
  - intros Hy. apply IH in Hy; [|by apply coll_add_NoDup].
    destruct Hy as [(t' & Ht' & ->)|[Hy Hnames]].
    + left. exists t'. split; [by right|done].
    + cbn [addTestItem fst] in Hy.
      destruct (String.eqb_spec (item_id y) (test_name t)) as [Heq|Hne].
      * left. exists t. split; [by left|].
        by apply (coll_add_same_id _ st.1 y Hnd Hy).
      * apply coll_add_In in Hy as [->|Hy]; [done|].
        right. split; [done|]. intros t' [<-|Ht']; [done|by apply Hnames].
Qed.

Lemma reconcile_ids tests folder c k :
  In k (ids (reconcile tests folder c).1) <-> In k (map test_name tests).
Proof.
  destruct (reconcile_settled tests folder c) as [Hall Hnames]. split.
  - unfold ids. rewrite !in_map_iff. intros (x & <- & Hx).
    rewrite List.Forall_forall in Hall. apply Hall, matchesSomeTest_true in Hx as (t & Ht & ->).
    by exists t.
  - rewrite in_map_iff. intros (t & <- & Ht). by apply Hnames.
Qed.

(** X1. When the tests of a folder can be fetched, [rebuildTestsForFolder]
    succeeds and leaves in the collection exactly the ids that are names of
    the fetched tests, whatever the collection held before; ids that were
    pairwise distinct stay so. *)
Theorem rebuildTestsForFolder_converges w folder c tests :
  getMesonTests w (buildDirOf w folder) = Ok tests ->
  exists c1 ops,
    rebuildTestsForFolder w c folder = Ok (c1, ops) /\
    (forall k, In k (ids c1) <-> In k (map test_name tests)) /\
    (List.NoDup (ids c) -> List.NoDup (ids c1)).
Proof.
  intros Htests. unfold rebuildTestsForFolder. rewrite Htests. cbn [mbind Result_bind].
  destruct (reconcile tests folder c) as [c1 ops] eqn:E. exists c1, ops.
  split; [done|]. replace c1 with (reconcile tests folder c).1 by (by rewrite E).
  split; [apply reconcile_ids|apply reconcile_NoDup].
Qed.

Lemma rebuildTestsForFolder_converges_witness :
  exists c1 ops,
    rebuildTestsForFolder (Sample.world "mirror")
      [ Sample.leaf "gone"; Sample.leaf "fat-test" ] Sample.ws = Ok (c1, ops) /\
    forall k, In k (ids c1) <-> In k [ "prog-test"; "fat-test" ].
Proof.
  destruct (rebuildTestsForFolder_converges (Sample.world "mirror") Sample.ws
              [ Sample.leaf "gone"; Sample.leaf "fat-test" ]
              [ Sample.progTest; Sample.fatTest ] eq_refl)
    as (c1 & ops & Hrun & Hids & _).
  exists c1, ops. split; done.
Defined.

(** X2. On a collection with pairwise distinct ids, every item a
    successful [rebuildTestsForFolder] leaves behind is a freshly created
    leaf: its label is its id, its uri is the folder's, and it has no
    children. An item kept from an earlier pass is replaced, not reused. *)
Theorem rebuildTestsForFolder_recreates w folder c c1 ops :
  List.NoDup (ids c) ->
  rebuildTestsForFolder w c folder = Ok (c1, ops) ->
  forall item, In item c1 ->
    item_label item = item_id item /\
    item_uri item = Some (ws_uri folder) /\
    children item = [].
Proof.
  intros Hnd. unfold rebuildTestsForFolder.
  destruct (getMesonTests w (buildDirOf w folder)) as [tests|]; [|done].
  cbn [mbind Result_bind]. intros [= Hrec] item Hin.
  assert (Hc1 : c1 = (reconcile tests folder c).1) by (by rewrite Hrec). subst c1.
  unfold reconcile in Hin.
  apply addTestItem_fold_fresh in Hin; [|by apply removeStale_fold_NoDup].
  destruct Hin as [(t & _ & ->)|[Hold Hnames]]; [done|].
  apply (sweep_self _ _ (removeStale_items tests)) in Hold as [_ Hmatch].
  apply matchesSomeTest_true in Hmatch as (t & Ht & Hid).
  by destruct (Hnames t Ht).
Qed.

Lemma rebuildTestsForFolder_recreates_witness :
  List.Forall
    (fun item => item_label item = item_id item /\
                 item_uri item = Some (ws_uri Sample.ws) /\
                 children item = [])
    [ Sample.leaf "fat-test"; Sample.leaf "prog-test" ].
Proof.
  apply List.Forall_forall.
  apply (rebuildTestsForFolder_recreates (Sample.world "mirror") Sample.ws
           [ Sample.folderNode "gone" []; Sample.folderNode "fat-test" [ Sample.leaf "inner" ] ]
           _
           [ OpDelete "gone"; OpAdd (Sample.leaf "prog-test"); OpAdd (Sample.leaf "fat-test") ]).
  - repeat constructor; simpl; intros H; decompose [or] H; done.
  - vm_compute. reflexivity.
Defined.

(** ** Top-level nodes, folder by folder *)

Lemma withId_In k c y : In y (withId k c) <-> In y c /\ item_id y = k.
Proof. unfold withId. rewrite filter_In, hasId_true. done. Qed.

Lemma withId_coll_delete k k' c : k <> k' -> withId k (coll_delete k' c) = withId k c.
Proof.
  intros Hne. unfold withId, coll_delete. induction c as [|x r IH]; simpl; [done|].
  destruct (hasId k' x) eqn:E'; destruct (hasId k x) eqn:E; simpl; rewrite ?E, ?IH; try done.
  apply hasId_true in E, E'. congruence.
Qed.

Lemma withId_coll_add k item c :
  item_id item <> k -> withId k (coll_add item c) = withId k c.
Proof.
  intros Hne. assert (Hitem : hasId k item = false).
  { destruct (hasId k item) eqn:E; [|done]. by apply hasId_true in E. }
  unfold withId. induction c as [|x r IH]; simpl; [by rewrite Hitem|].
  destruct (hasId (item_id item) x) eqn:E; simpl.
  - rewrite Hitem. destruct (hasId k x) eqn:Ek; [|done].
    apply hasId_true in E, Ek. congruence.
  - by rewrite IH.
Qed.

Lemma withId_set_children k k' ch c :
  k <> k' -> withId k (coll_set_children k' ch c) = withId k c.
Proof.
  intros Hne. unfold withId, coll_set_children. induction c as [|x r IH]; simpl; [done|].
  destruct (hasId k' x) eqn:E'; [|by rewrite IH].
  rewrite IH. unfold hasId at 1 3. simpl. fold (hasId k x).
  destruct (hasId k x) eqn:E; [|done]. apply hasId_true in E, E'. congruence.
Qed.

Lemma coll_get_Some k c item : coll_get k c = Some item -> In item c /\ item_id item = k.
Proof.
  unfold coll_get. intros H. apply find_some in H as [Hin Hid].
  by apply hasId_true in Hid.
Qed.

Lemma coll_set_children_ids k ch c : ids (coll_set_children k ch c) = ids c.
Proof.
  unfold ids, coll_set_children. rewrite map_map. apply map_ext.
  intros x. by destruct (hasId k x).
Qed.

Lemma coll_set_children_In k ch c y :
  In y (coll_set_children k ch c) -> item_id y = k -> children y = ch.
Proof.
  unfold coll_set_children. rewrite in_map_iff. intros (x & <- & _).
  destruct (hasId k x) eqn:E; [done|]. intros Hid. apply hasId_true in Hid. congruence.
Qed.

(** A turn of the folder loop leaves alone every node whose id is neither
    the [fsPath] nor the [path] of the folder it handles. *)
Lemma rebuildFolder_frame w st g k :
  fsPath (ws_uri g) <> k -> path (ws_uri g) <> k ->
  withId k (rebuildFolder w st g).1 = withId k st.1.
Proof.
  intros Hfs Hpath. destruct st as [items evs]. unfold rebuildFolder.
  destruct (existsSync w (buildDirOf w g)); cbn [negb].
  - destruct (getMesonProjectInfo w (buildDirOf w g)) as [info|]; [|done].
    destruct (coll_get (fsPath (ws_uri g)) items) as [item|] eqn:Hget.
    + apply coll_get_Some in Hget as [_ Hid].
      destruct (rebuildTestsForFolder w (children item) g) as [[ch ops]|]; [|done].
      cbn [fst]. apply withId_set_children. congruence.
    + cbn [createTestItem children].
      destruct (rebuildTestsForFolder w [] g) as [[ch ops]|]; cbn [fst item_id].
      * rewrite withId_set_children by (simpl; congruence). by apply withId_coll_add.
      * by apply withId_coll_add.
  - destruct (coll_get (fsPath (ws_uri g)) items) as [item|] eqn:Hget; [|done].
    apply coll_get_Some in Hget as [_ Hid]. cbn [fst].
    apply withId_coll_delete. congruence.
Qed.

Lemma rebuildFolder_fold_frame w folders st k :
  (forall g, In g folders -> fsPath (ws_uri g) <> k /\ path (ws_uri g) <> k) ->
  withId k (fold_left (rebuildFolder w) folders st).1 = withId k st.1.
Proof.
  revert st. induction folders as [|g folders IH]; intros st Hall; cbn [fold_left]; [done|].
  rewrite IH by (intros; apply Hall; by right).
  apply rebuildFolder_frame; by apply Hall; left.
Qed.

(** The pruning pass leaves alone the nodes of an id under which every
    visited node survives. *)
Lemma prune_frame folders l st k :
  (forall y, In y l -> item_id y = k -> survivesPruning folders y = true) ->
  withId k (fold_left (pruneItem folders) l st).1 = withId k st.1.
Proof.
  revert st. induction l as [|y l IH]; intros st Hall; cbn [fold_left]; [done|].
  rewrite IH by (intros; apply Hall; [by right|done]).
  rewrite pruneItem_items. destruct (survivesPruning folders y) eqn:E; [done|].
  apply withId_coll_delete. intros Heq.
  rewrite (Hall y (or_introl eq_refl)) in E; done.
Qed.

Lemma rebuildTestsMulti_frame w pre f post items k :
  (forall g, In g post -> fsPath (ws_uri g) <> k /\ path (ws_uri g) <> k) ->
  let after := (rebuildFolder w (fold_left (rebuildFolder w) pre (items, [])) f).1 in
  (forall y, In y after -> item_id y = k -> survivesPruning (pre ++ f :: post) y = true) ->
  withId k (rebuildTestsMulti w (pre ++ f :: post) items).1 = withId k after.
Proof.
  intros Hpost after Hkeep. unfold rebuildTestsMulti.
  rewrite fold_left_app. cbn [fold_left].
  set (st1 := rebuildFolder w (fold_left (rebuildFolder w) pre (items, [])) f).
  assert (Hmid : withId k (fold_left (rebuildFolder w) post st1).1 = withId k after)
    by (by apply rebuildFolder_fold_frame).
  destruct (fold_left (rebuildFolder w) post st1) as [c evs]. cbn [fst] in *.
  rewrite prune_frame; [done|].
  intros y Hy Hid. apply Hkeep; [|done].
  assert (Hin : In y (withId k c)) by (by apply withId_In). rewrite Hmid in Hin.
  by apply withId_In in Hin as [? _].
Qed.

Lemma rebuildTests_multi w folders items :
  workspaceFolders w = Some folders -> length folders <> 1 ->
  rebuildTests w items = Ok (rebuildTestsMulti w folders items).
Proof.
  intros Hws Hlen. unfold rebuildTests. rewrite Hws.
  by destruct folders as [|f [|g r]].
Qed.

Lemma ids_In k c : In k (ids c) <-> exists y, In y c /\ item_id y = k.
Proof.
  unfold ids. rewrite in_map_iff. split; intros (y & H1 & H2); exists y; done.
Qed.


(** The turn of a configured folder whose introspection succeeds: its node
    is there afterwards, and the children of every node under its id are a
    reconciliation against its tests. *)
Lemma rebuildFolder_success w st f info tests :
  fsPath (ws_uri f) = path (ws_uri f) ->
  existsSync w (buildDirOf w f) = true ->
  getMesonProjectInfo w (buildDirOf w f) = Ok info ->
  getMesonTests w (buildDirOf w f) = Ok tests ->
  In (path (ws_uri f)) (ids (rebuildFolder w st f).1) /\
  forall y, In y (rebuildFolder w st f).1 -> item_id y = path (ws_uri f) ->
    exists old, children y = (reconcile tests f old).1.
Proof.
  intros Hposix Hexists Hinfo Htests. destruct st as [items evs].
  unfold rebuildFolder, rebuildTestsForFolder.
  rewrite Hexists, Hinfo, Htests. cbn [negb mbind Result_bind].
  destruct (coll_get (fsPath (ws_uri f)) items) as [item|] eqn:Hget.
  - apply coll_get_Some in Hget as [Hin Hid]. rewrite Hposix in Hid.
    destruct (reconcile tests f (children item)) as [ch ops] eqn:E. cbn [fst].
    rewrite Hid. split.
    + rewrite coll_set_children_ids. apply ids_In. by exists item.
    + intros y Hy Hk. exists (children item).
      rewrite E. by apply (coll_set_children_In _ _ _ _ Hy).
  - cbn [createTestItem children item_id].
    destruct (reconcile tests f []) as [ch ops] eqn:E. cbn [fst item_id]. split.
    + rewrite coll_set_children_ids.
      apply (coll_add_has_id (mkTestItem (path (ws_uri f)) (descriptive_name info) None [])).
    + intros y Hy Hk. exists []. rewrite E. by apply (coll_set_children_In _ _ _ _ Hy).
Qed.

(** X3. In a workspace of several folders, a folder with a build directory
    whose project info and tests can be fetched, with at least one test, has
    a top-level node under its [uri.path] after [rebuildTests], and the
    children of every node under that id carry exactly the names of the
    fetched tests. Proved for a folder whose [uri.fsPath] and [uri.path]
    agree and whose path no later folder of the workspace uses. *)
Theorem rebuildTests_folder_node w pre f post items info tests :
  workspaceFolders w = Some (pre ++ f :: post) ->
  length (pre ++ f :: post) <> 1 ->
  fsPath (ws_uri f) = path (ws_uri f) ->
  (forall g, In g post ->
     fsPath (ws_uri g) <> path (ws_uri f) /\ path (ws_uri g) <> path (ws_uri f)) ->
  existsSync w (buildDirOf w f) = true ->
  getMesonProjectInfo w (buildDirOf w f) = Ok info ->
  getMesonTests w (buildDirOf w f) = Ok tests ->
  tests <> [] ->
  exists items' evs,
    rebuildTests w items = Ok (items', evs) /\
    In (path (ws_uri f)) (ids items') /\
    forall node, In node items' -> item_id node = path (ws_uri f) ->
      forall name, In name (ids (children node)) <-> In name (map test_name tests).
Proof.
  intros Hws Hlen Hposix Hpost Hexists Hinfo Htests Hne.
  rewrite (rebuildTests_multi w _ items Hws Hlen).
  set (k := path (ws_uri f)).
  set (st := fold_left (rebuildFolder w) pre (items, [])).
  destruct (rebuildFolder_success w st f info tests Hposix Hexists Hinfo Htests)
    as [Hthere Hchildren]. fold k in Hthere, Hchildren.
  assert (Hnames : forall y, In y (rebuildFolder w st f).1 -> item_id y = k ->
            forall name, In name (ids (children y)) <-> In name (map test_name tests)).
  { intros y Hy Hk name. destruct (Hchildren y Hy Hk) as [old ->]. apply reconcile_ids. }
  assert (Hframe : withId k (rebuildTestsMulti w (pre ++ f :: post) items).1
                   = withId k (rebuildFolder w st f).1).
  { apply rebuildTestsMulti_frame; [done|]. intros y Hy Hk.
    unfold survivesPruning. apply andb_true_iff. split.
    - destruct (children y) as [|c r] eqn:Hch; [|done].
      destruct tests as [|t tests']; [done|].
      assert (Hin : In (test_name t) (ids (children y))) by (apply (Hnames y Hy Hk); by left).
      by rewrite Hch in Hin.
    - unfold isReferenced. apply existsb_exists. exists f. split.
      + apply in_or_app. right. by left.
      + rewrite Hk. apply String.eqb_refl. }
  destruct (rebuildTestsMulti w (pre ++ f :: post) items) as [items' evs'] eqn:E.
  exists items', evs'. cbn [fst] in Hframe. split; [done|]. split.
  - apply ids_In in Hthere as (y & Hy & Hk). apply ids_In. exists y.
    apply withId_In. rewrite Hframe. by apply withId_In.
  - intros node Hnode Hk. apply Hnames; [|done].
    assert (Hin : In node (withId k items')) by (by apply withId_In).
    rewrite Hframe in Hin. by apply withId_In in Hin as [? _].
Qed.

Lemma rebuildTests_folder_node_witness :
  exists items' evs,
    rebuildTests (Sample.world "mirror")
      [ Sample.folderNode "/ws" [ Sample.leaf "gone" ] ] = Ok (items', evs) /\
    In "/ws" (ids items') /\
    forall node, In node items' -> item_id node = "/ws" ->
      forall name, In name (ids (children node)) <-> In name [ "prog-test"; "fat-test" ].
Proof.
  apply (rebuildTests_folder_node (Sample.world "mirror") [] Sample.ws [ Sample.lib ]
           _ (mkProjectInfo "demo") [ Sample.progTest; Sample.fatTest ]);
    try reflexivity; try done.
  intros g [<-|[]]. split; done.
Defined.














(** X6. With exactly one workspace folder the tests are the top-level
    items: when the tests can be fetched the ids afterwards are exactly the
    test names; when fetching fails the items are left as they were. In both
    cases [rebuildTests] resolves and shows nothing, the reconciliation not
    being awaited. *)
Theorem rebuildTests_single_folder w f items :
  workspaceFolders w = Some [ f ] ->
  (forall tests, getMesonTests w (buildDirOf w f) = Ok tests ->
     exists items',
       rebuildTests w items = Ok (items', []) /\
       forall k, In k (ids items') <-> In k (map test_name tests)) /\
  (forall e, getMesonTests w (buildDirOf w f) = Throw e ->
     rebuildTests w items = Ok (items, [])).
Proof.
  intros Hws. unfold rebuildTests, rebuildTestsForFolder. rewrite Hws. split.
  - intros tests ->. cbn [mbind Result_bind].
    destruct (reconcile tests f items) as [items' ops] eqn:E. exists items'.
    split; [done|]. intros k. replace items' with (reconcile tests f items).1 by (by rewrite E).
    apply reconcile_ids.
  - by intros e ->.
Qed.

Lemma rebuildTests_single_folder_witness :
  exists items',
    rebuildTests Scenario.single
      [ Sample.leaf "gone" ] = Ok (items', []) /\
    forall k, In k (ids items') <-> In k [ "prog-test"; "fat-test" ].
Proof.
  exact (proj1 (rebuildTests_single_folder Scenario.single Sample.ws
                  [ Sample.leaf "gone" ] eq_refl)
               [ Sample.progTest; Sample.fatTest ] eq_refl).
Defined.

(** ** Accounting of a run *)

Lemma count_app p a b : count p (a ++ b) = count p a + count p b.
Proof. unfold count. by rewrite List.filter_app, length_app. Qed.

Lemma countSpawns_app a b : countSpawns (a ++ b) = countSpawns a + countSpawns b.
Proof. unfold countSpawns. by rewrite List.filter_app, length_app. Qed.

Lemma turnEvents_container w k test :
  children test <> [] ->
  turnEvents w k test = [ EvRunStarted test; EvRunPassed test None ].
Proof.
  intros Hch. unfold turnEvents, runTest. by destruct (children test).
Qed.

(** A turn that does not throw starts its test once, gives one verdict,
    spawns a process exactly when the test is a leaf and never ends the
    run. *)
Lemma turnEvents_account w k test :
  runnable test ->
  count isStarted (turnEvents w k test) = 1 /\
  count isVerdict (turnEvents w k test) = 1 /\
  countSpawns (turnEvents w k test) = leaves [ test ] /\
  count isRunEnd (turnEvents w k test) = 0.
Proof.
  intros Hrun. destruct (children test) as [|c r] eqn:Hch.
  - destruct (item_uri test) as [uri|] eqn:Huri; [|by destruct (Hrun Hch)].
    rewrite (turnEvents_leaf w k test uri Hch Huri). cbv zeta.
    unfold leaves. cbn [List.filter]. rewrite (proj2 (isLeaf_true test) Hch).
    destruct (cb_error _) as [error|]; [|done].
    unfold reportRejection. by destruct (isBuildFailure (code error)).
  - rewrite turnEvents_container by (by rewrite Hch).
    unfold leaves. cbn [List.filter].
    destruct (isLeaf test) eqn:E; [|done].
    apply isLeaf_true in E. congruence.
Qed.

Lemma queueEvents_account w k queue :
  Forall runnable queue ->
  count isStarted (queueEvents w k queue) = length queue /\
  count isVerdict (queueEvents w k queue) = length queue /\
  countSpawns (queueEvents w k queue) = leaves queue /\
  count isRunEnd (queueEvents w k queue) = 0.
Proof.
  revert k. induction queue as [|t queue IH]; intros k Hall; [done|].
  inversion Hall as [|? ? Ht Hq]; subst. cbn [queueEvents].
  destruct (turnEvents_account w k t Ht) as (H1 & H2 & H3 & H4).
  destruct (IH (k + leaves [ t ]) Hq) as (I1 & I2 & I3 & I4).
  rewrite !count_app, countSpawns_app, H1, H2, H3, H4, I1, I2, I3, I4.
  repeat split; try done.
  unfold leaves. cbn [List.filter]. destruct (isLeaf t); simpl; lia.
Qed.

Lemma count_none p evs : count p evs = 0 -> forall ev, In ev evs -> p ev = false.
Proof.
  unfold count. intros Hz ev Hin. destruct (p ev) eqn:E; [|done].
  assert (Hf : In ev (List.filter p evs)) by (by apply filter_In).
  destruct (List.filter p evs); [done|discriminate].
Qed.

(** X7. When every selected leaf carries a uri, [testRunHandler] returns,
    and before its closing [run.end()] it has started every queued item
    once, given one verdict (passed, errored or failed) per queued item,
    folder nodes included, spawned one process per leaf, and not ended the
    run. *)
Theorem testRunHandler_accounts w items request :
  Forall runnable (selectedQueue items request) ->
  exists evs,
    testRunHandler w items request = (evs ++ [ EvRunEnd ], Completed) /\
    count isStarted evs = length (selectedQueue items request) /\
    count isVerdict evs = length (selectedQueue items request) /\
    countSpawns evs = leaves (selectedQueue items request) /\
    ~ In EvRunEnd evs.
Proof.
  intros Hall. unfold testRunHandler. rewrite runQueue_spec by done.
  cbn [events executed app]. eexists. split; [reflexivity|].
  destruct (queueEvents_account w 0 _ Hall) as (H1 & H2 & H3 & H4).
  repeat split; try done.
  intros Hin. by apply (count_none _ _ H4) in Hin.
Qed.

Lemma testRunHandler_accounts_witness :
  exists evs,
    testRunHandler (Sample.world "mirror")
      [ Sample.folderNode "/ws" [ Sample.leaf "prog-test"; Sample.leaf "fat-test" ] ]
      (mkTestRunRequest None) = (evs ++ [ EvRunEnd ], Completed) /\
    count isStarted evs = 3 /\
    count isVerdict evs = 3 /\
    countSpawns evs = 2 /\
    ~ In EvRunEnd evs.
Proof.
  apply (testRunHandler_accounts (Sample.world "mirror")
           [ Sample.folderNode "/ws" [ Sample.leaf "prog-test"; Sample.leaf "fat-test" ] ]
           (mkTestRunRequest None)).
  repeat constructor; intros; discriminate.
Defined.

(** ** A leaf without [uri] *)

Lemma runQueue_app w pre rest st :
  Forall runnable pre ->
  runQueue w st (pre ++ rest) =
  runQueue w (mkRunState (executed st + leaves pre)
                         (events st ++ queueEvents w (executed st) pre)) rest.
Proof.
  revert st. induction pre as [|t pre IH]; intros st Hall; cbn [app runQueue queueEvents].
  - unfold leaves. simpl. rewrite Nat.add_0_r, app_nil_r. by destruct st.
  - inversion Hall as [|? ? Ht Hp]; subst.
    rewrite runTest_spec by done. rewrite IH by done. cbn [executed events].
    rewrite <- app_assoc. do 2 f_equal.
    unfold leaves. cbn [List.filter]. destruct (isLeaf t); simpl; lia.
Qed.

(** X8. A selected leaf without a uri makes [testRunHandler] throw. The
    items queued before it are run and reported as usual; the leaf itself is
    started, gets no verdict and no process; nothing queued after it is
    started; and [run.end()] is never called. *)
Theorem testRunHandler_throws_without_uri w items request pre test post :
  selectedQueue items request = pre ++ test :: post ->
  Forall runnable pre ->
  children test = [] ->
  item_uri test = None ->
  exists evs e,
    testRunHandler w items request = (evs, Threw e) /\
    evs = queueEvents w 0 pre ++ [ EvRunStarted test; EvRunAppendOutput None ] /\
    ~ In EvRunEnd evs /\
    countSpawns evs = leaves pre /\
    count isStarted evs = S (length pre).
Proof.
  intros Hq Hpre Hch Huri. unfold testRunHandler. rewrite Hq.
  rewrite runQueue_app by done. cbn [runQueue executed events app Nat.add].
  unfold runTest. rewrite Hch, Huri. cbn [length Nat.ltb Nat.leb executed events].
  do 2 eexists. split; [reflexivity|]. rewrite <- app_assoc. split; [reflexivity|].
  destruct (queueEvents_account w 0 pre Hpre) as (H1 & H2 & H3 & H4).
  split; [|split].
  - intros Hin. apply in_app_or in Hin as [Hin|[Hin|[Hin|[]]]]; try done.
    by apply (count_none _ _ H4) in Hin.
  - rewrite countSpawns_app, H3.
    change (countSpawns ([ EvRunStarted test ] ++ [ EvRunAppendOutput None ])) with 0. lia.
  - rewrite count_app, H1.
    change (count isStarted ([ EvRunStarted test ] ++ [ EvRunAppendOutput None ])) with 1.
    lia.
Qed.

Lemma testRunHandler_throws_without_uri_witness :
  exists evs e,
    testRunHandler (Sample.world "mirror")
      [ Sample.leaf "prog-test"; Sample.folderNode "/lib" []; Sample.leaf "fat-test" ]
      (mkTestRunRequest None) = (evs, Threw e) /\
    evs = queueEvents (Sample.world "mirror") 0 [ Sample.leaf "prog-test" ]
          ++ [ EvRunStarted (Sample.folderNode "/lib" []); EvRunAppendOutput None ] /\
    ~ In EvRunEnd evs /\
    countSpawns evs = 1 /\
    count isStarted evs = 2.
Proof.
  apply (testRunHandler_throws_without_uri (Sample.world "mirror") _ _
           [ Sample.leaf "prog-test" ] (Sample.folderNode "/lib" [])
           [ Sample.leaf "fat-test" ]); try reflexivity.
  repeat constructor; intros; discriminate.
Defined.

(** ** The queue *)

Lemma addTestsOf_eq test : addTestsOf test = test :: addTests (children test).
Proof.
  by destruct test.
Qed.

Lemma addTests_In tests x :
  In x (addTests tests) <-> exists t, In t tests /\ In x (addTestsOf t).
Proof. unfold addTests. apply in_flat_map. Qed.

Lemma addTestsOf_descends test x : In x (addTestsOf test) <-> descends x test.
Proof.
  revert x. induction test as [t IH] using TestItem_children_ind. intros x.
  rewrite addTestsOf_eq. cbn [In]. rewrite addTests_In. split.
  - intros [<-|(c & Hc & Hx)]; [constructor|].
    apply (descends_child x c t Hc).
    rewrite List.Forall_forall in IH. by apply IH.
  - intros Hd. inversion Hd as [|c t' Hc Hx]; subst; [by left|].
    right. exists c. split; [done|].
    rewrite List.Forall_forall in IH. by apply IH.
Qed.

(** X9. The queue [addTests] builds holds exactly the selected items and
    everything below them: an item is queued if and only if it is, or
    descends from, an item of [request.include], or of the controller's
    items when the request includes nothing. *)
Theorem selectedQueue_descendants items request x :
  In x (selectedQueue items request) <->
  exists t, In t (default items (include request)) /\ descends x t.
Proof.
  unfold selectedQueue.
  replace (match include request with Some l => l | None => items end)
    with (default items (include request)) by (by destruct (include request)).
  rewrite addTests_In. split; intros (t & Ht & Hx); exists t; split; try done;
    by apply addTestsOf_descends.
Qed.

(** ** The debug handler as a whole *)

Lemma prepareTestInFolder_one_spawn w n queue wsFolder :
  countSpawns (prepareTestInFolder w n queue wsFolder).2 <= 1
  /\ List.filter isRunEnd (prepareTestInFolder w n queue wsFolder).2 = [].
Proof.
  unfold prepareTestInFolder.
  destruct (getMesonTests _ _) as [tests|]; [|by split; [cbn; lia|]].
  destruct (getMesonTargets _ _) as [targets|]; [|by split; [cbn; lia|]].
  destruct (length _ =? 0)%nat; [by split; [cbn; lia|]|].
  destruct (exec _ _ _ _); by split; [cbn; lia|].
Qed.

(** The folder loop visits each workspace folder once: it spawns at most one
    build per folder, and collects launches only for folders that hold a
    selected test. *)
Lemma prepareFolders_bounds w queue folders st st' c :
  prepareFolders w queue st folders = (st', c) ->
  countSpawns (debugEvents st') <= countSpawns (debugEvents st) + length folders /\
  (List.filter isRunEnd (debugEvents st) = [] ->
   List.filter isRunEnd (debugEvents st') = []) /\
  (forall launch, In launch (debugConfigs st') ->
     In launch (debugConfigs st) \/
     (In (dl_folder launch) folders /\
      existsb (fun test => sameUri (item_uri test) (ws_uri (dl_folder launch))) queue = true)).
Proof.
  revert st. induction folders as [|f folders IH]; intros st; cbn [prepareFolders].
  - intros [= <- <-]. cbn [length]. split; [lia|]. auto.
  - destruct (existsb _ queue) eqn:Esel.
    2:{ intros H. apply IH in H as (H1 & H2 & H3). cbn [length]. split; [lia|].
        split; [done|]. intros launch Hin.
        destruct (H3 launch Hin) as [?|[? ?]]; [by left|]. right. split; [by right|done]. }
    pose proof (prepareTestInFolder_one_spawn w (spawned st) queue f) as [Hone Hend].
    destruct (prepareTestInFolder w (spawned st) queue f) as [[launches|e] evs] eqn:E;
      cbn [snd] in Hone, Hend.
    + intros H. apply IH in H as (H1 & H2 & H3). cbn [debugConfigs debugEvents] in *.
      rewrite countSpawns_app in H1. cbn [length]. split; [lia|]. split.
      * intros Hst. apply H2. by rewrite List.filter_app, Hst, Hend.
      * intros launch Hin. destruct (H3 launch Hin) as [Hold|[? ?]].
        -- apply in_app_or in Hold as [Hold|Hhere]; [by left|]. right.
           rewrite (prepareTestInFolder_folder _ _ _ _ _ _ _ E Hhere).
           split; [by left|done].
        -- right. split; [by right|done].
    + intros [= <- <-]. cbn [debugConfigs debugEvents length].
      rewrite countSpawns_app. split; [lia|]. split; [|auto].
      intros Hst. by rewrite List.filter_app, Hst, Hend.
Qed.

(** X10. [testDebugHandler] finishes all its builds before it starts any
    debug session. Its events are the build events (no session and no
    [run.end()] among them, and at most one spawned process per workspace
    folder), then the sessions, then [run.end()]. Every session is started
    for a workspace folder that holds a selected item. When the handler
    throws, only build events have happened: no session was started and the
    run was not ended. *)
Theorem testDebugHandler_builds_first w items request :
  let queue := selectedQueue items request in
  let folders := default [] (workspaceFolders w) in
  let out := testDebugHandler w items request in
  exists builds sessions,
    List.filter isStartDebugging builds = [] /\
    List.filter isRunEnd builds = [] /\
    countSpawns builds <= length folders /\
    (forall ev, In ev sessions ->
       exists launch,
         ev = EvStartDebugging (dl_folder launch) (dl_config launch) /\
         In (dl_folder launch) folders /\
         exists test, In test queue /\
                      sameUri (item_uri test) (ws_uri (dl_folder launch)) = true) /\
    match out.2 with
    | Completed => out.1 = builds ++ sessions ++ [ EvRunEnd ]
    | Threw _ => out.1 = builds
    end.
Proof.
  intros queue folders out. subst out folders. unfold testDebugHandler. fold queue.
  destruct (workspaceFolders w) as [folders|]; cbn [default id].
  2:{ exists [], []. cbn. split; [done|]. split; [done|]. split; [lia|].
      split; [|done]. intros ev []. }
  destruct (prepareFolders w queue (mkDebugState 0 [] []) folders) as [st c] eqn:E.
  pose proof (prepareFolders_spec _ _ _ _ _ _ E) as [_ Hstart].
  pose proof (prepareFolders_bounds _ _ _ _ _ _ E) as (Hcount & Hend & Hfolders).
  cbn [debugEvents debugConfigs] in *. specialize (Hstart eq_refl). specialize (Hend eq_refl).
  change (countSpawns []) with 0 in Hcount.
  destruct c as [|e]; cbn [fst snd].
  - exists (debugEvents st),
      (map (fun c => EvStartDebugging (dl_folder c) (dl_config c)) (debugConfigs st)).
    split; [done|]. split; [done|]. split; [lia|]. split; [|done].
    intros ev Hin. apply in_map_iff in Hin as (launch & <- & Hl).
    exists launch. split; [done|].
    destruct (Hfolders launch Hl) as [[]|[Hf Hsel]]. split; [done|].
    apply existsb_exists in Hsel as (test & ? & ?). by exists test.
  - exists (debugEvents st), []. split; [done|]. split; [done|]. split; [lia|].
    split; [|done]. intros ev [].
Qed.

(** X11. When the build of the required targets fails,
    [prepareTestInFolder] still resolves: it returns no launch, having
    spawned that one build and shown the error message naming the folder.
    The debug handler then starts no session for that folder. *)
Theorem prepareTestInFolder_build_failure w queue wsFolder tests targets :
  let buildDir := buildDirOf w wsFolder in
  let requiredTargets := requiredTargetsOf (relevantTestsOf queue tests) targets in
  let build := [ "compile"; "-C"; buildDir ] ++ map target_name requiredTargets in
  getMesonTests w buildDir = Ok tests ->
  getMesonTargets w buildDir = Ok targets ->
  requiredTargets <> [] ->
  (forall n, cb_error (execFile w n (mesonPath (config w)) build) <> None) ->
  (forall n,
     prepareTestInFolder w n queue wsFolder =
     (Ok [],
      [ EvExecFile (mesonPath (config w)) build;
        EvShowErrorMessage ("Failed to build tests in " +:+ ws_name wsFolder
                            +:+ ". Results will not be updated") ])) /\
  (forall items request config,
     selectedQueue items request = queue ->
     ~ In (EvStartDebugging wsFolder config) (testDebugHandler w items request).1).
Proof.
  intros buildDir requiredTargets build Htests Htargets Hreq Hfail.
  assert (Hnone : forall n, (prepareTestInFolder w n queue wsFolder).1 = Ok []
                            /\ prepareTestInFolder w n queue wsFolder =
     (Ok [],
      [ EvExecFile (mesonPath (config w)) build;
        EvShowErrorMessage ("Failed to build tests in " +:+ ws_name wsFolder
                            +:+ ". Results will not be updated") ])).
  { intros n. unfold prepareTestInFolder. fold buildDir. rewrite Htests, Htargets.
    fold requiredTargets. fold build.
    assert (Hlen : (length requiredTargets =? 0)%nat = false).
    { apply Nat.eqb_neq. intros H0. by apply Hreq, length_zero_iff_nil. }
    rewrite Hlen. unfold exec. specialize (Hfail n).
    by destruct (cb_error _). }
  split; [apply Hnone|].
  intros items request cfg Hq. unfold testDebugHandler. rewrite Hq.
  destruct (workspaceFolders w) as [folders|]; [|intros []].
  destruct (prepareFolders w queue (mkDebugState 0 [] []) folders) as [st c] eqn:E.
  apply prepareFolders_spec in E as [Hcfg Hevs]. specialize (Hevs eq_refl).
  assert (Hno : ~ In (EvStartDebugging wsFolder cfg) (debugEvents st)).
  { intros Hin. assert (Hf : In (EvStartDebugging wsFolder cfg)
                               (List.filter isStartDebugging (debugEvents st)))
      by (by apply filter_In).
    by rewrite Hevs in Hf. }
  destruct c; cbn [fst]; [|done].
  intros Hin. apply in_app_or in Hin as [Hin|Hin]; [done|].
  apply in_app_or in Hin as [Hin|[Hin|[]]]; [|done].
  apply in_map_iff in Hin as (launch & [= Hfolder Hconfig] & Hl).
  destruct (Hcfg launch Hl) as [[]|(n & launches & evs & Hprep & Hin)].
  rewrite Hfolder in Hprep. destruct (Hnone n) as [_ Hn]. rewrite Hn in Hprep.
  by injection Hprep as <- <-.
Qed.

Lemma prepareTestInFolder_build_failure_witness :
  (testDebugHandler Scenario.brokenBuild [ Sample.leaf "prog-test" ] (mkTestRunRequest None)).1
  = [ EvExecFile "meson" [ "compile"; "-C"; "/ws/builddir"; "prog" ];
      EvShowErrorMessage "Failed to build tests in ws. Results will not be updated";
      EvRunEnd ]
  /\ forall config,
       ~ In (EvStartDebugging Sample.ws config)
            (testDebugHandler Scenario.brokenBuild [ Sample.leaf "prog-test" ]
               (mkTestRunRequest None)).1.
Proof.
  split; [reflexivity|]. intros cfg.
  apply (proj2 (prepareTestInFolder_build_failure Scenario.brokenBuild
                  [ Sample.leaf "prog-test" ] Sample.ws
                  [ Sample.progTest; Sample.fatTest ]
                  [ Sample.prog; Sample.fat; Sample.util ]
                  eq_refl eq_refl ltac:(discriminate) ltac:(intros n; discriminate))
               [ Sample.leaf "prog-test" ] (mkTestRunRequest None) cfg eq_refl).
Defined.

(** ** Task lookup *)

Lemma filter_first {A : Type} (p : A -> bool) (l : list A) x r :
  List.filter p l = x :: r ->
  exists pre post,
    l = pre ++ x :: post /\ p x = true /\ Forall (fun y => p y = false) pre.
Proof.
  induction l as [|y l IH]; [done|]. cbn [List.filter].
  destruct (p y) eqn:E.
  - intros [= -> _]. exists [], l. repeat split; [done|constructor].
  - intros H. destruct (IH H) as (pre & post & -> & Hx & Hpre).
    exists (y :: pre), post. repeat split; [done|by constructor].
Qed.

Lemma filter_nil_Forall {A : Type} (p : A -> bool) (l : list A) :
  List.filter p l = [] -> Forall (fun y => p y = false) l.
Proof.
  induction l as [|y l IH]; [constructor|]. cbn [List.filter].
  destruct (p y) eqn:E; [done|]. intros H. constructor; auto.
Qed.

Lemma taskMatches_true mode name t :
  taskMatches mode name t = true <->
  modeName (def_mode (definition t)) = mode /\
  (truthy name = true -> def_target (definition t) = name).
Proof.
  unfold taskMatches. rewrite andb_true_iff, String.eqb_eq, orb_true_iff, negb_true_iff.
  rewrite bool_decide_eq_true. split; intros [Hm Ht]; split; try done.
  - intros Htr. destruct Ht as [Ht|Ht]; [congruence|done].
  - destruct (truthy name); [right; by apply Ht|by left].
Qed.

(** X12. [getTask] returns the first fetched task of the requested mode
    and, when a non-empty name is given, of that target: no task listed
    before it matches. It throws [Cannot find <mode> target <name>.] exactly
    when no fetched task matches. *)
Theorem getTask_first_match fetched mode name :
  match getTask fetched mode name with
  | Ok t =>
      exists pre post,
        fetched = pre ++ t :: post /\
        Forall (fun x => taskMatches mode name x = false) pre /\
        modeName (def_mode (definition t)) = mode /\
        (truthy name = true -> def_target (definition t) = name)
  | Throw e =>
      Forall (fun x => taskMatches mode name x = false) fetched /\
      e = OtherError ("Cannot find " +:+ mode +:+ " target " +:+ nameText name +:+ ".")
  end.
Proof.
  unfold getTask. destruct (List.filter _ fetched) as [|t r] eqn:E.
  - split; [by apply filter_nil_Forall|done].
  - apply filter_first in E as (pre & post & -> & Ht & Hpre).
    exists pre, post. apply taskMatches_true in Ht as [Hm Hn]. done.
Qed.

(** The lookup finds [T] when [T] is listed, matches, and is the only
    matching task value. *)
Lemma getTask_unique fetched mode name T :
  In T fetched -> taskMatches mode name T = true ->
  (forall t, In t fetched -> taskMatches mode name t = true -> t = T) ->
  getTask fetched mode name = Ok T.
Proof.
  intros Hin Hm Huniq. unfold getTask.
  destruct (List.filter _ fetched) as [|t r] eqn:E.
  - assert (Hf : In T (List.filter (taskMatches mode name) fetched)) by (by apply filter_In).
    by rewrite E in Hf.
  - assert (Hf : In t (List.filter (taskMatches mode name) fetched))
      by (rewrite E; by left).
    apply filter_In in Hf as [Ht Hmt]. by rewrite (Huniq t Ht Hmt).
Qed.

Lemma synthesizeTasks_defaults w buildDir folder tasks :
  synthesizeTasks w buildDir folder = Ok tasks ->
  exists rest, tasks = defaultTasks w buildDir folder ++ rest.
Proof.
  unfold synthesizeTasks.
  destruct (getMesonTargetsFromFolder w folder); cbn [mbind Result_bind]; [|done].
  destruct (getMesonTests w buildDir); cbn [mbind Result_bind]; [|done].
  destruct (getMesonBenchmarks w buildDir); cbn [mbind Result_bind]; [|done].
  destruct (awaitAll _ _); cbn [mbind Result_bind]; [|done].
  intros [= <-]. by eexists.
Qed.

(** X13. On the tasks [getMesonTasksForDir] returns when introspection
    succeeds, [getTask] without a name finds, for each of the modes build,
    test, benchmark, reconfigure and clean, the fixed task of that mode,
    and not a task of one target, test or benchmark of the same mode. *)
Theorem getTask_fixed_tasks w buildDir folder tasks :
  synthesizeTasks w buildDir folder = Ok tasks ->
  getMesonTasksForDir w buildDir folder = (tasks, []) /\
  getTask tasks "build" None = Ok (defaultBuildTask w buildDir folder) /\
  getTask tasks "test" None = Ok (defaultTestTask w buildDir folder) /\
  getTask tasks "benchmark" None = Ok (defaultBenchmarkTask w buildDir folder) /\
  getTask tasks "reconfigure" None = Ok (defaultReconfigureTask w buildDir folder) /\
  getTask tasks "clean" None = Ok (defaultCleanTask w buildDir folder).
Proof.
  intros Hsyn. split; [unfold getMesonTasksForDir; by rewrite Hsyn|].
  destruct (synthesizeTasks_defaults _ _ _ _ Hsyn) as [rest ->].
  repeat split; reflexivity.
Qed.

Lemma getTask_fixed_tasks_witness :
  getTask (tasksOfFolder (Sample.world "mirror") Sample.ws) "reconfigure" None
  = Ok (defaultReconfigureTask (Sample.world "mirror") "/ws/builddir" Sample.ws).
Proof.
  destruct (getTask_fixed_tasks (Sample.world "mirror") "/ws/builddir" Sample.ws
              (tasksOfFolder (Sample.world "mirror") Sample.ws))
    as (_ & _ & _ & _ & H & _); [vm_compute; reflexivity|exact H].
Defined.

Lemma zip_with_In {A B C : Type} (f : A -> B -> C) (xs : list A) (ys : list B) x :
  length xs = length ys -> In x xs -> exists y, In y ys /\ In (f x y) (zip_with f xs ys).
Proof.
  revert ys. induction xs as [|a xs IH]; intros [|b ys]; simpl; try done.
  intros [= Hlen] [->|Hin].
  - exists b. auto.
  - destruct (IH ys Hlen Hin) as (y & Hy & Hf). exists y. auto.
Qed.

Lemma zip_with_In_inv {A B C : Type} (f : A -> B -> C) (xs : list A) (ys : list B) c :
  In c (zip_with f xs ys) -> exists x y, In x xs /\ In y ys /\ c = f x y.
Proof.
  revert ys. induction xs as [|a xs IH]; intros [|b ys]; simpl; try done.
  intros [<-|Hin]; [exists a, b; auto|].
  destruct (IH ys Hin) as (x & y & Hx & Hy & ->). exists x, y. auto.
Qed.

(** X14. On the tasks [getMesonTasksForDir] returns when introspection
    succeeds, [getTask] for mode build and the resolved name of a target
    finds the build task of that name (the name being non-empty). *)
Theorem getTask_build_target w buildDir folder targets tests benchmarks names name :
  getMesonTargets w (buildDirOf w folder) = Ok targets ->
  getMesonTests w buildDir = Ok tests ->
  getMesonBenchmarks w buildDir = Ok benchmarks ->
  awaitAll (getTargetName w) (map (withWorkspace folder) targets) = Ok names ->
  In name names ->
  name <> "" ->
  getTask (getMesonTasksForDir w buildDir folder).1 "build" (Some name)
  = Ok (buildTaskOf w buildDir folder name).
Proof.
  intros Htargets Htests Hbench Hnames Hin Hne.
  destruct (getMesonTasksForDir_ok w buildDir folder _ _ _ _ Htargets Htests Hbench Hnames)
    as [-> Hlen]. cbn [fst].
  assert (Htruthy : truthy (Some name) = true).
  { simpl. destruct (String.eqb_spec name ""); done. }
  apply getTask_unique.
  - apply in_or_app. right. apply in_or_app. left. apply in_concat.
    destruct (zip_with_In (tasksOfTarget w buildDir folder) names
                (map (withWorkspace folder) targets) name) as (t & _ & Ht);
      [by rewrite length_map|done|].
    eexists. split; [exact Ht|]. by left.
  - apply taskMatches_true. done.
  - intros t Ht Hm. apply taskMatches_true in Hm as [Hmode Htarget].
    specialize (Htarget Htruthy).
    apply in_app_or in Ht as [Ht|Ht].
    { simpl in Ht. decompose [or] Ht; subst; try done. }
    apply in_app_or in Ht as [Ht|Ht].
    + apply in_concat in Ht as (block & Hblock & Ht).
      apply zip_with_In_inv in Hblock as (n & t' & _ & _ & ->).
      destruct Ht as [<-|Ht].
      * simpl in Htarget. by injection Htarget as ->.
      * pose proof (runTasksOf_modes folder n t') as Hruns.
        rewrite List.Forall_forall in Hruns. rewrite (Hruns t Ht) in Hmode. done.
    + apply in_app_or in Ht as [Ht|Ht]; apply in_map_iff in Ht as (x & <- & _); done.
Qed.

Lemma getTask_build_target_witness :
  getTask (getMesonTasksForDir (Sample.world "mirror") "/ws/builddir" Sample.ws).1
          "build" (Some "util/util")
  = Ok (buildTaskOf (Sample.world "mirror") "/ws/builddir" Sample.ws "util/util").
Proof.
  apply (getTask_build_target (Sample.world "mirror") "/ws/builddir" Sample.ws
           [ Sample.prog; Sample.fat; Sample.util ]
           [ Sample.progTest; Sample.fatTest ] []
           [ "sub/dir/prog"; "fat"; "util/util" ]); try reflexivity.
  - right. right. by left.
  - done.
Defined.

(** ** Aggregation over the workspace *)

(** The tasks of the workspace are those of its configured folders, in the
    order of the folders. *)
Lemma getMesonTasks_configured w folders :
  workspaceFolders w = Some folders ->
  getMesonTasks w
  = Ok (flat_map (tasksOfFolder w)
          (List.filter (fun f => existsSync w (buildDirOf w f)) folders),
        flat_map (fun f => (getMesonTasksForDir w (buildDirOf w f) f).2)
          (List.filter (fun f => existsSync w (buildDirOf w f)) folders)).
Proof. intros Hws. unfold getMesonTasks. by rewrite Hws, getMesonTasks_fold. Qed.

(** X15. [getMesonTasks] resolves to the task lists of the folders that
    have a build directory, concatenated in the order of the workspace, and
    to nothing else: a folder without a build directory contributes no task
    and no message, and a workspace without a configured folder has no
    tasks. *)
Theorem getMesonTasks_concatenates w folders :
  workspaceFolders w = Some folders ->
  let configured := List.filter (fun f => existsSync w (buildDirOf w f)) folders in
  getMesonTasks w
  = Ok (flat_map (tasksOfFolder w) configured,
        flat_map (fun f => (getMesonTasksForDir w (buildDirOf w f) f).2) configured)
  /\ (configured = [] -> getMesonTasks w = Ok ([], [])).
Proof.
  intros Hws configured. pose proof (getMesonTasks_configured w folders Hws) as Hall.
  fold configured in Hall. split; [done|]. intros Hnone. by rewrite Hall, Hnone.
Qed.

Lemma getMesonTasks_concatenates_witness :
  getMesonTasks (Sample.world "mirror")
  = Ok (tasksOfFolder (Sample.world "mirror") Sample.ws, []).
Proof.
  destruct (getMesonTasks_concatenates (Sample.world "mirror") [ Sample.ws; Sample.lib ]
              eq_refl) as [-> _].
  vm_compute. reflexivity.
Defined.

(** ** The runners on the tasks of the workspace *)

(** Folders without a build directory, or without tasks, contribute
    nothing. *)
Lemma tasksOfFolder_skipped w skipped :
  (forall g, In g skipped ->
     existsSync w (buildDirOf w g) = false \/ tasksOfFolder w g = []) ->
  flat_map (tasksOfFolder w)
    (List.filter (fun f => existsSync w (buildDirOf w f)) skipped) = [].
Proof.
  induction skipped as [|g skipped IH]; intros Hskipped; [done|]. cbn [List.filter].
  assert (Hrest : forall g', In g' skipped ->
            existsSync w (buildDirOf w g') = false \/ tasksOfFolder w g' = [])
    by (intros; apply Hskipped; by right).
  destruct (Hskipped g (or_introl eq_refl)) as [Hno|Hempty].
  - rewrite Hno. by apply IH.
  - destruct (existsSync w (buildDirOf w g)); [|by apply IH].
    cbn [flat_map]. rewrite Hempty. by apply IH.
Qed.

(** X16. Run on the tasks [getMesonTasks] provides, [runMesonBuild] without
    a target name executes the build-all task of the first workspace folder
    that has tasks, whatever build directory it is called with, and
    [runMesonReconfigure] executes the reconfigure task of that same folder.
    When the execution succeeds nothing else happens; when it fails the
    error is shown ([Could not build undefined], [Could not reconfigure
    project.]) and written to the output channel, and the runner returns. *)
Theorem runners_first_folder w skipped f rest ftasks :
  let build := defaultBuildTask w (buildDirOf w f) f in
  let reconfigure := defaultReconfigureTask w (buildDirOf w f) f in
  workspaceFolders w = Some (skipped ++ f :: rest) ->
  (forall g, In g skipped ->
     existsSync w (buildDirOf w g) = false \/ tasksOfFolder w g = []) ->
  existsSync w (buildDirOf w f) = true ->
  synthesizeTasks w (buildDirOf w f) f = Ok ftasks ->
  exists tasks evs,
    getMesonTasks w = Ok (tasks, evs) /\
    forall executeTask,
      (forall buildDir,
         runMesonBuild tasks executeTask buildDir None
         = RvExecuteTask build ::
           match executeTask build with
           | Ok _ => []
           | Throw e =>
               [ RvShowErrorMessage "Could not build undefined";
                 RvAppendLine "Building target undefined:";
                 RvAppendExn e; RvShowChannel ]
           end) /\
      runMesonReconfigure tasks executeTask
      = RvExecuteTask reconfigure ::
        match executeTask reconfigure with
        | Ok _ => []
        | Throw e =>
            [ RvShowErrorMessage "Could not reconfigure project.";
              RvAppendLine "Reconfiguring Meson:";
              RvAppendExn e; RvShowChannel ]
        end.
Proof.
  intros build reconfigure Hws Hskipped Hexists Hsyn.
  pose proof (getMesonTasks_configured w _ Hws) as Hall.
  do 2 eexists. split; [exact Hall|].
  rewrite List.filter_app, flat_map_app. cbn [List.filter]. rewrite Hexists.
  cbn [flat_map]. rewrite (tasksOfFolder_skipped w skipped Hskipped). cbn [app].
  unfold tasksOfFolder at 1 3. unfold getMesonTasksForDir. rewrite Hsyn. cbn [fst].
  destruct (synthesizeTasks_defaults _ _ _ _ Hsyn) as [more ->].
  intros executeTask. split; [intros buildDir|]; reflexivity.
Qed.

Lemma runners_first_folder_witness :
  exists tasks evs,
    getMesonTasks (Sample.world "mirror") = Ok (tasks, evs) /\
    runMesonBuild tasks (fun _ => Ok tt) "/elsewhere" None
    = [ RvExecuteTask (defaultBuildTask (Sample.world "mirror") "/ws/builddir" Sample.ws) ] /\
    runMesonReconfigure tasks (fun _ => Throw (OtherError "busy"))
    = [ RvExecuteTask (defaultReconfigureTask (Sample.world "mirror") "/ws/builddir" Sample.ws);
        RvShowErrorMessage "Could not reconfigure project.";
        RvAppendLine "Reconfiguring Meson:";
        RvAppendExn (OtherError "busy"); RvShowChannel ].
Proof.
  destruct (runners_first_folder (Sample.world "mirror") [] Sample.ws [ Sample.lib ]
              (tasksOfFolder (Sample.world "mirror") Sample.ws))
    as (tasks & evs & Hall & Hrun); first [ reflexivity | by intros g [] | idtac ].
  exists tasks, evs. split; [exact Hall|]. split.
  - exact (proj1 (Hrun (fun _ => Ok tt)) "/elsewhere").
  - exact (proj2 (Hrun (fun _ => Throw (OtherError "busy")))).
Defined.

(** ** Tasks of tests and benchmarks *)

Lemma filter_all {A : Type} (p : Task -> bool) (f : A -> Task) (l : list A) :
  (forall a, p (f a) = true) -> List.filter p (map f l) = map f l.
Proof. intros H. induction l as [|a l IH]; simpl; [done|]. by rewrite H, IH. Qed.

(** X17. When introspection succeeds, the tasks of mode test that have a
    target are exactly one per fetched test, in order, and those of mode
    benchmark exactly one per fetched benchmark. A test's task runs
    [meson test <name>] and a benchmark's
    [meson test --benchmark --verbose <name>], both in the build directory
    and with the environment of the test. *)
Theorem getMesonTasksForDir_test_tasks w buildDir folder targets tests benchmarks names :
  getMesonTargets w (buildDirOf w folder) = Ok targets ->
  getMesonTests w buildDir = Ok tests ->
  getMesonBenchmarks w buildDir = Ok benchmarks ->
  awaitAll (getTargetName w) (map (withWorkspace folder) targets) = Ok names ->
  let tasks := (getMesonTasksForDir w buildDir folder).1 in
  List.filter isTestTask tasks = map (testTaskOf w buildDir folder) tests /\
  List.filter isBenchmarkTask tasks = map (benchmarkTaskOf w buildDir folder) benchmarks /\
  (forall t,
     execution (testTaskOf w buildDir folder t)
     = mkProcessExecution (mesonPath (config w)) [ "test"; test_name t ]
                          (Some buildDir) (Some (env t))) /\
  (forall b,
     execution (benchmarkTaskOf w buildDir folder b)
     = mkProcessExecution (mesonPath (config w))
                          [ "test"; "--benchmark"; "--verbose"; test_name b ]
                          (Some buildDir) (Some (env b))).
Proof.
  intros Htargets Htests Hbench Hnames tasks. unfold tasks.
  destruct (getMesonTasksForDir_ok w buildDir folder _ _ _ _ Htargets Htests Hbench Hnames)
    as [-> Hlen]. cbn [fst].
  assert (Hblocks : forall p : Task -> bool,
            (forall task, def_mode (definition task) = ModeBuild -> p task = false) ->
            (forall task, def_mode (definition task) = ModeRun -> p task = false) ->
            List.filter p (concat (zip_with (tasksOfTarget w buildDir folder) names
                                            (map (withWorkspace folder) targets))) = []).
  { intros p Hbuild Hrun.
    rewrite (filter_concat_zip _ _ (fun _ _ => [])); [apply concat_nils|].
    intros name t. unfold tasksOfTarget. cbn [List.filter].
    rewrite Hbuild by done. rewrite (filter_runTasksOf _ _ _ _ false); [done|].
    intros task Hmode _. by apply Hrun. }
  split; [|split; [|split; reflexivity]].
  - rewrite !List.filter_app, Hblocks.
    + rewrite (filter_none _ (benchmarkTaskOf w buildDir folder)) by done.
      rewrite (filter_all _ (testTaskOf w buildDir folder)) by done.
      by rewrite app_nil_r.
    + intros task Hmode. unfold isTestTask. by rewrite Hmode.
    + intros task Hmode. unfold isTestTask. by rewrite Hmode.
  - rewrite !List.filter_app, Hblocks.
    + rewrite (filter_none _ (testTaskOf w buildDir folder)) by done.
      by rewrite (filter_all _ (benchmarkTaskOf w buildDir folder)) by done.
    + intros task Hmode. unfold isBenchmarkTask. by rewrite Hmode.
    + intros task Hmode. unfold isBenchmarkTask. by rewrite Hmode.
Qed.

Lemma getMesonTasksForDir_test_tasks_witness :
  List.filter isTestTask (getMesonTasksForDir (Sample.world "mirror") "/ws/builddir" Sample.ws).1
  = map (testTaskOf (Sample.world "mirror") "/ws/builddir" Sample.ws)
        [ Sample.progTest; Sample.fatTest ].
Proof.
  apply (getMesonTasksForDir_test_tasks (Sample.world "mirror") "/ws/builddir" Sample.ws
           [ Sample.prog; Sample.fat; Sample.util ]
           [ Sample.progTest; Sample.fatTest ] []
           [ "sub/dir/prog"; "fat"; "util/util" ]); reflexivity.
Defined.

(** ** Directories without targets *)

(** X18. For a build directory without targets [getMesonTasksForDir] needs
    no build option: it returns the five fixed tasks followed by the tasks
    of the tests and of the benchmarks and shows nothing, also when the
    layout cannot be read. *)
Theorem getMesonTasksForDir_without_targets w buildDir folder tests benchmarks :
  getMesonTargets w (buildDirOf w folder) = Ok [] ->
  getMesonTests w buildDir = Ok tests ->
  getMesonBenchmarks w buildDir = Ok benchmarks ->
  getMesonTasksForDir w buildDir folder
  = (defaultTasks w buildDir folder
       ++ map (testTaskOf w buildDir folder) tests
       ++ map (benchmarkTaskOf w buildDir folder) benchmarks, []).
Proof.
  intros Htargets Htests Hbench.
  unfold getMesonTasksForDir, synthesizeTasks, getMesonTargetsFromFolder.
  by rewrite Htargets, Htests, Hbench.
Qed.

Lemma getMesonTasksForDir_without_targets_witness :
  getMesonTasksForDir
    (Scenario.unreadable [])
    "/ws/builddir" Sample.ws
  = ([ mkTask (mkDef None ModeBuild None) Sample.ws "Build all targets"
         (mkProcessExecution "meson" [ "compile" ] (Some "/ws/builddir") None) GroupBuild;
       mkTask (mkDef None ModeTest None) Sample.ws "Run tests"
         (mkProcessExecution "meson" [ "test" ] (Some "/ws/builddir") None) GroupTest;
       mkTask (mkDef None ModeBenchmark None) Sample.ws "Run benchmarks"
         (mkProcessExecution "meson" [ "test"; "--benchmark"; "--verbose" ]
            (Some "/ws/builddir") None) GroupTest;
       mkTask (mkDef None ModeReconfigure None) Sample.ws "Reconfigure"
         (mkProcessExecution "meson" [ "setup"; "--reconfigure"; "/ws/builddir" ]
            (Some "/ws") None) GroupRebuild;
       mkTask (mkDef None ModeClean None) Sample.ws "Clean"
         (mkProcessExecution "meson" [ "compile"; "--clean" ] (Some "/ws/builddir") None)
         GroupClean;
       mkTask (mkDef (Some "fat-test") ModeTest None) Sample.ws "Test fat-test"
         (mkProcessExecution "meson" [ "test"; "fat-test" ] (Some "/ws/builddir") (Some ∅))
         GroupTest ], []).
Proof.
  rewrite (getMesonTasksForDir_without_targets (Scenario.unreadable []) "/ws/builddir" Sample.ws
             [ Sample.fatTest ] [] eq_refl eq_refl eq_refl).
  reflexivity.
Defined.

(** ** The provider at its edges *)

Lemma awaitAll_head_throw {A B : Type} (f : A -> Result B) x r e :
  f x = Throw e -> awaitAll f (x :: r) = Throw e.
Proof. intros H. cbn [awaitAll]. by rewrite H. Qed.

(** X19. [provideDebugConfigurations] on a folder without a debuggable
    target (an executable with a C or C++ source) resolves to the empty list
    without reading the layout. With such a target it throws when the layout
    cannot be read: unlike the task provider it contains no failure. *)
Theorem provideDebugConfigurations_edges w folder f targets :
  chosenFolder w folder = Some f ->
  getMesonTargets w (buildDirOf w f) = Ok targets ->
  (debuggable f targets = [] -> provideDebugConfigurations w folder = Ok []) /\
  (debuggable f targets <> [] -> layoutUnreadable w f ->
   exists e, provideDebugConfigurations w folder = Throw e).
Proof.
  intros Hf Htargets.
  assert (Hrun : provideDebugConfigurations w folder
                 = awaitAll (targetLaunch w) (debuggable f targets)).
  { unfold provideDebugConfigurations, chosenFolder in *.
    destruct folder as [f0|].
    - injection Hf as ->. cbn [mbind Result_bind].
      unfold getMesonTargetsFromFolder. by rewrite Htargets.
    - destruct (workspaceFolders w) as [[|f0 r]|]; try done. injection Hf as ->.
      cbn [mbind Result_bind]. unfold getMesonTargetsFromFolder. by rewrite Htargets. }
  rewrite Hrun. split.
  - by intros ->.
  - intros Hne Hlayout. destruct (debuggable f targets) as [|t r] eqn:E; [done|].
    assert (Hws : workspace t = Some f).
    { apply (debuggable_workspace f targets). rewrite E. by left. }
    assert (Hthrow : exists e, getTargetName w t = Throw e).
    { unfold getTargetName. rewrite Hws.
      destruct Hlayout as [[e He]|(bo & Hbo & Hnone)].
      - rewrite He. by exists e.
      - rewrite Hbo. cbn [mbind Result_bind]. rewrite Hnone. by eexists. }
    destruct Hthrow as [e He]. exists e. apply awaitAll_head_throw.
    unfold targetLaunch. by rewrite He.
Qed.

Lemma provideDebugConfigurations_edges_witness :
  provideDebugConfigurations
    (Scenario.unreadable [ Sample.fat; Sample.util ])
    (Some Sample.ws) = Ok [].
Proof.
  apply (provideDebugConfigurations_edges (Scenario.unreadable [ Sample.fat; Sample.util ])
           (Some Sample.ws) Sample.ws
           [ Sample.fat; Sample.util ] eq_refl eq_refl).
  reflexivity.
Defined.

(** ** Configuring *)

Ltac in_cases :=
  repeat match goal with
         | H : In _ (_ :: _) |- _ => destruct H as [H|H]
         | H : In _ [] |- _ => destruct H
         | H : RvReport _ _ = RvReport _ _ |- _ => discriminate H
         | H : _ = RvReport _ _ |- _ => discriminate H
         end.

(** X20. Every process [runMesonConfigure] spawns is the configured Meson
    binary, run in the source directory, with the build directory as last
    argument. It reports [Done.] exactly when it returns normally. On a
    configured build directory whose [meson configure] fails it spawns
    nothing more (no reconfiguration) and does not return normally; on an
    unconfigured one it spawns [meson setup <options> <build>] and nothing
    else. *)
Theorem runMesonConfigure_processes w checkMesonIsConfigured source build :
  let r := runMesonConfigure w checkMesonIsConfigured source build in
  let meson := mesonPath (config w) in
  let configure := [ "configure" ] ++ configureOptions (config w) ++ [ build ] in
  let setup := [ "setup" ] ++ configureOptions (config w) ++ [ build ] in
  Forall (fun ev => match ev with
                    | RvExecFile command args dir =>
                        command = meson /\ dir = source /\ last args = Some build
                    | _ => True
                    end) r.1 /\
  (r.2 = Completed <-> In (RvReport "Done." (Some 100)) r.1) /\
  (checkMesonIsConfigured build = true ->
   cb_error (execFile w 0 meson configure) <> None ->
   List.filter isRvExecFile r.1 = [ RvExecFile meson configure source ]
   /\ r.2 <> Completed) /\
  (checkMesonIsConfigured build = false ->
   List.filter isRvExecFile r.1 = [ RvExecFile meson setup source ]).
Proof.
  intros r meson configure setup. unfold r, runMesonConfigure.
  fold meson configure setup.
  assert (Hlast : forall (x : string) l, last (x :: l ++ [ build ]) = Some build).
  { intros x l. change (x :: l ++ [ build ]) with ((x :: l) ++ [ build ]). apply last_snoc. }
  assert (Hconf : last configure = Some build) by apply Hlast.
  assert (Hsetup : last setup = Some build) by apply Hlast.
  unfold exec.
  destruct (checkMesonIsConfigured build).
  - destruct (cb_error (execFile w 0 meson configure)) as [e0|] eqn:E0.
    + cbn [fst snd]. split; [|split; [|split]].
      * repeat constructor; done.
      * split; [done|]. intros H. in_cases.
      * done.
      * done.
    + destruct (cb_error (execFile w 1 meson _)) as [e1|] eqn:E1; cbn [fst snd app].
      * split; [|split; [|split]].
        -- repeat constructor; done.
        -- split; [done|]. intros H. in_cases.
        -- intros _ Hne. done.
        -- done.
      * split; [|split; [|split]].
        -- repeat constructor; done.
        -- split; [|done]. intros _. simpl. auto 10.
        -- intros _ Hne. done.
        -- done.
  - destruct (cb_error (execFile w 0 meson setup)) as [e0|] eqn:E0.
    + cbn [fst snd]. split; [|split; [|split]].
      * repeat constructor; done.
      * split; [done|]. intros H. in_cases.
      * done.
      * done.
    + destruct (0 <? String.length (cb_stderr _))%nat; cbn [fst snd app].
      * split; [|split; [|split]].
        -- repeat constructor; done.
        -- split; [|done]. intros _. simpl. auto 10.
        -- done.
        -- done.
      * split; [|split; [|split]].
        -- repeat constructor; done.
        -- split; [|done]. intros _. simpl. auto 10.
        -- done.
        -- done.
Qed.

Lemma runMesonConfigure_processes_witness :
  List.filter isRvExecFile
    (runMesonConfigure Scenario.brokenBuild (fun _ => true) "/ws" "/ws/builddir").1
  = [ RvExecFile "meson" [ "configure"; "/ws/builddir" ] "/ws" ]
  /\ (runMesonConfigure Scenario.brokenBuild (fun _ => true) "/ws" "/ws/builddir").2
     <> Completed.
Proof.
  destruct (runMesonConfigure_processes Scenario.brokenBuild (fun _ => true)
              "/ws" "/ws/builddir") as (_ & _ & Hfails & _).
  apply Hfails; [reflexivity|discriminate].
Defined.

(** ** Membership in an array *)

Lemma indexOf_bound array value : (-1 <= indexOf array value)%Z.
Proof.
  induction array as [|x r IH]; simpl; [lia|].
  destruct (String.eqb x value); [lia|].
  destruct (indexOf r value =? -1)%Z; lia.
Qed.

Lemma indexOf_absent array value : indexOf array value = (-1)%Z <-> ~ In value array.
Proof.
  induction array as [|x r IH]; simpl; [tauto|].
  destruct (String.eqb_spec x value) as [->|Hne].
  - split; [lia|]. intros H. destruct H. by left.
  - pose proof (indexOf_bound r value).
    destruct (Z.eqb_spec (indexOf r value) (-1)) as [Heq|Hneq].
    + split; [|done]. intros _ [Hx|Hr]; [done|]. by apply IH.
    + split; [lia|]. intros Hno. exfalso. apply Hneq, IH. tauto.
Qed.

(** X21. [arrayIncludes] holds exactly of the values that occur in the
    array; and the index [indexOf] gives, when it is not -1, is that of the
    first occurrence. *)
Theorem arrayIncludes_In array value :
  (arrayIncludes array value = true <-> In value array) /\
  (forall i, indexOf array value = i -> (0 <= i)%Z ->
     nth_error array (Z.to_nat i) = Some value /\
     forall j, (j < Z.to_nat i)%nat -> nth_error array j <> Some value).
Proof.
  split.
  - unfold arrayIncludes. rewrite negb_true_iff, Z.eqb_neq, indexOf_absent.
    destruct (in_dec String.string_dec value array); tauto.
  - induction array as [|x r IH]; intros i; simpl; [lia|].
    destruct (String.eqb_spec x value) as [->|Hne].
    + intros <- _. split; [done|]. intros j Hj. simpl in Hj. lia.
    + destruct (Z.eqb_spec (indexOf r value) (-1)) as [Heq|Hneq]; [lia|].
      intros <- Hpos. pose proof (indexOf_bound r value) as Hb.
      destruct (IH (indexOf r value) eq_refl) as [Hnth Hfirst]; [lia|].
      replace (Z.to_nat (indexOf r value + 1)) with (S (Z.to_nat (indexOf r value))) by lia.
      split; [done|]. intros [|j] Hj; simpl; [congruence|]. apply Hfirst. lia.
Qed.

Lemma arrayIncludes_In_witness :
  arrayIncludes [ "c"; "cpp"; "c" ] "cpp" = true
  /\ nth_error [ "c"; "cpp"; "c" ] 1 = Some "cpp".
Proof.
  split.
  - apply (proj1 (arrayIncludes_In [ "c"; "cpp"; "c" ] "cpp")). right. by left.
  - apply (proj2 (arrayIncludes_In [ "c"; "cpp"; "c" ] "cpp") 1%Z); [reflexivity|lia].
Defined.

(** ** Build directories *)

Lemma resolve_absolute cwd before segs :
  Forall (fun s => isName s = true) segs ->
  Path.resolve cwd (before ++ [ String "/" (Path.join segs) ]) = String "/" (Path.join segs).
Proof.
  intros Hall. unfold Path.resolve. rewrite rev_app_distr.
  cbn [rev app Path.resolveScan String.eqb Path.isAbsolute].
  replace (Path.isSlash "/") with true by done. cbn [negb].
  unfold Path.normalizeString.
  destruct (split_rooted_slash segs Hall) as [H1 H2].
  change ("/" +:+ "") with "/". by rewrite normalizeSegs_names, H2.
Qed.

Lemma resolve_beneath cwd root dirs :
  Forall (fun s => isName s = true) root ->
  Forall (fun s => isName s = true) dirs ->
  dirs <> [] ->
  Path.resolve cwd [ String "/" (Path.join root); Path.join dirs ]
  = String "/" (Path.join (root ++ dirs)).
Proof.
  intros Hroot Hdirs Hne. destruct dirs as [|d dirs]; [done|].
  inversion Hdirs as [|? ? Hd _]; subst.
  destruct (join_names_nonempty d dirs Hd) as (c & r & Hjoin & Hc).
  unfold Path.resolve. cbn [rev app Path.resolveScan].
  rewrite Hjoin. cbn [String.eqb Path.isAbsolute]. rewrite Hc.
  replace (Path.isSlash "/") with true by done. cbn [negb]. rewrite <- Hjoin.
  unfold Path.normalizeString. change ("/" +:+ "") with "/".
  change (String "/" (Path.join root) +:+ "/" +:+ Path.join (d :: dirs) +:+ "/")
    with (String "/" (Path.join root) +:+ String "/" (Path.join (d :: dirs) +:+ String "/" "")).
  rewrite !split_append.
  destruct (split_rooted root Hroot) as [R1 R2].
  rewrite (split_join (d :: dirs)); [|by apply names_slashFree|done].
  rewrite normalizeSegs_names.
  - rewrite !List.filter_app, R2, (filter_nonEmpty_names (d :: dirs)) by done.
    cbn [Path.split List.filter nonEmpty String.eqb negb]. by rewrite app_nil_r.
  - apply Forall_app. split; [done|]. apply Forall_app. split; [by apply names_or_empty|].
    constructor; [by left|constructor].
Qed.

(** X22. The build directory of a folder, for paths made of plain names:
    an absolute [buildFolder] setting is the build directory of every
    folder, whatever the folder's root; a relative one is appended to the
    folder's root. *)
Theorem buildDirOf_names w folder :
  (forall dirs,
     Forall (fun s => isName s = true) dirs ->
     buildFolder (config w) = "/" +:+ Path.join dirs ->
     buildDirOf w folder = "/" +:+ Path.join dirs) /\
  (forall root dirs,
     Forall (fun s => isName s = true) root ->
     Forall (fun s => isName s = true) dirs ->
     dirs <> [] ->
     fsPath (ws_uri folder) = "/" +:+ Path.join root ->
     buildFolder (config w) = Path.join dirs ->
     buildDirOf w folder = "/" +:+ Path.join (root ++ dirs)).
Proof.
  unfold buildDirOf. split.
  - intros dirs Hdirs ->. by apply (resolve_absolute (cwd w) [ fsPath (ws_uri folder) ]).
  - intros root dirs Hroot Hdirs Hne -> ->. by apply resolve_beneath.
Qed.

Lemma buildDirOf_names_witness :
  buildDirOf (Sample.world "mirror") Sample.ws = "/ws/builddir".
Proof.
  apply (proj2 (buildDirOf_names (Sample.world "mirror") Sample.ws) [ "ws" ] [ "builddir" ]);
    try reflexivity; try discriminate; by repeat constructor.
Defined.

(** X23. [workspaceRelative], for paths made of plain names: an absolute
    path is returned as it is, with or without a workspace root; a relative
    one is put under the root; and without a root a relative path makes it
    throw. *)
Theorem workspaceRelative_names w rootPath :
  (forall segs,
     Forall (fun s => isName s = true) segs ->
     workspaceRelative w rootPath ("/" +:+ Path.join segs) = Ok ("/" +:+ Path.join segs)) /\
  (forall root dirs,
     Forall (fun s => isName s = true) root ->
     Forall (fun s => isName s = true) dirs ->
     dirs <> [] ->
     rootPath = Some ("/" +:+ Path.join root) ->
     workspaceRelative w rootPath (Path.join dirs) = Ok ("/" +:+ Path.join (root ++ dirs))) /\
  (forall dirs,
     Forall (fun s => isName s = true) dirs ->
     rootPath = None ->
     exists e, workspaceRelative w rootPath (Path.join dirs) = Throw e).
Proof.
  unfold workspaceRelative. split; [|split].
  - intros segs Hsegs. destruct rootPath as [root|].
    + f_equal. by apply (resolve_absolute (cwd w) [ root ]).
    + cbn [Path.isAbsolute String.append]. replace (Path.isSlash "/") with true by done.
      f_equal. by apply (resolve_absolute (cwd w) []).
  - intros root dirs Hroot Hdirs Hne ->. f_equal. by apply resolve_beneath.
  - intros dirs Hdirs ->. destruct dirs as [|d dirs]; [by eexists|].
    inversion Hdirs as [|? ? Hd _]; subst.
    destruct (join_names_nonempty d dirs Hd) as (c & r & -> & Hc).
    cbn [Path.isAbsolute]. rewrite Hc. by eexists.
Qed.

Lemma workspaceRelative_names_witness :
  workspaceRelative (Sample.world "mirror") (Some "/ws") "sub/meson.build"
  = Ok "/ws/sub/meson.build".
Proof.
  apply (proj1 (proj2 (workspaceRelative_names (Sample.world "mirror") (Some "/ws")))
           [ "ws" ] [ "sub"; "meson.build" ]);
    try reflexivity; try discriminate; by repeat constructor.
Defined.
